(** * EvalForge Python SDK: a shallow embedding of the batching client

    The development follows [sdks/python/evalforge/models.py] and
    [sdks/python/evalforge/client.py].  Python values are modelled as the
    code uses them: [int] as [Z], [float] as IEEE-754 binary64 through the
    Standard Library's [spec_float], [str] as [string], [Optional[T]] as
    [option T], a raised exception as the [Raise] branch of [py_result]. *)

From Stdlib Require Import ZArith List Ascii String Bool Lia.
From Stdlib Require Import SpecFloat DecimalString.
Import ListNotations.
Open Scope string_scope.
Open Scope list_scope.
Open Scope Z_scope.

(** ** Python preliminaries *)

Module Py.

(** Exceptions the modelled code raises or catches. *)
Inductive exn :=
| ValueError (msg : string)
| TypeError (msg : string)
| OverflowError (msg : string)
| ZeroDivisionError (msg : string)
| QueueFull
| QueueEmpty
| SerializationError (msg : string).

Inductive py_result (A : Type) :=
| Ok (a : A)
| Raise (e : exn).
Arguments Ok {A} a.
Arguments Raise {A} e.

Definition bind {A B} (r : py_result A) (k : A -> py_result B) : py_result B :=
  match r with
  | Ok a => k a
  | Raise e => Raise e
  end.

(** [x or d] on an [Optional[str]]: [None] and the empty string are falsy. *)
Definition str_or (x : option string) (d : string) : string :=
  match x with
  | Some EmptyString | None => d
  | Some s => s
  end.

(** [x or d] where every non-[None] value of the type is truthy. *)
Definition obj_or {A} (x : option A) (d : A) : A :=
  match x with
  | Some a => a
  | None => d
  end.

(** [range(n)] for an [int] [n]: empty when [n <= 0]. *)
Definition range (n : Z) : list Z :=
  map Z.of_nat (seq 0 (Z.to_nat n)).

(** [len(xs)]. *)
Definition len {A} (xs : list A) : Z := Z.of_nat (List.length xs).

(** Truth value of a list: [bool(xs)]. *)
Definition truthy {A} (xs : list A) : bool :=
  match xs with
  | [] => false
  | _ :: _ => true
  end.

End Py.
Export Py.

Notation "x <- r ;; k" := (bind r (fun x => k))
  (at level 61, r at next level, right associativity).

(** ** Floats: binary64, as CPython's [float] *)

Module Float.

Definition prec : Z := 53.
Definition emax : Z := 1024.

Definition float := spec_float.

(** [float(n)] for an [int] that is exactly an integer: round to nearest even. *)
Definition of_Z (n : Z) : float := binary_normalize prec emax n 0 false.

Definition sub (x y : float) : float := SFsub prec emax x y.
Definition mul (x y : float) : float := SFmul prec emax x y.

(** [a / b] on two [int]s is the correctly rounded quotient; [SFdiv] rounds
    the exact quotient of the two integers once. *)
Definition int_mantissa (n : Z) : float :=
  match n with
  | Z0 => S754_zero false
  | Zpos p => S754_finite false p 0
  | Zneg p => S754_finite true p 0
  end.

Definition true_divide (a b : Z) : py_result float :=
  if b =? 0 then Raise (ZeroDivisionError "division by zero")
  else Ok (SFdiv prec emax (int_mantissa a) (int_mantissa b)).

(** [x >= y]; false as soon as one side is NaN. *)
Definition ge (x y : float) : bool := SFleb y x.

(** [bool(x)]: only the two zeros are falsy. *)
Definition truthy (x : float) : bool :=
  match x with
  | S754_zero _ => false
  | _ => true
  end.

(** [int(x)]: truncation towards zero; infinities and NaN raise. *)
Definition to_int (x : float) : py_result Z :=
  match x with
  | S754_zero _ => Ok 0
  | S754_infinity _ => Raise (OverflowError "cannot convert float infinity to integer")
  | S754_nan => Raise (ValueError "cannot convert float NaN to integer")
  | S754_finite s m e =>
      let a := if 0 <=? e then Z.shiftl (Zpos m) e else Z.shiftr (Zpos m) (- e) in
      Ok (if s then - a else a)
  end.

End Float.

(** ** models.py *)

(** [class TokenUsage(BaseModel)]: three [int] fields, each defaulting to 0. *)
Record TokenUsage := mkTokenUsage {
  prompt : Z;
  completion : Z;
  total : Z
}.

Module TokenUsage.

(** Keyword arguments received by [TokenUsage]; an absent keyword is [None]. *)
Record data := mkData {
  kw_prompt : option Z;
  kw_completion : option Z;
  kw_total : option Z
}.

(** The [BaseModel] initialiser: pydantic fills absent fields with [Field(default=0)]. *)
Definition base_init (d : data) : TokenUsage :=
  {| prompt := obj_or (kw_prompt d) 0;
     completion := obj_or (kw_completion d) 0;
     total := obj_or (kw_total d) 0 |}.

(** [TokenUsage.__init__]. *)
Definition __init__ (d : data) : TokenUsage :=
  let self := base_init d in
  if total self =? 0
  then {| prompt := prompt self;
          completion := completion self;
          total := prompt self + completion self |}
  else self.

Definition no_data : data :=
  {| kw_prompt := None; kw_completion := None; kw_total := None |}.

End TokenUsage.

#[local] Set Warnings "-register-all".

(** Values carried by the free-form mappings, typed [Dict[str, Any]]: JSON
    data, or an object of a class that pydantic has no serialiser for, named
    by the [repr] of its class. *)
Inductive json :=
| JNull
| JBool (b : bool)
| JInt (n : Z)
| JStr (s : string)
| JList (items : list json)
| JDict (fields : list (string * json))
| JObject (cls : string).

#[local] Set Warnings "register-all".

Definition Dict := list (string * json).

(** The class of the first object, depth first, that serialisation to JSON
    meets in a value and has no serialiser for. *)
Fixpoint unserialisable (j : json) : option string :=
  match j with
  | JNull | JBool _ | JInt _ | JStr _ => None
  | JObject cls => Some cls
  | JList items =>
      (fix first (l : list json) : option string :=
         match l with
         | [] => None
         | x :: rest =>
             match unserialisable x with
             | Some cls => Some cls
             | None => first rest
             end
         end) items
  | JDict fields =>
      (fix first (l : list (string * json)) : option string :=
         match l with
         | [] => None
         | (_, x) :: rest =>
             match unserialisable x with
             | Some cls => Some cls
             | None => first rest
             end
         end) fields
  end.

(** [datetime]: the instant in microseconds and whether [tzinfo] is set. *)
Record datetime := mkDatetime {
  micros : Z;
  aware : bool
}.

(** [timedelta]: a signed whole number of microseconds. *)
Definition timedelta := Z.

Module Datetime.

(** [a - b]: mixing naive and aware operands raises [TypeError]. *)
Definition sub (a b : datetime) : py_result timedelta :=
  if Bool.eqb (aware a) (aware b)
  then Ok (micros a - micros b)
  else Raise (TypeError "can't subtract offset-naive and offset-aware datetimes").

(** [timedelta.total_seconds()]: the microsecond count divided by [10**6]
    with true division. *)
Definition total_seconds (td : timedelta) : py_result Float.float :=
  Float.true_divide td (10 ^ 6).

End Datetime.

(** [class TraceEvent(BaseModel)]. *)
Record TraceEvent := mkTraceEvent {
  ev_id : string;
  ev_project_id : Z;
  ev_trace_id : string;
  ev_span_id : string;
  ev_parent_span_id : option string;
  ev_operation_type : string;
  ev_start_time : datetime;
  ev_end_time : datetime;
  ev_duration_ms : Z;
  ev_status : string;
  ev_input : Dict;
  ev_output : Dict;
  ev_metadata : Dict;
  ev_tokens : TokenUsage;
  ev_cost : Float.float;
  ev_provider : string;
  ev_model : string
}.

(** [event.model_dump(mode='json')].  The fields are serialised in the order
    of their declaration; a value of [input], [output] or [metadata] that
    has no serialiser raises [PydanticSerializationError], every other field
    always serialises.  The dumped mapping is represented by the event it
    was made from. *)
Definition model_dump (e : TraceEvent) : py_result TraceEvent :=
  match unserialisable (JDict (ev_input e ++ ev_output e ++ ev_metadata e)) with
  | Some cls =>
      Raise (SerializationError ("Unable to serialize unknown type: " ++ cls))
  | None => Ok e
  end.

(** ** queue.Queue, as far as the client uses it *)

Record Queue := mkQueue {
  maxsize : Z;
  items : list TraceEvent
}.

Module Queue_.

(** [queue.Queue()]: [maxsize] defaults to 0, which means no bound. *)
Definition new : Queue := {| maxsize := 0; items := [] |}.

Definition empty (q : Queue) : bool := negb (truthy (items q)).

(** [put_nowait]: raises [Full] only when [maxsize > 0] and the queue holds
    [maxsize] items. *)
Definition put_nowait (q : Queue) (e : TraceEvent) : py_result Queue :=
  if (0 <? maxsize q) && (maxsize q <=? len (items q))
  then Raise QueueFull
  else Ok {| maxsize := maxsize q; items := items q ++ [e] |}.

(** [get(timeout=...)]: the oldest item, or [Empty] once the wait is over. *)
Definition get (q : Queue) : py_result (TraceEvent * Queue) :=
  match items q with
  | [] => Raise QueueEmpty
  | e :: rest => Ok (e, {| maxsize := maxsize q; items := rest |})
  end.

End Queue_.

(** ** client.py: the [EvalForge] class *)

(** The attributes set by the constructor.  The two [threading.Event]s are
    their flags.  [_background_thread] is the [Worker.thread] that
    [System.t] pairs with the client; [_throttler] is never used after its
    construction. *)
Record EvalForge := mkEvalForge {
  api_key : string;
  project_id : Z;
  base_url : string;
  batch_size : Z;
  flush_interval : Float.float;
  max_retries : Z;
  timeout : Float.float;
  debug : bool;
  _event_queue : Queue;
  _stop_event : bool;
  _flush_event : bool
}.

(** What the code prints, one constructor per [print] call. *)
Inductive log_msg :=
| LogSending (url : string)
| LogHeaders (headers : list (string * string))
| LogSent (n : Z)
| LogApiError (status_code : Z) (text : string)
| LogSendFailed (retries : Z) (err : string)
| LogQueueFull
| LogWorkerError (e : exn).

(** Observable actions of [_send_batch]. *)
Inductive effect :=
| Print (m : log_msg)
| Post (url : string) (events : list TraceEvent)
       (headers : list (string * string)) (tmo : Float.float)
| Sleep (seconds : Z).

(** What one [requests.post] call comes back with. *)
Inductive http_outcome :=
| Response (status_code : Z) (text : string)
| RequestException (err : string).

(** [s.rstrip("/")]. *)
Fixpoint rstrip_slash (s : string) : string :=
  match s with
  | EmptyString => EmptyString
  | String c rest =>
      match rstrip_slash rest with
      | EmptyString => if Ascii.eqb c "/"%char then EmptyString else String c EmptyString
      | r => String c r
      end
  end.

(** [str(n)] for an [int]. *)
Definition str_of_int (n : Z) : string := NilZero.string_of_int (Z.to_int n).

Module EvalForge.

(** Arguments of the constructor; an argument left to its default is [None]. *)
Record kwargs := mkKwargs {
  kw_api_key : string;
  kw_project_id : Z;
  kw_base_url : option string;
  kw_batch_size : option Z;
  kw_flush_interval : option Float.float;
  kw_max_retries : option Z;
  kw_timeout : option Float.float;
  kw_debug : option bool
}.

(** [EvalForge.__init__].  The [debug] attribute is assigned the constant
    [True], whatever the argument. *)
Definition __init__ (a : kwargs) : EvalForge :=
  {| api_key := kw_api_key a;
     project_id := kw_project_id a;
     base_url := rstrip_slash (obj_or (kw_base_url a) "https://api.evalforge.dev");
     batch_size := obj_or (kw_batch_size a) 100;
     flush_interval := obj_or (kw_flush_interval a) (Float.of_Z 5);
     max_retries := obj_or (kw_max_retries a) 3;
     timeout := obj_or (kw_timeout a) (Float.of_Z 30);
     debug := true;
     _event_queue := Queue_.new;
     _stop_event := false;
     _flush_event := false |}.

Definition set_queue (self : EvalForge) (q : Queue) : EvalForge :=
  {| api_key := api_key self; project_id := project_id self;
     base_url := base_url self; batch_size := batch_size self;
     flush_interval := flush_interval self; max_retries := max_retries self;
     timeout := timeout self; debug := debug self;
     _event_queue := q;
     _stop_event := _stop_event self; _flush_event := _flush_event self |}.

Definition set_stop_event (self : EvalForge) (b : bool) : EvalForge :=
  {| api_key := api_key self; project_id := project_id self;
     base_url := base_url self; batch_size := batch_size self;
     flush_interval := flush_interval self; max_retries := max_retries self;
     timeout := timeout self; debug := debug self;
     _event_queue := _event_queue self;
     _stop_event := b; _flush_event := _flush_event self |}.

Definition set_flush_event (self : EvalForge) (b : bool) : EvalForge :=
  {| api_key := api_key self; project_id := project_id self;
     base_url := base_url self; batch_size := batch_size self;
     flush_interval := flush_interval self; max_retries := max_retries self;
     timeout := timeout self; debug := debug self;
     _event_queue := _event_queue self;
     _stop_event := _stop_event self; _flush_event := b |}.

(** *** [_send_batch] *)

Definition batch_url (self : EvalForge) : string :=
  (base_url self ++ "/sdk/v1/projects/" ++ str_of_int (project_id self)
   ++ "/events/batch")%string.

Definition batch_headers (self : EvalForge) : list (string * string) :=
  [("X-API-Key", api_key self); ("Content-Type", "application/json")].

(** [print] under [if self.debug]. *)
Definition debug_print (self : EvalForge) (ms : list log_msg) : list effect :=
  if debug self then map Print ms else [].

(** The body of [for attempt in range(self.max_retries + 1)], over the
    attempts still to run.  [transport attempt] is what [requests.post]
    comes back with at that attempt.  A [return] ends the trace, [continue]
    and falling off the end of the body both go on with the next attempt. *)
Fixpoint send_attempts (self : EvalForge) (events : list TraceEvent)
    (transport : Z -> http_outcome) (attempts : list Z) : list effect :=
  match attempts with
  | [] => []
  | attempt :: rest =>
      debug_print self [LogSending (batch_url self); LogHeaders (batch_headers self)]
      ++ Post (batch_url self) events (batch_headers self) (timeout self)
      :: match transport attempt with
         | Response status_code text =>
             if status_code =? 201 then
               debug_print self [LogSent (len events)]
             else if status_code =? 429 then
               if attempt <? max_retries self
               then Sleep (2 ^ attempt) :: send_attempts self events transport rest
               else send_attempts self events transport rest
             else
               debug_print self [LogApiError status_code text]
         | RequestException err =>
             if attempt <? max_retries self
             then Sleep (2 ^ attempt) :: send_attempts self events transport rest
             else debug_print self [LogSendFailed (max_retries self) err]
                  ++ send_attempts self events transport rest
         end
  end.

(** [[event.model_dump(mode='json') for event in events]]: the events are
    dumped in order, and the first one that raises ends the comprehension. *)
Fixpoint payload_events (events : list TraceEvent) : py_result (list TraceEvent) :=
  match events with
  | [] => Ok []
  | event :: rest =>
      dumped <- model_dump event ;;
      others <- payload_events rest ;;
      Ok (dumped :: others)
  end.

(** [_send_batch]: what it does when it returns, or the exception it raises.
    The payload is built before the loop and outside its [try], so an
    exception of [model_dump] leaves the method before anything is printed
    or requested. *)
Definition _send_batch (self : EvalForge) (events : list TraceEvent)
    (transport : Z -> http_outcome) : py_result (list effect) :=
  if negb (truthy events) then Ok []
  else
    payload <- payload_events events ;;
    Ok (send_attempts self payload transport (range (max_retries self + 1))).

(** *** [trace] *)

Record trace_kwargs := mkTraceKwargs {
  operation_type : string;
  input_data : option Dict;
  output_data : option Dict;
  metadata : option Dict;
  trace_id : option string;
  span_id : option string;
  parent_span_id : option string;
  start_time : option datetime;
  end_time : option datetime;
  status : option string;
  tokens : option TokenUsage;
  cost : option Float.float;
  provider : option string;
  model : option string
}.

(** What [trace] reads from outside: the clock and the [uuid4] draws. *)
Record trace_env := mkTraceEnv {
  now_micros : Z;
  fresh_trace_id : string;
  fresh_span_id : string;
  fresh_event_id : string
}.

(** [cost or 0.0]. *)
Definition cost_or_zero (c : option Float.float) : Float.float :=
  match c with
  | Some x => if Float.truthy x then x else S754_zero false
  | None => S754_zero false
  end.

(** [int((end_time - start_time).total_seconds() * 1000)]. *)
Definition duration_ms_of (start_time end_time : datetime) : py_result Z :=
  td <- Datetime.sub end_time start_time ;;
  secs <- Datetime.total_seconds td ;;
  Float.to_int (Float.mul secs (Float.of_Z 1000)).

(** The first part of [trace]: everything up to the built [TraceEvent]. *)
Definition build_event (self : EvalForge) (a : trace_kwargs) (env : trace_env)
    : py_result (string * TraceEvent) :=
  let now := {| micros := now_micros env; aware := true |} in
  let trace_id := str_or (trace_id a) (fresh_trace_id env) in
  let span_id := str_or (span_id a) (fresh_span_id env) in
  let start_time := obj_or (start_time a) now in
  let end_time := obj_or (end_time a) now in
  duration_ms <- duration_ms_of start_time end_time ;;
  Ok (trace_id,
      {| ev_id := fresh_event_id env;
         ev_project_id := project_id self;
         ev_trace_id := trace_id;
         ev_span_id := span_id;
         ev_parent_span_id := parent_span_id a;
         ev_operation_type := operation_type a;
         ev_start_time := start_time;
         ev_end_time := end_time;
         ev_duration_ms := duration_ms;
         ev_status := obj_or (status a) "success";
         ev_input := obj_or (input_data a) [];
         ev_output := obj_or (output_data a) [];
         ev_metadata := obj_or (metadata a) [];
         ev_tokens := obj_or (tokens a) (TokenUsage.__init__ TokenUsage.no_data);
         ev_cost := cost_or_zero (cost a);
         ev_provider := str_or (provider a) "";
         ev_model := str_or (model a) "" |}).

(** [EvalForge.trace]: the returned value (or the exception raised), the
    client afterwards, and what was printed. *)
Definition trace (self : EvalForge) (a : trace_kwargs) (env : trace_env)
    : py_result string * EvalForge * list effect :=
  match build_event self a env with
  | Raise e => (Raise e, self, [])
  | Ok (trace_id, event) =>
      match Queue_.put_nowait (_event_queue self) event with
      | Ok q => (Ok trace_id, set_queue self q, [])
      | Raise _ => (Ok trace_id, self, debug_print self [LogQueueFull])
      end
  end.

(** *** [flush] and [close] *)

(** One evaluation of the polling condition of [flush]: what
    [self._event_queue.empty()] and [time.time()] return at that moment.  The
    queue is drained by the worker thread meanwhile, so both are inputs. *)
Record poll := mkPoll {
  seen_empty : bool;
  clock : Float.float
}.

(** The [while] loop of [flush]; [final_empty] is what [empty()] returns for
    the [return] statement.  [None] means the supplied observations ended
    while the loop was still polling. *)
Fixpoint flush_wait (started tmo : Float.float) (polls : list poll)
    (final_empty : bool) : option bool :=
  match polls with
  | [] => None
  | p :: rest =>
      if negb (seen_empty p) && SFltb (Float.sub (clock p) started) tmo
      then flush_wait started tmo rest final_empty
      else Some final_empty
  end.

Definition flush (self : EvalForge) (tmo : Float.float) (started : Float.float)
    (polls : list poll) (final_empty : bool) : option bool * EvalForge :=
  (flush_wait started tmo polls final_empty, set_flush_event self true).

(** [close]: the stop signal, then [flush(timeout=5.0)]; the bounded [join]
    that follows only waits. *)
Definition close (self : EvalForge) (started : Float.float) (polls : list poll)
    (final_empty : bool) : option bool * EvalForge :=
  flush (set_stop_event self true) (Float.of_Z 5) started polls final_empty.

End EvalForge.

(** *** [_background_worker] *)

(** The two locals of the worker function. *)
Record worker_locals := mkLocals {
  batch : list TraceEvent;
  last_flush : Float.float
}.

(** What the worker thread does that the rest of the program can observe:
    a [get] on the queue, a call of [_send_batch] with how it ended, and what
    the thread itself prints. *)
Inductive worker_event :=
| Dequeued (got : option TraceEvent)
| SendBatch (events : list TraceEvent) (io : py_result (list effect))
| Printed (m : log_msg).

Module Worker.

(** [event = self._event_queue.get(timeout=1.0); batch.append(event)], with
    [queue.Empty] swallowed.  [task_done] only maintains the counter read by
    [Queue.join], which nothing here calls. *)
Definition pull (self : EvalForge) (w : worker_locals)
    : option TraceEvent * Queue * list TraceEvent :=
  match Queue_.get (_event_queue self) with
  | Ok (event, q) => (Some event, q, batch w ++ [event])
  | Raise _ => (None, _event_queue self, batch w)
  end.

(** The batch the flush condition looks at in this iteration. *)
Definition accumulated (self : EvalForge) (w : worker_locals) : list TraceEvent :=
  snd (pull self w).

(** [current_time - last_flush]. *)
Definition elapsed (current_time : Float.float) (w : worker_locals) : Float.float :=
  Float.sub current_time (last_flush w).

(** The expression assigned to [should_flush], as a truth value. *)
Definition should_flush (self : EvalForge) (batch : list TraceEvent)
    (current_time : Float.float) (w : worker_locals) : bool :=
  (len batch >=? batch_size self)
  || (truthy batch && Float.ge (elapsed current_time w) (flush_interval self))
  || _flush_event self.

(** [print] under [if self.debug], in the worker thread. *)
Definition worker_print (self : EvalForge) (m : log_msg) : list worker_event :=
  if debug self then [Printed m] else [].

(** One pass through the body of the [while] loop.  When [_send_batch]
    raises, the three statements after the call are skipped: the
    [except Exception] handler prints and the loop goes on with the batch,
    [last_flush] and the flush flag as they were. *)
Definition iteration (self : EvalForge) (w : worker_locals)
    (current_time : Float.float) (transport : Z -> http_outcome)
    : EvalForge * worker_locals * list worker_event :=
  let '(got, q, batch) := pull self w in
  let self := EvalForge.set_queue self q in
  if should_flush self batch current_time w && truthy batch then
    match EvalForge._send_batch self batch transport with
    | Ok io =>
        (EvalForge.set_flush_event self false,
         {| batch := []; last_flush := current_time |},
         [Dequeued got; SendBatch batch (Ok io)])
    | Raise e =>
        (self, {| batch := batch; last_flush := last_flush w |},
         [Dequeued got; SendBatch batch (Raise e)]
         ++ worker_print self (LogWorkerError e))
    end
  else
    (self, {| batch := batch; last_flush := last_flush w |}, [Dequeued got]).

(** After the loop: [if batch: self._send_batch(batch)], outside any [try]:
    an exception of the call ends the thread as well. *)
Definition final_flush (self : EvalForge) (w : worker_locals)
    (transport : Z -> http_outcome) : list worker_event :=
  if truthy (batch w)
  then [SendBatch (batch w) (EvalForge._send_batch self (batch w) transport)]
  else [].

(** The worker thread: inside the function with its locals, or returned. *)
Inductive thread :=
| Running (w : worker_locals)
| Terminated.

(** From one evaluation of the loop condition to the next: either the loop
    is left, the final flush runs and the thread ends, or one iteration runs. *)
Definition turn (self : EvalForge) (th : thread)
    (current_time : Float.float) (transport : Z -> http_outcome)
    : EvalForge * thread * list worker_event :=
  match th with
  | Terminated => (self, Terminated, [])
  | Running w =>
      if _stop_event self
      then (self, Terminated, final_flush self w transport)
      else let '(self', w', out) := iteration self w current_time transport in
           (self', Running w', out)
  end.

End Worker.

(** ** client.py: module-level state and functions *)

Module Global.

(** [_global_client: Optional[EvalForge]]. *)
Definition state := option EvalForge.

Definition initial : state := None.

Definition configure (a : EvalForge.kwargs) : EvalForge * state :=
  let client := EvalForge.__init__ a in (client, Some client).

Definition get_client (g : state) : option EvalForge := g.

Definition not_configured : string :=
  "EvalForge client not configured. Call evalforge.configure() first.".

(** Module-level [trace]. *)
Definition trace (g : state) (a : EvalForge.trace_kwargs) (env : EvalForge.trace_env)
    : py_result string * state * list effect :=
  match get_client g with
  | None => (Raise (ValueError not_configured), g, [])
  | Some client =>
      let '(r, client', out) := EvalForge.trace client a env in
      (r, Some client', out)
  end.

(** Module-level [flush]. *)
Definition flush (g : state) (tmo started : Float.float)
    (polls : list EvalForge.poll) (final_empty : bool) : option bool * state :=
  match get_client g with
  | None => (Some true, g)
  | Some client =>
      let '(r, client') := EvalForge.flush client tmo started polls final_empty in
      (r, Some client')
  end.

End Global.

(** ** The client and its worker thread, interleaved *)

Module System.

(** A client shares its queue and its two flags with the worker it started. *)
Record t := mkSystem {
  client : EvalForge;
  worker : Worker.thread
}.

(** Construction starts the worker at once; [started] is its first
    [time.time()]. *)
Definition start (a : EvalForge.kwargs) (started : Float.float) : t :=
  {| client := EvalForge.__init__ a;
     worker := Worker.Running {| batch := []; last_flush := started |} |}.

(** What may happen next: a caller thread records an event, asks for a flush
    or sets the stop signal, or the worker thread takes its next turn.  A
    worker turn is atomic with respect to the flags. *)
Inductive action :=
| CallTrace (a : EvalForge.trace_kwargs) (env : EvalForge.trace_env)
| SetFlush
| SetStop
| WorkerTurn (current_time : Float.float) (transport : Z -> http_outcome).

Definition step (s : t) (act : action) : t * list worker_event :=
  match act with
  | CallTrace a env =>
      let '(_, c, _) := EvalForge.trace (client s) a env in
      ({| client := c; worker := worker s |}, [])
  | SetFlush =>
      ({| client := EvalForge.set_flush_event (client s) true; worker := worker s |}, [])
  | SetStop =>
      ({| client := EvalForge.set_stop_event (client s) true; worker := worker s |}, [])
  | WorkerTurn current_time transport =>
      let '(c, th, out) := Worker.turn (client s) (worker s) current_time transport in
      ({| client := c; worker := th |}, out)
  end.

Fixpoint run (s : t) (acts : list action) : t * list worker_event :=
  match acts with
  | [] => (s, [])
  | act :: rest =>
      let '(s1, out1) := step s act in
      let '(s2, out2) := run s1 rest in
      (s2, out1 ++ out2)
  end.

End System.

(** ** Observers used in the statements *)

Definition is_print (e : effect) : bool :=
  match e with
  | Print _ => true
  | _ => false
  end.

(** A trace without what was printed: the requests and the waits, in order. *)
Definition without_prints (tr : list effect) : list effect :=
  filter (fun e => negb (is_print e)) tr.

(** The requests of a trace. *)
Definition posts (tr : list effect) : list effect :=
  filter (fun e => match e with Post _ _ _ _ => true | _ => false end) tr.

(** The waits of a trace, in seconds. *)
Fixpoint sleeps (tr : list effect) : list Z :=
  match tr with
  | [] => []
  | Sleep n :: rest => n :: sleeps rest
  | _ :: rest => sleeps rest
  end.

(** The batches handed to [_send_batch] during some worker events. *)
Fixpoint sent_batches (out : list worker_event) : list (list TraceEvent) :=
  match out with
  | [] => []
  | SendBatch events _ :: rest => events :: sent_batches rest
  | Dequeued _ :: rest => sent_batches rest
  | Printed _ :: rest => sent_batches rest
  end.

(** The outcomes of the [get] calls made during some worker events. *)
Fixpoint dequeues (out : list worker_event) : list (option TraceEvent) :=
  match out with
  | [] => []
  | Dequeued got :: rest => got :: dequeues rest
  | SendBatch _ _ :: rest => dequeues rest
  | Printed _ :: rest => dequeues rest
  end.

(** The request [_send_batch] issues at every attempt. *)
Definition the_post (self : EvalForge) (events : list TraceEvent) : effect :=
  Post (EvalForge.batch_url self) events (EvalForge.batch_headers self) (timeout self).

(** What is printed ahead of each request. *)
Definition preamble (self : EvalForge) : list effect :=
  EvalForge.debug_print self
    [LogSending (EvalForge.batch_url self); LogHeaders (EvalForge.batch_headers self)].

(** [retries] rounds of request-then-wait with the wait doubling from one
    second, closed by one last request. *)
Definition backoff_schedule (post : effect) (retries : Z) : list effect :=
  flat_map (fun k => [post; Sleep (2 ^ k)]) (range retries) ++ [post].

(** ** Sample values for the examples *)

Module Sample.

Definition kw : EvalForge.kwargs :=
  {| EvalForge.kw_api_key := "key"; EvalForge.kw_project_id := 7;
     EvalForge.kw_base_url := Some "https://collector.test/";
     EvalForge.kw_batch_size := Some 2;
     EvalForge.kw_flush_interval := None;
     EvalForge.kw_max_retries := Some 2;
     EvalForge.kw_timeout := None;
     EvalForge.kw_debug := Some false |}.

Definition client : EvalForge := EvalForge.__init__ kw.

Definition op (name : string) (t0 t1 : option datetime) : EvalForge.trace_kwargs :=
  {| EvalForge.operation_type := name;
     EvalForge.input_data := None; EvalForge.output_data := None;
     EvalForge.metadata := None;
     EvalForge.trace_id := Some "trace-1"; EvalForge.span_id := None;
     EvalForge.parent_span_id := None;
     EvalForge.start_time := t0; EvalForge.end_time := t1;
     EvalForge.status := None; EvalForge.tokens := None;
     EvalForge.cost := None; EvalForge.provider := None;
     EvalForge.model := None |}.

Definition env : EvalForge.trace_env :=
  {| EvalForge.now_micros := 1700000000000000;
     EvalForge.fresh_trace_id := "uuid-a";
     EvalForge.fresh_span_id := "uuid-b";
     EvalForge.fresh_event_id := "uuid-c" |}.

Definition utc (us : Z) : datetime := {| micros := us; aware := true |}.

Definition event : TraceEvent :=
  {| ev_id := "uuid-c"; ev_project_id := 7; ev_trace_id := "trace-1";
     ev_span_id := "uuid-b"; ev_parent_span_id := None;
     ev_operation_type := "llm_call";
     ev_start_time := utc 1700000000000000;
     ev_end_time := utc 1700000000000000;
     ev_duration_ms := 0; ev_status := "success";
     ev_input := []; ev_output := []; ev_metadata := [];
     ev_tokens := {| prompt := 0; completion := 0; total := 0 |};
     ev_cost := S754_zero false; ev_provider := ""; ev_model := "" |}.

Definition always_429 (attempt : Z) : http_outcome := Response 429 "slow down".

Definition always_201 (attempt : Z) : http_outcome := Response 201 "created".

(** 429 at the first attempt, 503 at the second, 201 afterwards. *)
Definition mixed (attempt : Z) : http_outcome :=
  if attempt =? 0 then Response 429 "slow down"
  else if attempt =? 1 then Response 503 "unavailable"
  else Response 201 "created".

(** A worker holding one event, last flushed at time 0. *)
Definition one_pending : worker_locals :=
  {| batch := [event]; last_flush := Float.of_Z 0 |}.


(** The sample client after [close] has set the stop signal, its worker
    holding one event, below the batch size of 2. *)
Definition stopping : System.t :=
  {| System.client := EvalForge.set_stop_event client true;
     System.worker := Worker.Running one_pending |}.

End Sample.

(** ** Further observers *)

(** The outcomes after which [_send_batch] tries again while attempts are
    left: a 429 response and a [RequestException]. *)
Definition retryable (o : http_outcome) : bool :=
  match o with
  | Response status_code _ => status_code =? 429
  | RequestException _ => true
  end.

(** What is printed when an attempt ends the call with a response. *)
Definition closing_message (events : list TraceEvent) (o : http_outcome) : list log_msg :=
  match o with
  | Response status_code text =>
      if status_code =? 201 then [LogSent (len events)]
      else [LogApiError status_code text]
  | RequestException _ => []
  end.

(** What is printed after the last attempt when its outcome was retryable:
    the failure notice for a [RequestException], nothing for a 429. *)
Definition exhausted_message (self : EvalForge) (o : http_outcome) : list log_msg :=
  match o with
  | Response _ _ => []
  | RequestException err => [LogSendFailed (max_retries self) err]
  end.

(** The event [trace] builds for a given duration. *)
Definition event_with (self : EvalForge) (a : EvalForge.trace_kwargs)
    (env : EvalForge.trace_env) (duration_ms : Z) : TraceEvent :=
  let now := {| micros := EvalForge.now_micros env; aware := true |} in
  {| ev_id := EvalForge.fresh_event_id env;
     ev_project_id := project_id self;
     ev_trace_id := str_or (EvalForge.trace_id a) (EvalForge.fresh_trace_id env);
     ev_span_id := str_or (EvalForge.span_id a) (EvalForge.fresh_span_id env);
     ev_parent_span_id := EvalForge.parent_span_id a;
     ev_operation_type := EvalForge.operation_type a;
     ev_start_time := obj_or (EvalForge.start_time a) now;
     ev_end_time := obj_or (EvalForge.end_time a) now;
     ev_duration_ms := duration_ms;
     ev_status := obj_or (EvalForge.status a) "success";
     ev_input := obj_or (EvalForge.input_data a) [];
     ev_output := obj_or (EvalForge.output_data a) [];
     ev_metadata := obj_or (EvalForge.metadata a) [];
     ev_tokens := obj_or (EvalForge.tokens a) (TokenUsage.__init__ TokenUsage.no_data);
     ev_cost := EvalForge.cost_or_zero (EvalForge.cost a);
     ev_provider := str_or (EvalForge.provider a) "";
     ev_model := str_or (EvalForge.model a) "" |}.

(** A client with one more event at the end of its queue. *)
Definition enqueued (self : EvalForge) (ev : TraceEvent) : EvalForge :=
  EvalForge.set_queue self
    {| maxsize := 0; items := items (_event_queue self) ++ [ev] |}.



Module Ledger.

(** The batch a worker thread holds. *)
Definition held (th : Worker.thread) : list TraceEvent :=
  match th with
  | Worker.Running w => batch w
  | Worker.Terminated => []
  end.

(** The event an action hands to [trace], when [trace] gets to build it. *)
Definition offered (s : System.t) (act : System.action) : list TraceEvent :=
  match act with
  | System.CallTrace a env =>
      match EvalForge.build_event (System.client s) a env with
      | Ok (_, ev) => [ev]
      | Raise _ => []
      end
  | _ => []
  end.

(** All events built by the [trace] calls of a run, in call order. *)
Fixpoint recorded (s : System.t) (acts : list System.action) : list TraceEvent :=
  match acts with
  | [] => []
  | act :: rest => offered s act ++ recorded (fst (System.step s act)) rest
  end.

(** Everything handed to [_send_batch] during some worker events, batch
    after batch. *)
Definition delivered (out : list worker_event) : list TraceEvent :=
  List.concat (sent_batches out).

End Ledger.

(** ** config.py *)

Module Config.

(** [class Config]: the attributes set by its constructor. *)
Record t := mkConfig {
  api_key : option string;
  project_id : option Z;
  base_url : string;
  batch_size : Z;
  flush_interval : Float.float;
  max_retries : Z;
  timeout : Float.float;
  debug : bool
}.

(** [Config.__init__]. *)
Definition __init__ : t :=
  {| api_key := None;
     project_id := None;
     base_url := "https://api.evalforge.dev";
     batch_size := 100;
     flush_interval := Float.of_Z 5;
     max_retries := 3;
     timeout := Float.of_Z 30;
     debug := false |}.

(** [c.lower()] on one byte: the letters A to Z move to a to z.  Bytes of
    non-ASCII characters stay; lowering such a character never yields one of
    the letters of the words tested below. *)
Definition lower_ascii (c : ascii) : ascii :=
  let n := nat_of_ascii c in
  if (Nat.leb 65 n && Nat.leb n 90)%bool then ascii_of_nat (n + 32) else c.

Fixpoint lower (s : string) : string :=
  match s with
  | EmptyString => EmptyString
  | String c rest => String (lower_ascii c) (lower rest)
  end.

(** [s in (w1, w2, ...)]. *)
Definition str_in (s : string) (words : list string) : bool :=
  existsb (String.eqb s) words.

Definition debug_words : list string := ["true"; "1"; "yes"; "on"].

Definition invalid (name value : string) : exn :=
  ValueError ("Invalid " ++ name ++ ": " ++ value)%string.

Section FromEnv.

(** [int(s)] and [float(s)] on a string, [None] standing for [ValueError],
    and [os.getenv]. *)
Variable int_of_str : string -> option Z.
Variable float_of_str : string -> option Float.float.
Variable getenv : string -> option string.

(** The block repeated for each numeric setting: read the variable; if it is
    set and not empty, parse it, turning a [ValueError] into one that names
    the variable.  [None] means the setting keeps its default. *)
Definition read {A : Type} (parse : string -> option A) (name : string)
    : py_result (option A) :=
  match getenv name with
  | None => Ok None
  | Some value =>
      if (value =? "")%string then Ok None
      else match parse value with
           | Some v => Ok (Some v)
           | None => Raise (invalid name value)
           end
  end.

(** [Config.from_env]. *)
Definition from_env : py_result t :=
  let config := __init__ in
  let api_key_ := getenv "EVALFORGE_API_KEY" in
  project_id_ <- read int_of_str "EVALFORGE_PROJECT_ID" ;;
  let base_url_ := obj_or (getenv "EVALFORGE_BASE_URL") (base_url config) in
  batch_size_ <- read int_of_str "EVALFORGE_BATCH_SIZE" ;;
  flush_interval_ <- read float_of_str "EVALFORGE_FLUSH_INTERVAL" ;;
  max_retries_ <- read int_of_str "EVALFORGE_MAX_RETRIES" ;;
  timeout_ <- read float_of_str "EVALFORGE_TIMEOUT" ;;
  let debug_ := lower (obj_or (getenv "EVALFORGE_DEBUG") "") in
  Ok {| api_key := api_key_;
        project_id := project_id_;
        base_url := base_url_;
        batch_size := obj_or batch_size_ (batch_size config);
        flush_interval := obj_or flush_interval_ (flush_interval config);
        max_retries := obj_or max_retries_ (max_retries config);
        timeout := obj_or timeout_ (timeout config);
        debug := str_in debug_ debug_words |}.

(** The module-level [load_from_env]: [_config] is replaced by what
    [from_env] returns; when that raises, [_config] stays. *)
Definition load_from_env (_config : t) : py_result unit * t :=
  match from_env with
  | Ok config => (Ok tt, config)
  | Raise e => (Raise e, _config)
  end.

(** A variable set to a non-empty value that does not parse. *)
Definition unparsable {A : Type} (parse : string -> option A) (name : string) : Prop :=
  exists value, getenv name = Some value /\ value <> "" /\ parse value = None.

(** The exception [from_env] raises for such a variable. *)
Definition reports {A : Type} (parse : string -> option A) (name : string)
    (e : exn) : Prop :=
  exists value,
    getenv name = Some value /\ value <> "" /\ parse value = None
    /\ e = invalid name value.

(** A variable left out of the environment or set to the empty string. *)
Definition unset_or_empty (name : string) : Prop :=
  getenv name = None \/ getenv name = Some "".

End FromEnv.

(** Arguments of the module-level [configure]; [None] is an argument left
    out. *)
Record settings := mkSettings {
  s_api_key : option string;
  s_project_id : option Z;
  s_base_url : option string;
  s_batch_size : option Z;
  s_flush_interval : option Float.float;
  s_max_retries : option Z;
  s_timeout : option Float.float;
  s_debug : option bool
}.

(** [x if x is not None else y] on two optional values. *)
Definition first_some {A : Type} (x y : option A) : option A :=
  match x with
  | Some _ => x
  | None => y
  end.

(** The module-level [configure]: each argument that is not [None] is
    assigned to its attribute of [_config]. *)
Definition configure (_config : t) (a : settings) : t :=
  {| api_key := first_some (s_api_key a) (api_key _config);
     project_id := first_some (s_project_id a) (project_id _config);
     base_url := obj_or (s_base_url a) (base_url _config);
     batch_size := obj_or (s_batch_size a) (batch_size _config);
     flush_interval := obj_or (s_flush_interval a) (flush_interval _config);
     max_retries := obj_or (s_max_retries a) (max_retries _config);
     timeout := obj_or (s_timeout a) (timeout _config);
     debug := obj_or (s_debug a) (debug _config) |}.

Definition get_config (_config : t) : t := _config.

(** Two argument lists put into one: the later call wins where it says
    something. *)
Definition merge (later earlier : settings) : settings :=
  {| s_api_key := first_some (s_api_key later) (s_api_key earlier);
     s_project_id := first_some (s_project_id later) (s_project_id earlier);
     s_base_url := first_some (s_base_url later) (s_base_url earlier);
     s_batch_size := first_some (s_batch_size later) (s_batch_size earlier);
     s_flush_interval := first_some (s_flush_interval later) (s_flush_interval earlier);
     s_max_retries := first_some (s_max_retries later) (s_max_retries earlier);
     s_timeout := first_some (s_timeout later) (s_timeout earlier);
     s_debug := first_some (s_debug later) (s_debug earlier) |}.

Definition nothing : settings :=
  {| s_api_key := None; s_project_id := None; s_base_url := None;
     s_batch_size := None; s_flush_interval := None; s_max_retries := None;
     s_timeout := None; s_debug := None |}.

End Config.

(** ** decorators.py *)

(** What the instrumentation sees of an exception: [type(e).__name__],
    [str(e)], and whether it is an instance of [Exception] (a
    [KeyboardInterrupt] or [SystemExit] is not). *)
Record raised := mkRaised {
  exc_type : string;
  exc_str : string;
  is_Exception : bool
}.

(** The exceptions of [Py.exn], all of them subclasses of [Exception], seen
    that way. *)
Definition raised_of (e : exn) : raised :=
  match e with
  | ValueError msg => {| exc_type := "ValueError"; exc_str := msg; is_Exception := true |}
  | TypeError msg => {| exc_type := "TypeError"; exc_str := msg; is_Exception := true |}
  | OverflowError msg =>
      {| exc_type := "OverflowError"; exc_str := msg; is_Exception := true |}
  | ZeroDivisionError msg =>
      {| exc_type := "ZeroDivisionError"; exc_str := msg; is_Exception := true |}
  | QueueFull => {| exc_type := "Full"; exc_str := ""; is_Exception := true |}
  | QueueEmpty => {| exc_type := "Empty"; exc_str := ""; is_Exception := true |}
  | SerializationError msg =>
      {| exc_type := "PydanticSerializationError"; exc_str := msg;
         is_Exception := true |}
  end.

(** [{"error": str(e), "error_type": type(e).__name__}]. *)
Definition error_dict (e : raised) : Dict :=
  [("error", JStr (exc_str e)); ("error_type", JStr (exc_type e))].

(** [d[key] = value] on a dict kept in insertion order. *)
Fixpoint dict_set (d : Dict) (key : string) (value : json) : Dict :=
  match d with
  | [] => [(key, value)]
  | (k, v) :: rest =>
      if (k =? key)%string then (key, value) :: rest
      else (k, v) :: dict_set rest key value
  end.

(** [class TraceContext]: its attributes.  [output_data] exists only once
    [set_output] has been called. *)
Record TraceContext := mkTraceContext {
  tc_operation_type : string;
  tc_input_data : Dict;
  tc_metadata : Dict;
  tc_provider : string;
  tc_model : string;
  tc_parent_span_id : option string;
  tc_trace_id : string;
  tc_span_id : string;
  tc_start_time : option datetime;
  tc_end_time : option datetime;
  tc_output_data : option Dict
}.

Module TraceContext.

Record kwargs := mkKwargs {
  kw_operation_type : string;
  kw_input_data : option Dict;
  kw_metadata : option Dict;
  kw_provider : option string;
  kw_model : option string;
  kw_parent_span_id : option string
}.

(** [TraceContext.__init__]; [uuid_trace] and [uuid_span] are its two
    [uuid4] draws, in that order. *)
Definition __init__ (a : kwargs) (uuid_trace uuid_span : string) : TraceContext :=
  {| tc_operation_type := kw_operation_type a;
     tc_input_data := obj_or (kw_input_data a) [];
     tc_metadata := obj_or (kw_metadata a) [];
     tc_provider := str_or (kw_provider a) "";
     tc_model := str_or (kw_model a) "";
     tc_parent_span_id := kw_parent_span_id a;
     tc_trace_id := uuid_trace;
     tc_span_id := uuid_span;
     tc_start_time := None;
     tc_end_time := None;
     tc_output_data := None |}.

Definition set_times (self : TraceContext) (t0 t1 : option datetime) : TraceContext :=
  {| tc_operation_type := tc_operation_type self;
     tc_input_data := tc_input_data self;
     tc_metadata := tc_metadata self;
     tc_provider := tc_provider self;
     tc_model := tc_model self;
     tc_parent_span_id := tc_parent_span_id self;
     tc_trace_id := tc_trace_id self;
     tc_span_id := tc_span_id self;
     tc_start_time := t0;
     tc_end_time := t1;
     tc_output_data := tc_output_data self |}.

(** [__enter__]: the start time is the current time, in UTC. *)
Definition __enter__ (self : TraceContext) (now_micros : Z) : TraceContext :=
  set_times self (Some {| micros := now_micros; aware := true |}) (tc_end_time self).

(** The keyword arguments [__exit__] passes to [client.trace]. *)
Definition exit_call (self : TraceContext) (exc : option raised)
    : EvalForge.trace_kwargs :=
  {| EvalForge.operation_type := tc_operation_type self;
     EvalForge.input_data := Some (tc_input_data self);
     EvalForge.output_data :=
       Some (match exc with
             | Some e => error_dict e
             | None => []
             end);
     EvalForge.metadata := Some (tc_metadata self);
     EvalForge.trace_id := Some (tc_trace_id self);
     EvalForge.span_id := Some (tc_span_id self);
     EvalForge.parent_span_id := tc_parent_span_id self;
     EvalForge.start_time := tc_start_time self;
     EvalForge.end_time := tc_end_time self;
     EvalForge.status :=
       Some (match exc with
             | Some _ => "error"
             | None => "success"
             end);
     EvalForge.tokens := None;
     EvalForge.cost := None;
     EvalForge.provider := Some (tc_provider self);
     EvalForge.model := Some (tc_model self) |}.

(** [__exit__], given the exception leaving the block if there is one.  It
    returns [None] on every path, so that exception goes on propagating; the
    result here is [Raise] only when [client.trace] itself raises. *)
Definition __exit__ (self : TraceContext) (exc : option raised)
    (g : Global.state) (now_micros : Z) (env : EvalForge.trace_env)
    : py_result unit * TraceContext * Global.state :=
  match Global.get_client g with
  | None => (Ok tt, self, g)
  | Some client =>
      let self := set_times self (tc_start_time self)
                    (Some {| micros := now_micros; aware := true |}) in
      let '(r, client', _) := EvalForge.trace client (exit_call self exc) env in
      (x <- r ;; Ok tt, self, Some client')
  end.

(** [child]: a new context below this one. *)
Definition child (self : TraceContext) (a : kwargs) (uuid_trace uuid_span : string)
    : TraceContext :=
  __init__ {| kw_operation_type := kw_operation_type a;
              kw_input_data := kw_input_data a;
              kw_metadata := kw_metadata a;
              kw_provider := Some (str_or (kw_provider a) (tc_provider self));
              kw_model := Some (str_or (kw_model a) (tc_model self));
              kw_parent_span_id := Some (tc_span_id self) |}
    uuid_trace uuid_span.

Definition set_output (self : TraceContext) (output_data : Dict) : TraceContext :=
  {| tc_operation_type := tc_operation_type self;
     tc_input_data := tc_input_data self;
     tc_metadata := tc_metadata self;
     tc_provider := tc_provider self;
     tc_model := tc_model self;
     tc_parent_span_id := tc_parent_span_id self;
     tc_trace_id := tc_trace_id self;
     tc_span_id := tc_span_id self;
     tc_start_time := tc_start_time self;
     tc_end_time := tc_end_time self;
     tc_output_data := Some output_data |}.

Definition add_metadata (self : TraceContext) (key : string) (value : json)
    : TraceContext :=
  {| tc_operation_type := tc_operation_type self;
     tc_input_data := tc_input_data self;
     tc_metadata := dict_set (tc_metadata self) key value;
     tc_provider := tc_provider self;
     tc_model := tc_model self;
     tc_parent_span_id := tc_parent_span_id self;
     tc_trace_id := tc_trace_id self;
     tc_span_id := tc_span_id self;
     tc_start_time := tc_start_time self;
     tc_end_time := tc_end_time self;
     tc_output_data := tc_output_data self |}.

End TraceContext.

Module Decorator.

(** The arguments of [trace(...)], the decorator factory. *)
Record options := mkOptions {
  operation_type : option string;
  capture_args : bool;
  capture_result : bool;
  capture_exceptions : bool;
  include_private_args : bool;
  provider : option string;
  model : option string
}.

(** A Python value as the capture code tells values apart: an instance of
    [str], [int], [float], [bool], [list], [dict] or [NoneType], kept as it
    is, or any other object, of which only the type name and the outcome of
    [str(...)] matter. *)
Inductive value :=
| Plain (j : json)
| Object (type_name : string) (str_ : py_result string).

(** How the call of the decorated function ends. *)
Inductive outcome :=
| Returns (v : value)
| Raises (e : raised).

(** One call through the wrapper: the function's [__name__], [__module__]
    and [__qualname__], what [inspect.signature(func).bind(...)] with
    [apply_defaults] gives for the arguments (or the [TypeError] it raises),
    and how the function itself ends on them. *)
Record call := mkCall {
  func_name : string;
  func_module : string;
  func_qualname : string;
  bound_arguments : py_result (list (string * value));
  func_outcome : outcome
}.

(** What the wrapper reads from outside when a client is configured: its two
    [uuid4] draws, the clock before and after the call, the clock of the
    exception handler should the first [client.trace] raise, and what
    [client.trace] itself reads, for the first and for a second call of it. *)
Record env := mkEnv {
  uuid_trace : string;
  uuid_span : string;
  start_micros : Z;
  end_micros : Z;
  handler_micros : Z;
  trace_env : EvalForge.trace_env;
  trace_env_again : EvalForge.trace_env
}.

(** The value stored for an argument or a result. *)
Definition captured (v : value) : json :=
  match v with
  | Plain j => j
  | Object _ (Ok s) => JStr s
  | Object type_name (Raise _) => JStr ("<" ++ type_name ++ ">")%string
  end.

(** [name.startswith('_')]. *)
Definition is_private (name : string) : bool :=
  match name with
  | String c _ => Ascii.eqb c "_"%char
  | EmptyString => false
  end.

(** The loop filling [input_data] from the bound arguments. *)
Definition capture_arguments (o : options) (args : list (string * value)) : Dict :=
  map (fun kv => (fst kv, captured (snd kv)))
    (filter (fun kv => include_private_args o || negb (is_private (fst kv))) args).

(** [input_data] as the wrapper has it before it calls the function: empty
    without [capture_args], else the captured bound arguments; binding may
    raise. *)
Definition gather (o : options) (c : call) : py_result Dict :=
  if capture_args o
  then args <- bound_arguments c ;; Ok (capture_arguments o args)
  else Ok [].

(** The arguments of both [client.trace] calls of the wrapper. *)
Definition trace_call (o : options) (c : call) (e : env) (input_data output_data : Dict)
    (end_time : Z) (status : string) : EvalForge.trace_kwargs :=
  {| EvalForge.operation_type := str_or (operation_type o) (func_name c);
     EvalForge.input_data := Some input_data;
     EvalForge.output_data := Some output_data;
     EvalForge.metadata :=
       Some [("function", JStr (func_name c));
             ("module", JStr (func_module c));
             ("qualified_name", JStr (func_qualname c))];
     EvalForge.trace_id := Some (uuid_trace e);
     EvalForge.span_id := Some (uuid_span e);
     EvalForge.parent_span_id := None;
     EvalForge.start_time := Some {| micros := start_micros e; aware := true |};
     EvalForge.end_time := Some {| micros := end_time; aware := true |};
     EvalForge.status := Some status;
     EvalForge.tokens := None;
     EvalForge.cost := None;
     EvalForge.provider := Some (str_or (provider o) "");
     EvalForge.model := Some (str_or (model o) "") |}.

(** The [except Exception as e] branch: record the error, then re-raise; an
    exception raised by the recording replaces [e]. *)
Definition handler (o : options) (c : call) (e : env) (input_data : Dict)
    (exc : raised) (end_time : Z) (tenv : EvalForge.trace_env) (client : EvalForge)
    : outcome * EvalForge :=
  let error_data := if capture_exceptions o then error_dict exc else [] in
  let '(r, client', _) :=
    EvalForge.trace client
      (trace_call o c e input_data error_data end_time "error") tenv in
  match r with
  | Ok _ => (Raises exc, client')
  | Raise e' => (Raises (raised_of e'), client')
  end.

(** The [wrapper] that the decorator puts in place of the function: how the
    call ends for the caller, and the global client afterwards. *)
Definition wrapper (o : options) (c : call) (g : Global.state) (e : env)
    : outcome * Global.state :=
  match Global.get_client g with
  | None => (func_outcome c, g)
  | Some client =>
      match gather o c with
      | Raise err => (Raises (raised_of err), g)
      | Ok input_data =>
          match func_outcome c with
          | Returns v =>
              let output_data :=
                if capture_result o then [("result", captured v)] else [] in
              let '(r, client', _) :=
                EvalForge.trace client
                  (trace_call o c e input_data output_data (end_micros e) "success")
                  (trace_env e) in
              match r with
              | Ok _ => (Returns v, Some client')
              | Raise err =>
                  let '(out, client'') :=
                    handler o c e input_data (raised_of err) (handler_micros e)
                      (trace_env_again e) client' in
                  (out, Some client'')
              end
          | Raises exc =>
              if is_Exception exc then
                let '(out, client') :=
                  handler o c e input_data exc (end_micros e) (trace_env e) client in
                (out, Some client')
              else (Raises exc, g)
          end
      end
  end.

End Decorator.

(** ** wrappers.py: token extraction and cost *)

Module Wrappers.

(** [response.usage] of an OpenAI response. *)
Record openai_usage := mkOpenaiUsage {
  prompt_tokens : Z;
  completion_tokens : Z;
  total_tokens : Z
}.

(** [response.usage] of an Anthropic response. *)
Record anthropic_usage := mkAnthropicUsage {
  input_tokens : Z;
  output_tokens : Z
}.

(** [_extract_openai_tokens]; the argument is [response.usage] when the
    response has that attribute and it is truthy, else [None]. *)
Definition _extract_openai_tokens (usage : option openai_usage) : TokenUsage :=
  match usage with
  | Some u =>
      TokenUsage.__init__
        {| TokenUsage.kw_prompt := Some (prompt_tokens u);
           TokenUsage.kw_completion := Some (completion_tokens u);
           TokenUsage.kw_total := Some (total_tokens u) |}
  | None => TokenUsage.__init__ TokenUsage.no_data
  end.

(** [_extract_anthropic_tokens]. *)
Definition _extract_anthropic_tokens (usage : option anthropic_usage) : TokenUsage :=
  match usage with
  | Some u =>
      TokenUsage.__init__
        {| TokenUsage.kw_prompt := Some (input_tokens u);
           TokenUsage.kw_completion := Some (output_tokens u);
           TokenUsage.kw_total := Some (input_tokens u + output_tokens u) |}
  | None => TokenUsage.__init__ TokenUsage.no_data
  end.

(** The float a decimal literal stands for: the fraction [num / den],
    rounded once. *)
Definition decimal (num den : positive) : Float.float :=
  SFdiv Float.prec Float.emax (S754_finite false num 0) (S754_finite false den 0).

(** One entry of a pricing table: [{"prompt": ..., "completion": ...}]. *)
Record pricing := mkPricing {
  price_prompt : Float.float;
  price_completion : Float.float
}.

(** [pricing["gpt-3.5-turbo"]] and [pricing["claude-3-sonnet-20240229"]],
    the entries used for a model that is not in the table. *)
Definition gpt_35_turbo : pricing :=
  {| price_prompt := decimal 1 1000; price_completion := decimal 2 1000 |}.

Definition claude_3_sonnet : pricing :=
  {| price_prompt := decimal 3 1000; price_completion := decimal 15 1000 |}.

(** The table of [_calculate_openai_cost]; the embedding models have the
    [int] 0 as completion price. *)
Definition openai_pricing : list (string * pricing) :=
  [("gpt-4", {| price_prompt := decimal 3 100; price_completion := decimal 6 100 |});
   ("gpt-4-32k", {| price_prompt := decimal 6 100; price_completion := decimal 12 100 |});
   ("gpt-4-1106-preview",
    {| price_prompt := decimal 1 100; price_completion := decimal 3 100 |});
   ("gpt-4-0125-preview",
    {| price_prompt := decimal 1 100; price_completion := decimal 3 100 |});
   ("gpt-3.5-turbo", gpt_35_turbo);
   ("gpt-3.5-turbo-16k",
    {| price_prompt := decimal 3 1000; price_completion := decimal 4 1000 |});
   ("gpt-3.5-turbo-1106",
    {| price_prompt := decimal 1 1000; price_completion := decimal 2 1000 |});
   ("gpt-3.5-turbo-0125",
    {| price_prompt := decimal 5 10000; price_completion := decimal 15 10000 |});
   ("text-embedding-ada-002",
    {| price_prompt := decimal 1 10000; price_completion := Float.of_Z 0 |});
   ("text-embedding-3-small",
    {| price_prompt := decimal 2 100000; price_completion := Float.of_Z 0 |});
   ("text-embedding-3-large",
    {| price_prompt := decimal 13 100000; price_completion := Float.of_Z 0 |})].

(** The table of [_calculate_anthropic_cost]. *)
Definition anthropic_pricing : list (string * pricing) :=
  [("claude-3-opus-20240229",
    {| price_prompt := decimal 15 1000; price_completion := decimal 75 1000 |});
   ("claude-3-sonnet-20240229", claude_3_sonnet);
   ("claude-3-haiku-20240307",
    {| price_prompt := decimal 25 100000; price_completion := decimal 125 100000 |});
   ("claude-2.1",
    {| price_prompt := decimal 8 1000; price_completion := decimal 24 1000 |});
   ("claude-2.0",
    {| price_prompt := decimal 8 1000; price_completion := decimal 24 1000 |});
   ("claude-instant-1.2",
    {| price_prompt := decimal 8 10000; price_completion := decimal 24 10000 |})].

(** [table[model]] when [model in table]. *)
Fixpoint lookup (table : list (string * pricing)) (model : string) : option pricing :=
  match table with
  | [] => None
  | (name, p) :: rest => if (name =? model)%string then Some p else lookup rest model
  end.

(** [a / b] on two [int]s: the rounded quotient, [OverflowError] when it is
    too large for a float. *)
Definition int_truediv (a b : Z) : py_result Float.float :=
  if b =? 0 then Raise (ZeroDivisionError "division by zero")
  else match SFdiv Float.prec Float.emax (Float.int_mantissa a) (Float.int_mantissa b) with
       | S754_infinity _ =>
           Raise (OverflowError "integer division result too large for a float")
       | x => Ok x
       end.

Definition add (x y : Float.float) : Float.float := SFadd Float.prec Float.emax x y.

(** The three lines after the table lookup, shared by both cost functions. *)
Definition cost_at (p : pricing) (tokens : TokenUsage) : py_result Float.float :=
  prompt_k <- int_truediv (prompt tokens) 1000 ;;
  let prompt_cost := Float.mul prompt_k (price_prompt p) in
  completion_k <- int_truediv (completion tokens) 1000 ;;
  let completion_cost := Float.mul completion_k (price_completion p) in
  Ok (add prompt_cost completion_cost).

Definition _calculate_openai_cost (model : string) (tokens : TokenUsage)
    : py_result Float.float :=
  let model_pricing :=
    match lookup openai_pricing model with
    | None => gpt_35_turbo
    | Some p => p
    end in
  cost_at model_pricing tokens.

Definition _calculate_anthropic_cost (model : string) (tokens : TokenUsage)
    : py_result Float.float :=
  let model_pricing :=
    match lookup anthropic_pricing model with
    | None => claude_3_sonnet
    | Some p => p
    end in
  cost_at model_pricing tokens.

(** A price as the tables have them: zero, or positive and below one. *)
Definition price_ok (x : Float.float) : bool :=
  match x with
  | S754_zero false => true
  | S754_finite false m e => (Z.pos m <? 2 ^ 53) && (e <=? 0) && (-100 <=? e)
  | _ => false
  end.

(** A float that is zero or positive, with magnitude below [2^B]. *)
Definition below (B : Z) (x : Float.float) : Prop :=
  match x with
  | S754_zero false => True
  | S754_finite false m e => e <= 971 /\ Z.pos m < 2 ^ (B - e)
  | _ => False
  end.

(** Neither negative, nor infinite, nor NaN. *)
Definition is_amount (x : Float.float) : Prop :=
  match x with
  | S754_zero false | S754_finite false _ _ => True
  | _ => False
  end.

End Wrappers.

(** ** wrappers.py: the wrapped chat completion call *)

Module OpenAIChat.

(** One element of [response.choices]: [choice.message.content] when both
    attributes exist, and [getattr(choice, 'finish_reason', None)]. *)
Record choice := mkChoice {
  message_content : option json;
  finish_reason : json
}.

(** What the wrapper looks at in the object the provider call returns: its
    type name, [usage] when the attribute exists and is truthy, [choices]
    when the attribute exists, and [id] and [system_fingerprint] read with
    [getattr(..., None)]. *)
Record response := mkResponse {
  type_name : string;
  usage : option Wrappers.openai_usage;
  choices : option (list choice);
  response_id : json;
  system_fingerprint : json
}.

(** The keyword arguments of the call: [model] and [messages] when given,
    and all the others. *)
Record call_kwargs := mkCallKwargs {
  kw_model : option string;
  kw_messages : option json;
  kw_others : Dict
}.

(** How the original [create] ends, and how the wrapped one does. *)
Inductive outcome :=
| Returns (r : response)
| Raises (e : raised).

(** The clock and [uuid4] readings of one call, as for the decorator. *)
Record env := mkEnv {
  uuid_trace : string;
  uuid_span : string;
  start_micros : Z;
  end_micros : Z;
  handler_micros : Z;
  trace_env : EvalForge.trace_env;
  trace_env_again : EvalForge.trace_env
}.

(** [kwargs.get('model', 'unknown')]. *)
Definition model_of (k : call_kwargs) : string := obj_or (kw_model k) "unknown".

(** The [input_data] dict of both [client.trace] calls. *)
Definition input_of (k : call_kwargs) : Dict :=
  [("model", JStr (model_of k));
   ("messages", obj_or (kw_messages k) (JList []));
   ("kwargs", JDict (kw_others k))].

Definition attribute_error (r : response) (name : string) : raised :=
  {| exc_type := "AttributeError";
     exc_str := ("'" ++ type_name r ++ "' object has no attribute '" ++ name ++ "'")%string;
     is_Exception := true |}.

(** The lines computing [output_content]: guarded by [hasattr]. *)
Definition output_content (r : response) : json :=
  match choices r with
  | Some (c :: _) => obj_or (message_content c) (JStr "")
  | _ => JStr ""
  end.

(** The [output_data] dict of the success call.  Its second entry reads
    [response.choices] without a guard. *)
Definition output_of (r : response) : raised + Dict :=
  match choices r with
  | None => inl (attribute_error r "choices")
  | Some cs =>
      inr [("content", output_content r);
           ("finish_reason",
            match cs with
            | c :: _ => finish_reason c
            | [] => JNull
            end)]
  end.

Definition base_call (k : call_kwargs) (e : env) (end_time : Z)
    (output_data metadata : Dict) (status : string) (tokens : TokenUsage)
    (cost : Float.float) : EvalForge.trace_kwargs :=
  {| EvalForge.operation_type := "llm_call";
     EvalForge.input_data := Some (input_of k);
     EvalForge.output_data := Some output_data;
     EvalForge.metadata := Some metadata;
     EvalForge.trace_id := Some (uuid_trace e);
     EvalForge.span_id := Some (uuid_span e);
     EvalForge.parent_span_id := None;
     EvalForge.start_time := Some {| micros := start_micros e; aware := true |};
     EvalForge.end_time := Some {| micros := end_time; aware := true |};
     EvalForge.status := Some status;
     EvalForge.tokens := Some tokens;
     EvalForge.cost := Some cost;
     EvalForge.provider := Some "openai";
     EvalForge.model := Some (model_of k) |}.

(** The [client.trace] call of the success path. *)
Definition success_call (k : call_kwargs) (e : env) (r : response)
    (output_data : Dict) (tokens : TokenUsage) (cost : Float.float)
    : EvalForge.trace_kwargs :=
  base_call k e (end_micros e) output_data
    [("provider", JStr "openai");
     ("response_id", response_id r);
     ("system_fingerprint", system_fingerprint r)]
    "success" tokens cost.

(** The [client.trace] call of the [except Exception] branch. *)
Definition error_call (k : call_kwargs) (e : env) (exc : raised) (end_time : Z)
    : EvalForge.trace_kwargs :=
  base_call k e end_time []
    [("provider", JStr "openai");
     ("error", JStr (exc_str exc));
     ("error_type", JStr (exc_type exc))]
    "error" (TokenUsage.__init__ TokenUsage.no_data) (S754_zero false).

(** The [except Exception as e] branch. *)
Definition handler (k : call_kwargs) (e : env) (exc : raised) (end_time : Z)
    (tenv : EvalForge.trace_env) (client : EvalForge) : outcome * EvalForge :=
  let '(r, client', _) := EvalForge.trace client (error_call k e exc end_time) tenv in
  match r with
  | Ok _ => (Raises exc, client')
  | Raise e' => (Raises (raised_of e'), client')
  end.

(** The [wrapper] returned by [_wrap_openai_chat_completion]. *)
Definition wrapper (k : call_kwargs) (original : outcome) (g : Global.state) (e : env)
    : outcome * Global.state :=
  match Global.get_client g with
  | None => (original, g)
  | Some client =>
      let failed exc :=
        let '(out, client') :=
          handler k e exc (handler_micros e) (trace_env_again e) client in
        (out, Some client') in
      match original with
      | Returns r =>
          let tokens := Wrappers._extract_openai_tokens (usage r) in
          match Wrappers._calculate_openai_cost (model_of k) tokens with
          | Raise err => failed (raised_of err)
          | Ok cost =>
              match output_of r with
              | inl exc => failed exc
              | inr output_data =>
                  let '(res, client', _) :=
                    EvalForge.trace client
                      (success_call k e r output_data tokens cost) (trace_env e) in
                  match res with
                  | Ok _ => (Returns r, Some client')
                  | Raise err =>
                      let '(out, client'') :=
                        handler k e (raised_of err) (handler_micros e)
                          (trace_env_again e) client' in
                      (out, Some client'')
                  end
              end
          end
      | Raises exc =>
          if is_Exception exc then
            let '(out, client') :=
              handler k e exc (end_micros e) (trace_env e) client in
            (out, Some client')
          else (Raises exc, g)
      end
  end.

End OpenAIChat.

(** ** __init__.py: the names the package exports *)

Module Package.

(** The two module globals behind the exported functions: [_config] of
    config.py and [_global_client] of client.py. *)
Record state := mkState {
  config : Config.t;
  client : Global.state
}.

(** Both as they are after import. *)
Definition initial : state :=
  {| config := Config.__init__; client := Global.initial |}.

(** [evalforge.configure] is [from .config import configure]: it updates
    [_config]. *)
Definition configure (st : state) (a : Config.settings) : state :=
  {| config := Config.configure (config st) a; client := client st |}.

(** [evalforge.trace] is [from .decorators import trace]: a call of a
    function decorated with it. *)
Definition traced_call (st : state) (o : Decorator.options) (c : Decorator.call)
    (e : Decorator.env) : Decorator.outcome * state :=
  let '(out, g) := Decorator.wrapper o c (client st) e in
  (out, {| config := config st; client := g |}).

End Package.

(** [k] slashes. *)
Fixpoint slashes (k : nat) : string :=
  match k with
  | O => EmptyString
  | S k' => String "/"%char (slashes k')
  end.

(** [s.endswith("/")]. *)
Fixpoint ends_with_slash (s : string) : bool :=
  match s with
  | EmptyString => false
  | String c EmptyString => Ascii.eqb c "/"%char
  | String _ rest => ends_with_slash rest
  end.

(** ** Further sample values *)

Module Fixture.

(** A transport that never gets through. *)
Definition always_down (attempt : Z) : http_outcome :=
  RequestException "connection refused".

(** [client.trace("llm_call", input_data={"conn": conn})] where [conn] is an
    instance of an application class, and the event it builds. *)
Definition connection_op : EvalForge.trace_kwargs :=
  {| EvalForge.operation_type := "llm_call";
     EvalForge.input_data := Some [("conn", JObject "<class 'app.Connection'>")];
     EvalForge.output_data := None;
     EvalForge.metadata := None;
     EvalForge.trace_id := Some "trace-1"; EvalForge.span_id := None;
     EvalForge.parent_span_id := None;
     EvalForge.start_time := None; EvalForge.end_time := None;
     EvalForge.status := None; EvalForge.tokens := None;
     EvalForge.cost := None; EvalForge.provider := None;
     EvalForge.model := None |}.

Definition connection_event : TraceEvent :=
  {| ev_id := "uuid-c"; ev_project_id := 7; ev_trace_id := "trace-1";
     ev_span_id := "uuid-b"; ev_parent_span_id := None;
     ev_operation_type := "llm_call";
     ev_start_time := Sample.utc 1700000000000000;
     ev_end_time := Sample.utc 1700000000000000;
     ev_duration_ms := 0; ev_status := "success";
     ev_input := [("conn", JObject "<class 'app.Connection'>")];
     ev_output := []; ev_metadata := [];
     ev_tokens := {| prompt := 0; completion := 0; total := 0 |};
     ev_cost := S754_zero false; ev_provider := ""; ev_model := "" |}.

(** What [model_dump] raises on that event. *)
Definition cannot_serialise : exn :=
  SerializationError "Unable to serialize unknown type: <class 'app.Connection'>".

(** A worker holding that event, last flushed at time 0. *)
Definition connection_pending : worker_locals :=
  {| batch := [connection_event]; last_flush := Float.of_Z 0 |}.

(** The sample client with its worker holding that event, and what follows:
    another event is recorded, the worker takes two turns after the flush
    interval has passed, [close] sets the stop signal, the worker takes its
    last turn. *)
Definition blocked : System.t :=
  {| System.client := Sample.client;
     System.worker := Worker.Running connection_pending |}.

Definition blocked_turns : list System.action :=
  [System.CallTrace (Sample.op "embedding" None None) Sample.env;
   System.WorkerTurn (Float.of_Z 6) Sample.always_201;
   System.WorkerTurn (Float.of_Z 7) Sample.always_201].

Definition blocked_session : list System.action :=
  blocked_turns ++ [System.SetStop; System.WorkerTurn (Float.of_Z 8) Sample.always_201].


(** Two events recorded, a worker turn, the stop signal, two more turns. *)
Definition session : list System.action :=
  [System.CallTrace (Sample.op "llm_call" None None) Sample.env;
   System.CallTrace (Sample.op "embedding" None None) Sample.env;
   System.WorkerTurn (Float.of_Z 1) Sample.always_201;
   System.SetStop;
   System.WorkerTurn (Float.of_Z 2) Sample.always_201;
   System.WorkerTurn (Float.of_Z 3) Sample.always_201].

(** A decimal parser standing in for [int] and [float] in the examples. *)
Definition int_of_str (s : string) : option Z :=
  option_map Z.of_int (NilZero.int_of_string s).

Definition float_of_str (s : string) : option Float.float :=
  option_map Float.of_Z (int_of_str s).

(** An environment with a project id, an empty batch size, a flush interval
    that is no number and the debug switch in capitals. *)
Definition environ (name : string) : option string :=
  if (name =? "EVALFORGE_PROJECT_ID")%string then Some "42"
  else if (name =? "EVALFORGE_BATCH_SIZE")%string then Some ""
  else if (name =? "EVALFORGE_FLUSH_INTERVAL")%string then Some "soon"
  else if (name =? "EVALFORGE_DEBUG")%string then Some "YES"
  else None.

(** The same without the flush interval. *)
Definition environ_ok (name : string) : option string :=
  if (name =? "EVALFORGE_FLUSH_INTERVAL")%string then None else environ name.

(** An environment that sets no numeric value: an empty batch size, an
    empty base URL and the debug switch. *)
Definition environ_plain (name : string) : option string :=
  if (name =? "EVALFORGE_BATCH_SIZE")%string then Some ""
  else if (name =? "EVALFORGE_BASE_URL")%string then Some ""
  else if (name =? "EVALFORGE_DEBUG")%string then Some "On"
  else None.

(** A context as [TraceContext("data_processing", provider="openai")]
    makes it. *)
Definition context : TraceContext :=
  TraceContext.__init__
    {| TraceContext.kw_operation_type := "data_processing";
       TraceContext.kw_input_data := None;
       TraceContext.kw_metadata := None;
       TraceContext.kw_provider := Some "openai";
       TraceContext.kw_model := None;
       TraceContext.kw_parent_span_id := None |}
    "uuid-t" "uuid-s".

(** The arguments of [ctx.child("step_1")]. *)
Definition step_1 : TraceContext.kwargs :=
  {| TraceContext.kw_operation_type := "step_1";
     TraceContext.kw_input_data := None;
     TraceContext.kw_metadata := None;
     TraceContext.kw_provider := None;
     TraceContext.kw_model := None;
     TraceContext.kw_parent_span_id := None |}.

Definition key_error : raised :=
  {| exc_type := "KeyError"; exc_str := "'x'"; is_Exception := true |}.

Definition interrupt : raised :=
  {| exc_type := "KeyboardInterrupt"; exc_str := ""; is_Exception := false |}.

(** [@trace()] with every option at its default. *)
Definition plain_trace : Decorator.options :=
  {| Decorator.operation_type := None;
     Decorator.capture_args := true;
     Decorator.capture_result := true;
     Decorator.capture_exceptions := true;
     Decorator.include_private_args := false;
     Decorator.provider := None;
     Decorator.model := None |}.

(** A call [process(1, _secret="s", conn=<Connection>)] whose third argument
    cannot even be printed. *)
Definition arguments : list (string * Decorator.value) :=
  [("data", Decorator.Plain (JInt 1));
   ("_secret", Decorator.Plain (JStr "s"));
   ("conn", Decorator.Object "Connection" (Raise (ValueError "closed")))].

(** A call [load(1, _secret="s", path=PosixPath("/tmp/x"), conn=<Connection>)]:
    a basic value, a private one, an object with a [str] and one without. *)
Definition arguments_of_each_kind : list (string * Decorator.value) :=
  [("data", Decorator.Plain (JInt 1));
   ("_secret", Decorator.Plain (JStr "s"));
   ("path", Decorator.Object "PosixPath" (Ok "/tmp/x"));
   ("conn", Decorator.Object "Connection" (Raise (ValueError "closed")))].

Definition process_call (how : Decorator.outcome) : Decorator.call :=
  {| Decorator.func_name := "process";
     Decorator.func_module := "app";
     Decorator.func_qualname := "process";
     Decorator.bound_arguments := Ok arguments;
     Decorator.func_outcome := how |}.

Definition wrapper_env : Decorator.env :=
  {| Decorator.uuid_trace := "uuid-t";
     Decorator.uuid_span := "uuid-s";
     Decorator.start_micros := 1700000000000000;
     Decorator.end_micros := 1700000000250000;
     Decorator.handler_micros := 1700000000260000;
     Decorator.trace_env := Sample.env;
     Decorator.trace_env_again := Sample.env |}.

(** A chat completion with usage and one choice, and an object with neither
    [usage] nor [choices], as a streaming call may return. *)
Definition completion : OpenAIChat.response :=
  {| OpenAIChat.type_name := "ChatCompletion";
     OpenAIChat.usage :=
       Some {| Wrappers.prompt_tokens := 1000; Wrappers.completion_tokens := 500;
               Wrappers.total_tokens := 1500 |};
     OpenAIChat.choices :=
       Some [{| OpenAIChat.message_content := Some (JStr "Hello!");
                OpenAIChat.finish_reason := JStr "stop" |}];
     OpenAIChat.response_id := JStr "chatcmpl-1";
     OpenAIChat.system_fingerprint := JNull |}.

Definition stream : OpenAIChat.response :=
  {| OpenAIChat.type_name := "Stream";
     OpenAIChat.usage := None;
     OpenAIChat.choices := None;
     OpenAIChat.response_id := JNull;
     OpenAIChat.system_fingerprint := JNull |}.

Definition chat_kwargs : OpenAIChat.call_kwargs :=
  {| OpenAIChat.kw_model := Some "gpt-4";
     OpenAIChat.kw_messages := Some (JList [JDict [("role", JStr "user")]]);
     OpenAIChat.kw_others := [("stream", JBool true)] |}.

Definition chat_env : OpenAIChat.env :=
  {| OpenAIChat.uuid_trace := "uuid-t";
     OpenAIChat.uuid_span := "uuid-s";
     OpenAIChat.start_micros := 1700000000000000;
     OpenAIChat.end_micros := 1700000000250000;
     OpenAIChat.handler_micros := 1700000000260000;
     OpenAIChat.trace_env := Sample.env;
     OpenAIChat.trace_env_again := Sample.env |}.

End Fixture.

(** ** Unit checks of the embedding *)

Example url_of_sample :
  EvalForge.batch_url Sample.client
  = "https://collector.test/sdk/v1/projects/7/events/batch".
Proof. reflexivity. Qed.

Example build_sample :
  EvalForge.build_event Sample.client (Sample.op "llm_call" None None) Sample.env
  = Ok ("trace-1", Sample.event).
Proof. vm_compute. reflexivity. Qed.

Example send_sample_429 :
  exists tr,
    EvalForge._send_batch Sample.client [Sample.event] Sample.always_429 = Ok tr
    /\ without_prints tr
       = [the_post Sample.client [Sample.event]; Sleep 1;
          the_post Sample.client [Sample.event]; Sleep 2;
          the_post Sample.client [Sample.event]].
Proof. eexists. split; vm_compute; reflexivity. Qed.

Example send_sample_201 :
  EvalForge._send_batch Sample.client [Sample.event] Sample.always_201
  = Ok (preamble Sample.client
        ++ [the_post Sample.client [Sample.event]; Print (LogSent 1)]).
Proof. vm_compute. reflexivity. Qed.

Example send_nothing :
  EvalForge._send_batch Sample.client [] Sample.always_429 = Ok [].
Proof. reflexivity. Qed.

(** [trace] accepts a mapping that holds an object of any class, and the
    event it queues cannot be dumped. *)
Example build_connection_event :
  EvalForge.build_event Sample.client Fixture.connection_op Sample.env
  = Ok ("trace-1", Fixture.connection_event)
  /\ model_dump Fixture.connection_event = Raise Fixture.cannot_serialise.
Proof. split; vm_compute; reflexivity. Qed.

(** One such event among the events of a batch makes the whole call raise,
    ahead of any request. *)
Example send_sample_unserialisable :
  EvalForge._send_batch Sample.client
    [Sample.event; Fixture.connection_event; Sample.event] Sample.always_201
  = Raise Fixture.cannot_serialise.
Proof. vm_compute. reflexivity. Qed.

(** ** TokenUsage *)

(** C4: a [TokenUsage] built without [total], or with [total = 0], has
    [total = prompt + completion]; a nonzero [total] is kept as given, also
    when it differs from [prompt + completion].  The other two fields are the
    arguments (0 when absent). *)
Theorem token_usage_total_derived_or_preserved :
  forall (p c t : option Z),
    let self := TokenUsage.__init__
                  {| TokenUsage.kw_prompt := p;
                     TokenUsage.kw_completion := c;
                     TokenUsage.kw_total := t |} in
    prompt self = obj_or p 0
    /\ completion self = obj_or c 0
    /\ (t = None \/ t = Some 0 -> total self = prompt self + completion self)
    /\ (forall n, t = Some n -> n <> 0 -> total self = n).
Proof.
  intros p c t self. subst self. unfold TokenUsage.__init__, TokenUsage.base_init.
  cbn [total prompt completion TokenUsage.kw_prompt TokenUsage.kw_completion
       TokenUsage.kw_total].
  repeat split.
  - destruct (obj_or t 0 =? 0); reflexivity.
  - destruct (obj_or t 0 =? 0); reflexivity.
  - intros [-> | ->]; reflexivity.
  - intros n -> Hn. cbn [obj_or].
    destruct (n =? 0) eqn:E; [apply Z.eqb_eq in E; contradiction | reflexivity].
Qed.

Lemma token_usage_total_witness :
  total (TokenUsage.__init__
           {| TokenUsage.kw_prompt := Some 10;
              TokenUsage.kw_completion := Some 5;
              TokenUsage.kw_total := None |}) = 15
  /\ total (TokenUsage.__init__
              {| TokenUsage.kw_prompt := Some 10;
                 TokenUsage.kw_completion := Some 5;
                 TokenUsage.kw_total := Some 99 |}) = 99.
Proof.
  split.
  - apply (proj1 (proj2 (proj2
      (token_usage_total_derived_or_preserved (Some 10) (Some 5) None)))).
    left. reflexivity.
  - apply (proj2 (proj2 (proj2
      (token_usage_total_derived_or_preserved (Some 10) (Some 5) (Some 99)))) 99).
    + reflexivity.
    + lia.
Defined.

(** ** The constructor *)

(** The queue of a new client has no bound and both flags are clear. *)
Lemma init_queue_unbounded :
  forall a, maxsize (_event_queue (EvalForge.__init__ a)) = 0
            /\ items (_event_queue (EvalForge.__init__ a)) = []
            /\ _stop_event (EvalForge.__init__ a) = false
            /\ _flush_event (EvalForge.__init__ a) = false.
Proof. intros a. repeat split. Qed.

(** C8, as the code has it: the constructor stores [True] in [debug] whatever
    the [debug] argument; with [debug=False] passed, the client's setting is
    [True], not the argument. *)
Theorem init_debug_ignores_argument :
  (forall a, debug (EvalForge.__init__ a) = true)
  /\ EvalForge.kw_debug Sample.kw = Some false
  /\ debug (EvalForge.__init__ Sample.kw) = true.
Proof.
  split; [intros a; reflexivity |].
  split; reflexivity.
Qed.

(** ** Module-level functions before [configure] *)

(** C7: with no global client configured, module-level [trace] raises
    [ValueError] with a message that says what to do; nothing is recorded
    and the global stays unset. *)
Theorem global_trace_unconfigured_raises :
  forall (g : Global.state) a env,
    Global.get_client g = None ->
    Global.trace g a env
    = (Raise (ValueError
                "EvalForge client not configured. Call evalforge.configure() first."),
       g, []).
Proof.
  intros g a env H. unfold Global.trace. rewrite H. reflexivity.
Qed.

Lemma global_trace_unconfigured_witness :
  Global.trace Global.initial (Sample.op "llm_call" None None) Sample.env
  = (Raise (ValueError
              "EvalForge client not configured. Call evalforge.configure() first."),
     Global.initial, []).
Proof.
  apply (global_trace_unconfigured_raises Global.initial). reflexivity.
Defined.

(** C10: with no global client configured, module-level [flush] returns
    [True] whatever the timeout and without polling or touching any state,
    where module-level [trace] raises in the same state. *)
Theorem global_flush_unconfigured_returns_true :
  forall (g : Global.state) tmo started polls final_empty,
    Global.get_client g = None ->
    Global.flush g tmo started polls final_empty = (Some true, g)
    /\ forall a env, exists msg,
         fst (fst (Global.trace g a env)) = Raise (ValueError msg).
Proof.
  intros g tmo started polls final_empty H. split.
  - unfold Global.flush. rewrite H. reflexivity.
  - intros a env. exists Global.not_configured.
    unfold Global.trace. rewrite H. reflexivity.
Qed.

Lemma global_flush_unconfigured_witness :
  Global.flush Global.initial (Float.of_Z 10) (Float.of_Z 0) [] false
  = (Some true, Global.initial).
Proof.
  apply (global_flush_unconfigured_returns_true Global.initial). reflexivity.
Defined.

(** Once configured, the same two calls reach the client. *)
Example global_trace_configured :
  let g := snd (Global.configure Sample.kw) in
  fst (fst (Global.trace g (Sample.op "llm_call" None None) Sample.env))
  = Ok "trace-1".
Proof. vm_compute. reflexivity. Qed.

Example global_flush_configured_times_out :
  let g := snd (Global.configure Sample.kw) in
  fst (Global.flush g (Float.of_Z 10) (Float.of_Z 0)
         [ {| EvalForge.seen_empty := false; EvalForge.clock := Float.of_Z 3 |};
           {| EvalForge.seen_empty := false; EvalForge.clock := Float.of_Z 11 |} ]
         false)
  = Some false.
Proof. vm_compute. reflexivity. Qed.

(** ** [_send_batch]: building the payload *)

Lemma model_dump_ok : forall e dumped, model_dump e = Ok dumped -> dumped = e.
Proof.
  intros e dumped. unfold model_dump.
  destruct (unserialisable _); [discriminate | congruence].
Qed.

(** The comprehension returns when every event dumps, and only then. *)
Lemma payload_events_ok :
  forall events payload,
    EvalForge.payload_events events = Ok payload ->
    payload = events /\ (forall ev, In ev events -> model_dump ev = Ok ev).
Proof.
  induction events as [| e es IH]; intros payload H; cbn [EvalForge.payload_events] in H.
  - injection H as <-. split; [reflexivity | intros ev []].
  - destruct (model_dump e) as [d | x] eqn:Hd; cbn [bind] in H; [| discriminate].
    destruct (EvalForge.payload_events es) as [ds | x] eqn:Hds; cbn [bind] in H;
      [| discriminate].
    injection H as <-. apply model_dump_ok in Hd as Hsame. subst d.
    destruct (IH ds eq_refl) as [-> Hall].
    split; [reflexivity |]. intros ev [<- | Hin]; [exact Hd | exact (Hall ev Hin)].
Qed.

Lemma payload_events_serialises :
  forall events,
    (forall ev, In ev events -> model_dump ev = Ok ev) ->
    EvalForge.payload_events events = Ok events.
Proof.
  induction events as [| e es IH]; intros Hall; [reflexivity |].
  cbn [EvalForge.payload_events]. rewrite (Hall e) by (left; reflexivity).
  cbn [bind]. rewrite IH by (intros ev Hin; apply Hall; right; exact Hin).
  reflexivity.
Qed.


(** A non-empty batch that serialises gets to the loop. *)
Lemma send_batch_serialised :
  forall self events transport,
    events <> [] ->
    (forall ev, In ev events -> model_dump ev = Ok ev) ->
    EvalForge._send_batch self events transport
    = Ok (EvalForge.send_attempts self events transport (range (max_retries self + 1))).
Proof.
  intros self events transport Hne Hall. unfold EvalForge._send_batch.
  destruct events as [| e es]; [contradiction |]. cbn [truthy negb].
  rewrite (payload_events_serialises _ Hall). reflexivity.
Qed.


(** A batch on which [_send_batch] returns serialises. *)
Lemma send_batch_returns :
  forall self events transport tr,
    EvalForge._send_batch self events transport = Ok tr ->
    forall ev, In ev events -> model_dump ev = Ok ev.
Proof.
  intros self events transport tr. unfold EvalForge._send_batch.
  destruct events as [| e0 es]; [intros _ ev [] |]. cbn [truthy negb].
  destruct (EvalForge.payload_events (e0 :: es)) as [p | x] eqn:Hp; cbn [bind];
    [| discriminate].
  intros _. exact (proj2 (payload_events_ok _ _ Hp)).
Qed.

(** ** [_send_batch]: retries and response handling *)

Section SendBatch.

Variable self : EvalForge.
Variable events : list TraceEvent.
Variable transport : Z -> http_outcome.

Lemma without_prints_app :
  forall l1 l2, without_prints (l1 ++ l2) = without_prints l1 ++ without_prints l2.
Proof. intros. apply filter_app. Qed.

Lemma without_prints_debug_print :
  forall ms, without_prints (EvalForge.debug_print self ms) = [].
Proof.
  intros ms. unfold EvalForge.debug_print.
  destruct (debug self); [| reflexivity].
  induction ms as [| m ms IH]; [reflexivity | exact IH].
Qed.

Lemma posts_without_prints : forall tr, posts (without_prints tr) = posts tr.
Proof.
  unfold posts, without_prints.
  induction tr as [| e tr IH]; [reflexivity |].
  destruct e; cbn; rewrite ?IH; reflexivity.
Qed.

Lemma sleeps_without_prints : forall tr, sleeps (without_prints tr) = sleeps tr.
Proof.
  unfold without_prints.
  induction tr as [| e tr IH]; [reflexivity |].
  destruct e; cbn; rewrite ?IH; reflexivity.
Qed.

(** One unfolding of the loop, whatever the response. *)
Lemma send_attempts_cons :
  forall attempt rest,
    EvalForge.send_attempts self events transport (attempt :: rest)
    = preamble self
      ++ the_post self events
      :: match transport attempt with
         | Response status_code text =>
             if status_code =? 201 then
               EvalForge.debug_print self [LogSent (len events)]
             else if status_code =? 429 then
               if attempt <? max_retries self
               then Sleep (2 ^ attempt)
                    :: EvalForge.send_attempts self events transport rest
               else EvalForge.send_attempts self events transport rest
             else
               EvalForge.debug_print self [LogApiError status_code text]
         | RequestException err =>
             if attempt <? max_retries self
             then Sleep (2 ^ attempt)
                  :: EvalForge.send_attempts self events transport rest
             else EvalForge.debug_print self [LogSendFailed (max_retries self) err]
                  ++ EvalForge.send_attempts self events transport rest
         end.
Proof. reflexivity. Qed.

Hypothesis rate_limited : forall attempt, exists text, transport attempt = Response 429 text.

(** Under constant rate limiting, the attempts numbered [s .. s + k], the
    last of which is attempt [max_retries], leave [k] request-wait rounds and
    a closing request. *)
Lemma send_attempts_rate_limited :
  forall k s,
    Z.of_nat s + Z.of_nat k = max_retries self ->
    without_prints
      (EvalForge.send_attempts self events transport (map Z.of_nat (seq s (S k))))
    = flat_map (fun a => [the_post self events; Sleep (2 ^ a)])
        (map Z.of_nat (seq s k))
      ++ [the_post self events].
Proof.
  induction k as [| k IH]; intros s Hs.
  - cbn [seq map flat_map app]. rewrite send_attempts_cons.
    destruct (rate_limited (Z.of_nat s)) as [text ->].
    change (429 =? 201) with false. change (429 =? 429) with true. cbv iota.
    replace (Z.of_nat s <? max_retries self) with false
      by (symmetry; apply Z.ltb_ge; lia).
    rewrite without_prints_app. unfold preamble.
    rewrite without_prints_debug_print. reflexivity.
  - change (seq s (S (S k))) with (s :: seq (S s) (S k)).
    change (seq s (S k)) with (s :: seq (S s) k).
    cbn [map flat_map]. rewrite send_attempts_cons.
    destruct (rate_limited (Z.of_nat s)) as [text ->].
    change (429 =? 201) with false. change (429 =? 429) with true. cbv iota.
    replace (Z.of_nat s <? max_retries self) with true
      by (symmetry; apply Z.ltb_lt; lia).
    rewrite without_prints_app. unfold preamble at 1.
    rewrite without_prints_debug_print.
    cbn [app without_prints filter is_print negb the_post].
    fold (without_prints
            (EvalForge.send_attempts self events transport
               (map Z.of_nat (seq (S s) (S k))))).
    rewrite (IH (S s)) by lia. reflexivity.
Qed.

End SendBatch.

Lemma length_range : forall n, List.length (range n) = Z.to_nat n.
Proof. intros n. unfold range. rewrite length_map. apply length_seq. Qed.

Lemma posts_rounds :
  forall self events (l : list Z),
    posts (flat_map (fun k => [the_post self events; Sleep (2 ^ k)]) l
           ++ [the_post self events])
    = repeat (the_post self events) (S (List.length l)).
Proof.
  intros self events l. unfold posts.
  induction l as [| a l IH]; [reflexivity |].
  cbn [flat_map app List.length repeat filter the_post]. f_equal. exact IH.
Qed.

Lemma sleeps_rounds :
  forall self events (l : list Z),
    sleeps (flat_map (fun k => [the_post self events; Sleep (2 ^ k)]) l
            ++ [the_post self events])
    = map (fun k => 2 ^ k) l.
Proof.
  intros self events l.
  induction l as [| a l IH]; [reflexivity |].
  cbn [flat_map app sleeps the_post map]. f_equal. exact IH.
Qed.

(** An event that does not serialise refutes the schedule for every
    non-empty batch: with every request answered 429, a batch holding such
    an event is not posted [max_retries + 1] times but never, since
    [_send_batch] raises while it builds the payload. *)
Lemma send_batch_rate_limited_counterexample :
  [Fixture.connection_event] <> []
  /\ (forall attempt, exists text, Sample.always_429 attempt = Response 429 text)
  /\ max_retries Sample.client = 2
  /\ EvalForge._send_batch Sample.client [Fixture.connection_event] Sample.always_429
     = Raise Fixture.cannot_serialise
  /\ ~ (exists tr,
          EvalForge._send_batch Sample.client [Fixture.connection_event]
            Sample.always_429 = Ok tr
          /\ len (posts tr) = max_retries Sample.client + 1).
Proof.
  split; [discriminate |].
  split; [intros attempt; exists "slow down"; reflexivity |].
  split; [reflexivity |].
  split; [vm_compute; reflexivity |].
  intros (tr & Htr & _). vm_compute in Htr. discriminate.
Qed.

(** C1: a non-empty batch whose events all serialise and that is answered
    429 at every attempt is posted [max_retries + 1] times, every time whole
    and to the same URL, with a wait of [2^k] seconds after the attempt
    numbered [k] for [k = 0 .. max_retries - 1]; the last request ends the
    call, which returns. *)
Theorem send_batch_rate_limited_schedule :
  forall self events transport,
    events <> [] ->
    (forall ev, In ev events -> model_dump ev = Ok ev) ->
    0 <= max_retries self ->
    (forall attempt, exists text, transport attempt = Response 429 text) ->
    exists tr,
      EvalForge._send_batch self events transport = Ok tr
      /\ without_prints tr = backoff_schedule (the_post self events) (max_retries self)
      /\ posts tr = repeat (the_post self events) (Z.to_nat (max_retries self + 1))
      /\ len (posts tr) = max_retries self + 1
      /\ sleeps tr = map (fun k => 2 ^ k) (range (max_retries self)).
Proof.
  intros self events transport Hne Hall Hretries H429.
  exists (EvalForge.send_attempts self events transport (range (max_retries self + 1))).
  split; [apply send_batch_serialised; assumption |].
  set (tr := EvalForge.send_attempts self events transport
               (range (max_retries self + 1))).
  assert (Htr : without_prints tr
                = backoff_schedule (the_post self events) (max_retries self)).
  { subst tr. unfold range, backoff_schedule.
    replace (Z.to_nat (max_retries self + 1)) with (S (Z.to_nat (max_retries self)))
      by lia.
    apply send_attempts_rate_limited; [exact H429 | lia]. }
  assert (Hposts : posts tr
                   = repeat (the_post self events) (Z.to_nat (max_retries self + 1))).
  { rewrite <- posts_without_prints, Htr. unfold backoff_schedule.
    rewrite posts_rounds, length_range. f_equal. lia. }
  split; [exact Htr |]. split; [exact Hposts |]. split.
  - unfold len. rewrite Hposts, repeat_length. lia.
  - rewrite <- sleeps_without_prints, Htr. apply sleeps_rounds.
Qed.

Lemma send_batch_rate_limited_witness :
  exists tr,
    EvalForge._send_batch Sample.client [Sample.event] Sample.always_429 = Ok tr
    /\ without_prints tr = backoff_schedule (the_post Sample.client [Sample.event]) 2
    /\ len (posts tr) = 3.
Proof.
  assert (Hne : [Sample.event] <> []) by discriminate.
  assert (Hall : forall ev, In ev [Sample.event] -> model_dump ev = Ok ev)
    by (intros ev [<- | []]; reflexivity).
  assert (Hretries : 0 <= max_retries Sample.client) by (vm_compute; discriminate).
  assert (H429 : forall attempt, exists text,
                   Sample.always_429 attempt = Response 429 text)
    by (intros attempt; exists "slow down"; reflexivity).
  destruct (send_batch_rate_limited_schedule
              Sample.client [Sample.event] Sample.always_429 Hne Hall Hretries H429)
    as (tr & Heq & Htr & _ & Hlen & _).
  exists tr. split; [exact Heq |]. split; [exact Htr | exact Hlen].
Defined.

(** ** What no action changes *)

Lemma put_nowait_maxsize :
  forall q e q', Queue_.put_nowait q e = Ok q' -> maxsize q' = maxsize q.
Proof.
  intros q e q'. unfold Queue_.put_nowait.
  destruct ((0 <? maxsize q) && (maxsize q <=? len (items q))); [discriminate |].
  intros H. injection H as <-. reflexivity.
Qed.

Lemma trace_keeps_settings :
  forall self a env,
    let self' := snd (fst (EvalForge.trace self a env)) in
    debug self' = debug self
    /\ maxsize (_event_queue self') = maxsize (_event_queue self)
    /\ _stop_event self' = _stop_event self.
Proof.
  intros self a env. unfold EvalForge.trace.
  destruct (EvalForge.build_event self a env) as [[tid ev] | e]; [| repeat split].
  destruct (Queue_.put_nowait (_event_queue self) ev) as [q | e] eqn:Hput;
    [| repeat split].
  cbn. repeat split. exact (put_nowait_maxsize _ _ _ Hput).
Qed.

Lemma pull_maxsize :
  forall self w, maxsize (snd (fst (Worker.pull self w))) = maxsize (_event_queue self).
Proof.
  intros self w. unfold Worker.pull, Queue_.get.
  destruct (items (_event_queue self)); reflexivity.
Qed.

Lemma iteration_keeps_settings :
  forall self w now transport,
    let self' := fst (fst (Worker.iteration self w now transport)) in
    debug self' = debug self
    /\ maxsize (_event_queue self') = maxsize (_event_queue self)
    /\ _stop_event self' = _stop_event self.
Proof.
  intros self w now transport. unfold Worker.iteration.
  pose proof (pull_maxsize self w) as Hq.
  destruct (Worker.pull self w) as [[got q] b]. cbn [fst snd] in Hq.
  match goal with |- context [if ?c then _ else _] => destruct c end;
    [destruct (EvalForge._send_batch _ b transport) |];
    cbn; repeat split; exact Hq.
Qed.

Lemma step_keeps_settings :
  forall s act,
    let s' := fst (System.step s act) in
    debug (System.client s') = debug (System.client s)
    /\ maxsize (_event_queue (System.client s'))
       = maxsize (_event_queue (System.client s))
    /\ (_stop_event (System.client s) = true
        -> _stop_event (System.client s') = true).
Proof.
  intros s [a env | | | now transport]; unfold System.step.
  - pose proof (trace_keeps_settings (System.client s) a env) as H.
    destruct (EvalForge.trace (System.client s) a env) as [[r c] out].
    cbn in *. destruct H as (Hd & Hm & Hs). rewrite Hd, Hm, Hs. auto.
  - cbn. auto.
  - cbn. auto.
  - unfold Worker.turn. destruct (System.worker s) as [w |]; [| cbn; auto].
    destruct (_stop_event (System.client s)) eqn:Hstop; [cbn; auto |].
    pose proof (iteration_keeps_settings (System.client s) w now transport) as H.
    destruct (Worker.iteration (System.client s) w now transport) as [[c w'] out].
    cbn in *. destruct H as (Hd & Hm & Hs). rewrite Hd, Hm.
    repeat split. discriminate.
Qed.

Lemma run_keeps_settings :
  forall acts s,
    let s' := fst (System.run s acts) in
    debug (System.client s') = debug (System.client s)
    /\ maxsize (_event_queue (System.client s'))
       = maxsize (_event_queue (System.client s))
    /\ (_stop_event (System.client s) = true
        -> _stop_event (System.client s') = true).
Proof.
  induction acts as [| act acts IH]; intros s; [cbn; auto |].
  cbn [System.run].
  pose proof (step_keeps_settings s act) as Hstep.
  destruct (System.step s act) as [s1 out1]. cbn [fst] in Hstep.
  specialize (IH s1).
  destruct (System.run s1 acts) as [s2 out2]. cbn [fst] in *.
  destruct Hstep as (Hd1 & Hm1 & Hs1). destruct IH as (Hd2 & Hm2 & Hs2).
  rewrite Hd2, Hm2, Hd1, Hm1. auto.
Qed.

(** Every client a program can hold prints its diagnostics and has an
    unbounded queue. *)
Lemma reachable_client :
  forall a started acts,
    let self := System.client (fst (System.run (System.start a started) acts)) in
    debug self = true /\ maxsize (_event_queue self) = 0.
Proof.
  intros a started acts.
  destruct (run_keeps_settings acts (System.start a started)) as (Hd & Hm & _).
  cbn zeta. rewrite Hd, Hm. split; reflexivity.
Qed.

(** The whole call on the mixed transport: one retry, then dropped on 503;
    the 201 that a third attempt would have met is never asked for. *)
Example send_sample_mixed :
  exists tr,
    EvalForge._send_batch Sample.client [Sample.event] Sample.mixed = Ok tr
    /\ without_prints tr
       = [the_post Sample.client [Sample.event]; Sleep 1;
          the_post Sample.client [Sample.event]].
Proof. eexists. split; vm_compute; reflexivity. Qed.

(** A status inside 2xx other than 201 is handled like an error status. *)
Example send_sample_200 :
  EvalForge._send_batch Sample.client [Sample.event] (fun _ => Response 200 "ok")
  = Ok (preamble Sample.client
        ++ [the_post Sample.client [Sample.event]; Print (LogApiError 200 "ok")]).
Proof. vm_compute. reflexivity. Qed.

(** ** The worker loop *)

Lemma truthy_true : forall (A : Type) (l : list A), truthy l = true <-> l <> [].
Proof.
  intros A [| x l]; cbn; split; intros H; congruence.
Qed.



(** The queue takes no part in sending. *)
Lemma send_attempts_set_queue :
  forall self q events transport attempts,
    EvalForge.send_attempts (EvalForge.set_queue self q) events transport attempts
    = EvalForge.send_attempts self events transport attempts.
Proof.
  intros self q events transport attempts.
  induction attempts as [| attempt rest IH]; [reflexivity |].
  cbn [EvalForge.send_attempts]. rewrite IH. reflexivity.
Qed.

Lemma send_batch_set_queue :
  forall self q events transport,
    EvalForge._send_batch (EvalForge.set_queue self q) events transport
    = EvalForge._send_batch self events transport.
Proof.
  intros self q events transport. unfold EvalForge._send_batch.
  destruct (negb (truthy events)); [reflexivity |].
  destruct (EvalForge.payload_events events) as [payload | e]; [| reflexivity].
  cbn [bind]. rewrite send_attempts_set_queue. reflexivity.
Qed.

(** The three ways through one iteration: a send that returns, a send that
    raises, no send. *)
Lemma iteration_cases :
  forall self w now transport,
    let got := fst (fst (Worker.pull self w)) in
    let q := snd (fst (Worker.pull self w)) in
    let b := Worker.accumulated self w in
    let self1 := EvalForge.set_queue self q in
    (Worker.should_flush self b now w && truthy b = true
     /\ exists io,
          EvalForge._send_batch self b transport = Ok io
          /\ Worker.iteration self w now transport
             = (EvalForge.set_flush_event self1 false,
                {| batch := []; last_flush := now |},
                [Dequeued got; SendBatch b (Ok io)]))
    \/ (Worker.should_flush self b now w && truthy b = true
        /\ exists e,
             EvalForge._send_batch self b transport = Raise e
             /\ Worker.iteration self w now transport
                = (self1, {| batch := b; last_flush := last_flush w |},
                   [Dequeued got; SendBatch b (Raise e)]
                   ++ Worker.worker_print self (LogWorkerError e)))
    \/ (Worker.should_flush self b now w && truthy b = false
        /\ Worker.iteration self w now transport
           = (self1, {| batch := b; last_flush := last_flush w |}, [Dequeued got])).
Proof.
  intros self w now transport. unfold Worker.iteration, Worker.accumulated.
  destruct (Worker.pull self w) as [[got q] b]. cbn [fst snd].
  change (Worker.should_flush (EvalForge.set_queue self q) b now w)
    with (Worker.should_flush self b now w).
  rewrite send_batch_set_queue.
  destruct (Worker.should_flush self b now w && truthy b);
    [| right; right; split; reflexivity].
  destruct (EvalForge._send_batch self b transport) as [io | e].
  - left. split; [reflexivity |]. exists io. split; reflexivity.
  - right; left. split; [reflexivity |]. exists e. split; reflexivity.
Qed.




(** With one event held, nothing queued and the interval not yet over, the
    iteration keeps the batch. *)
Example worker_iteration_waits :
  Worker.iteration Sample.client Sample.one_pending (Float.of_Z 4) Sample.always_201
  = (Sample.client, Sample.one_pending, [Dequeued None]).
Proof. vm_compute. reflexivity. Qed.

(** A pending flush request sends the single event at once and is cleared. *)
Example worker_iteration_explicit_flush :
  let r := Worker.iteration (EvalForge.set_flush_event Sample.client true)
             Sample.one_pending (Float.of_Z 1) Sample.always_201 in
  sent_batches (snd r) = [[Sample.event]]
  /\ _flush_event (fst (fst r)) = false
  /\ batch (snd (fst r)) = [].
Proof. vm_compute. repeat split. Qed.

(** A flush request with nothing accumulated sends nothing and stays set. *)
Example worker_iteration_flush_request_empty :
  let r := Worker.iteration (EvalForge.set_flush_event Sample.client true)
             {| batch := []; last_flush := Float.of_Z 0 |}
             (Float.of_Z 9) Sample.always_201 in
  sent_batches (snd r) = [] /\ _flush_event (fst (fst r)) = true.
Proof. vm_compute. repeat split. Qed.

(** ** Shutdown *)

(** A worker that has returned stays returned and does nothing more. *)
Lemma run_terminated :
  forall acts s,
    System.worker s = Worker.Terminated ->
    System.worker (fst (System.run s acts)) = Worker.Terminated
    /\ snd (System.run s acts) = [].
Proof.
  induction acts as [| act acts IH]; intros s Hs; [split; [exact Hs | reflexivity] |].
  cbn [System.run].
  assert (Hstep : System.worker (fst (System.step s act)) = Worker.Terminated
                  /\ snd (System.step s act) = []).
  { destruct act as [a env | | | now transport]; unfold System.step.
    - destruct (EvalForge.trace (System.client s) a env) as [[r c] out].
      split; [exact Hs | reflexivity].
    - split; [exact Hs | reflexivity].
    - split; [exact Hs | reflexivity].
    - rewrite Hs. split; reflexivity. }
  destruct (System.step s act) as [s1 out1]. cbn [fst snd] in Hstep.
  destruct Hstep as [Hw1 ->].
  destruct (IH s1 Hw1) as [Hw2 Hout2].
  destruct (System.run s1 acts) as [s2 out2]. cbn [fst snd] in *.
  split; [exact Hw2 | exact Hout2].
Qed.

(** C3: once the stop signal is set it stays set, and the worker's next look
    at it ends the loop without another dequeue: a non-empty batch is passed
    to [_send_batch] exactly once, whatever its size and age, an empty one is
    not sent; the thread is then over and neither dequeues nor sends again,
    whatever happens afterwards. *)
Theorem worker_stops_with_one_final_flush :
  forall s w now transport,
    System.worker s = Worker.Running w ->
    _stop_event (System.client s) = true ->
    let r := System.step s (System.WorkerTurn now transport) in
    System.worker (fst r) = Worker.Terminated
    /\ System.client (fst r) = System.client s
    /\ dequeues (snd r) = []
    /\ (batch w <> [] ->
        snd r = [SendBatch (batch w)
                   (EvalForge._send_batch (System.client s) (batch w) transport)])
    /\ (batch w = [] -> snd r = [])
    /\ (forall acts,
        System.worker (fst (System.run (fst r) acts)) = Worker.Terminated
        /\ snd (System.run (fst r) acts) = [])
    /\ (forall acts,
        _stop_event (System.client (fst (System.run s acts))) = true).
Proof.
  intros s w now transport Hw Hstop r.
  assert (Hr : r = ({| System.client := System.client s;
                       System.worker := Worker.Terminated |},
                    Worker.final_flush (System.client s) w transport)).
  { subst r. unfold System.step, Worker.turn. rewrite Hw, Hstop. reflexivity. }
  rewrite Hr. cbn [fst snd System.worker System.client].
  unfold Worker.final_flush.
  repeat split.
  - destruct (truthy (batch w)); reflexivity.
  - intros Hne. apply truthy_true in Hne. rewrite Hne. reflexivity.
  - intros ->. reflexivity.
  - refine (proj1 (run_terminated acts _ _)). reflexivity.
  - refine (proj2 (run_terminated acts _ _)). reflexivity.
  - intros acts. apply (run_keeps_settings acts s). exact Hstop.
Qed.

Lemma worker_stops_witness :
  System.worker
    (fst (System.step Sample.stopping
            (System.WorkerTurn (Float.of_Z 1) Sample.always_201)))
  = Worker.Terminated
  /\ sent_batches
       (snd (System.step Sample.stopping
               (System.WorkerTurn (Float.of_Z 1) Sample.always_201)))
     = [[Sample.event]].
Proof.
  assert (Hw : System.worker Sample.stopping = Worker.Running Sample.one_pending)
    by reflexivity.
  assert (Hstop : _stop_event (System.client Sample.stopping) = true)
    by reflexivity.
  destruct (worker_stops_with_one_final_flush Sample.stopping Sample.one_pending
              (Float.of_Z 1) Sample.always_201 Hw Hstop)
    as (Hend & _ & _ & Hsend & _).
  split; [exact Hend |].
  rewrite Hsend; [reflexivity | discriminate].
Defined.

(** From construction through [close]: two events recorded, the first one
    pulled, the stop signal set, and the worker's next turn sends that event
    and ends; the second event is still in the queue and no later turn
    pulls it. *)
Example shutdown_run :
  let acts :=
    [System.CallTrace (Sample.op "llm_call" None None) Sample.env;
     System.CallTrace (Sample.op "embedding" None None) Sample.env;
     System.WorkerTurn (Float.of_Z 1) Sample.always_201;
     System.SetStop;
     System.WorkerTurn (Float.of_Z 2) Sample.always_201;
     System.WorkerTurn (Float.of_Z 3) Sample.always_201] in
  let r := System.run (System.start Sample.kw (Float.of_Z 0)) acts in
  System.worker (fst r) = Worker.Terminated
  /\ dequeues (snd r) = [Some Sample.event]
  /\ sent_batches (snd r) = [[Sample.event]]
  /\ List.length (items (_event_queue (System.client (fst r)))) = 1%nat.
Proof. vm_compute. repeat split. Qed.

(** ** Recording an event *)

(** C9: the queue of any client a program can hold has [maxsize = 0], so
    [put_nowait] accepts every event; when [trace] has built its event, the
    queue afterwards holds the events it held before followed by that event,
    still without a bound, nothing is printed and the trace id (the
    caller's, or the generated one) is returned. *)
Theorem trace_enqueue_never_full :
  forall a started acts ta env tid ev,
    let self := System.client (fst (System.run (System.start a started) acts)) in
    let q := {| maxsize := 0; items := items (_event_queue self) ++ [ev] |} in
    let r := EvalForge.trace self ta env in
    EvalForge.build_event self ta env = Ok (tid, ev) ->
    maxsize (_event_queue self) = 0
    /\ (forall e, Queue_.put_nowait (_event_queue self) e <> Raise QueueFull)
    /\ Queue_.put_nowait (_event_queue self) ev = Ok q
    /\ r = (Ok tid, EvalForge.set_queue self q, [])
    /\ fst (fst r) = Ok tid
    /\ snd r = []
    /\ items (_event_queue (snd (fst r))) = items (_event_queue self) ++ [ev]
    /\ maxsize (_event_queue (snd (fst r))) = 0
    /\ tid = str_or (EvalForge.trace_id ta) (EvalForge.fresh_trace_id env).
Proof.
  intros a started acts ta env tid ev self q r Hbuild.
  destruct (reachable_client a started acts) as [_ Hmax]. fold self in Hmax.
  assert (Hput : forall e,
             Queue_.put_nowait (_event_queue self) e
             = Ok {| maxsize := 0; items := items (_event_queue self) ++ [e] |}).
  { intros e. unfold Queue_.put_nowait. rewrite Hmax. reflexivity. }
  assert (Hr : r = (Ok tid, EvalForge.set_queue self q, [])).
  { subst r. unfold EvalForge.trace. rewrite Hbuild, Hput. reflexivity. }
  split; [exact Hmax |].
  split; [intros e; rewrite Hput; discriminate |].
  split; [apply Hput |].
  split; [exact Hr |].
  rewrite Hr. cbn [fst snd EvalForge.set_queue _event_queue items maxsize].
  split; [reflexivity |]. split; [reflexivity |]. split; [reflexivity |].
  split; [reflexivity |].
  unfold EvalForge.build_event in Hbuild.
  destruct (EvalForge.duration_ms_of _ _); [| discriminate].
  cbn [bind] in Hbuild. congruence.
Qed.

Lemma trace_enqueue_witness :
  let self := System.client
                (fst (System.run (System.start Sample.kw (Float.of_Z 0))
                        [System.CallTrace (Sample.op "embedding" None None)
                           Sample.env])) in
  let r := EvalForge.trace self (Sample.op "llm_call" None None) Sample.env in
  fst (fst r) = Ok "trace-1"
  /\ snd r = []
  /\ map ev_operation_type (items (_event_queue self)) = ["embedding"]
  /\ map ev_operation_type (items (_event_queue (snd (fst r))))
     = ["embedding"; "llm_call"]
  /\ items (_event_queue (snd (fst r))) = items (_event_queue self) ++ [Sample.event].
Proof.
  destruct (trace_enqueue_never_full Sample.kw (Float.of_Z 0)
              [System.CallTrace (Sample.op "embedding" None None) Sample.env]
              (Sample.op "llm_call" None None) Sample.env
              "trace-1" Sample.event)
    as (_ & _ & _ & _ & Hid & Hout & Hitems & _).
  - vm_compute. reflexivity.
  - cbn zeta. split; [exact Hid |]. split; [exact Hout |].
    split; [vm_compute; reflexivity |].
    split; [rewrite Hitems; vm_compute; reflexivity | exact Hitems].
Defined.

(** A bounded queue at capacity would take the other branch: the event is
    dropped, the drop is printed, the trace id is still returned. *)
Example trace_on_full_bounded_queue :
  let self := EvalForge.set_queue Sample.client
                {| maxsize := 1; items := [Sample.event] |} in
  EvalForge.trace self (Sample.op "llm_call" None None) Sample.env
  = (Ok "trace-1", self, [Print LogQueueFull]).
Proof. vm_compute. reflexivity. Qed.

(** Mixing a naive [start_time] with the aware default [end_time] raises
    before any event is built. *)
Example trace_naive_start_raises :
  fst (fst (EvalForge.trace Sample.client
              (Sample.op "llm_call" (Some {| micros := 5; aware := false |}) None)
              Sample.env))
  = Raise (TypeError "can't subtract offset-naive and offset-aware datetimes").
Proof. vm_compute. reflexivity. Qed.

(** ** Durations *)

(** Rounding keeps the sign it is given. *)
Lemma binary_round_aux_sign :
  forall sx mx ex lx,
    match binary_round_aux Float.prec Float.emax sx mx ex lx with
    | S754_zero s | S754_infinity s | S754_finite s _ _ => s = sx
    | S754_nan => True
    end.
Proof.
  intros sx mx ex lx. unfold binary_round_aux.
  destruct (shr_fexp Float.prec Float.emax mx ex lx) as [mrs' e'].
  destruct (shr_fexp Float.prec Float.emax
              (round_nearest_even (shr_m mrs') (loc_of_shr_record mrs')) e' loc_Exact)
    as [mrs'' e''].
  destruct (shr_m mrs''); [reflexivity | | exact I].
  destruct (e'' <=? Float.emax - Float.prec); reflexivity.
Qed.

Lemma to_int_positive_sign :
  forall m e d, Float.to_int (S754_finite false m e) = Ok d -> 0 <= d.
Proof.
  intros m e d. unfold Float.to_int. intros H. injection H as <-.
  destruct (0 <=? e) eqn:He.
  - apply Z.shiftl_nonneg. lia.
  - apply Z.shiftr_nonneg. lia.
Qed.

(** Equal timestamps give a duration of 0. *)
Lemma duration_zero_when_equal :
  forall t, EvalForge.duration_ms_of t t = Ok 0.
Proof.
  intros t. unfold EvalForge.duration_ms_of, Datetime.sub.
  rewrite Bool.eqb_reflx, Z.sub_diag. reflexivity.
Qed.

(** Whenever a duration comes out for ordered timestamps, it is not negative. *)
Lemma duration_nonnegative :
  forall t0 t1 d,
    micros t0 <= micros t1 ->
    EvalForge.duration_ms_of t0 t1 = Ok d ->
    0 <= d.
Proof.
  intros t0 t1 d Hle. unfold EvalForge.duration_ms_of, Datetime.sub.
  destruct (Bool.eqb (aware t1) (aware t0)); [| discriminate].
  cbn [bind]. unfold Datetime.total_seconds, Float.true_divide.
  change (10 ^ 6 =? 0) with false. cbv iota. cbn [bind].
  destruct (micros t1 - micros t0) as [| p | p] eqn:Htd; [| | lia].
  - intros H. injection H as <-. lia.
  - change (Float.int_mantissa (Z.pos p)) with (S754_finite false p 0).
    change (Float.int_mantissa (10 ^ 6)) with (S754_finite false 1000000 0).
    unfold SFdiv.
    destruct (SFdiv_core_binary Float.prec Float.emax (Z.pos p) 0 1000000 0)
      as [[mz ez] lz].
    pose proof (binary_round_aux_sign (xorb false false) mz ez lz) as Hq.
    destruct (binary_round_aux Float.prec Float.emax (xorb false false) mz ez lz)
      as [s | s | | s m e]; try discriminate.
    + intros H. injection H as <-. lia.
    + subst s. change (Float.of_Z 1000) with (S754_finite false 8796093022208000 (-43)).
      unfold Float.mul, SFmul.
      pose proof (binary_round_aux_sign (xorb (xorb false false) false)
                    (Z.pos (m * 8796093022208000)) (e + -43) loc_Exact) as Hm.
      destruct (binary_round_aux Float.prec Float.emax
                  (xorb (xorb false false) false)
                  (Z.pos (m * 8796093022208000)) (e + -43) loc_Exact)
        as [s | s | | s m' e']; try discriminate.
      * intros H. injection H as <-. lia.
      * subst s. apply to_int_positive_sign.
Qed.

(** With both timestamps left to their default, [trace] builds its event,
    with duration 0, and so returns the trace id. *)
Lemma build_event_default_times :
  forall self a env,
    EvalForge.start_time a = None ->
    EvalForge.end_time a = None ->
    exists ev,
      EvalForge.build_event self a env
      = Ok (str_or (EvalForge.trace_id a) (EvalForge.fresh_trace_id env), ev)
      /\ ev_duration_ms ev = 0.
Proof.
  intros self a env H0 H1. unfold EvalForge.build_event.
  rewrite H0, H1. cbn [obj_or]. rewrite duration_zero_when_equal. cbn [bind].
  eexists. split; reflexivity.
Qed.

Lemma trace_default_times_returns_id :
  forall a started acts ta env,
    let self := System.client (fst (System.run (System.start a started) acts)) in
    EvalForge.start_time ta = None ->
    EvalForge.end_time ta = None ->
    exists ev,
      EvalForge.trace self ta env
      = (Ok (str_or (EvalForge.trace_id ta) (EvalForge.fresh_trace_id env)),
         EvalForge.set_queue self
           {| maxsize := 0; items := items (_event_queue self) ++ [ev] |},
         []).
Proof.
  intros a started acts ta env self H0 H1.
  destruct (build_event_default_times self ta env H0 H1) as (ev & Hbuild & _).
  destruct (reachable_client a started acts) as [_ Hmax]. fold self in Hmax.
  exists ev. unfold EvalForge.trace, Queue_.put_nowait.
  rewrite Hbuild, Hmax. reflexivity.
Qed.

(** One second is 1000 ms, half a millisecond is 0 ms. *)
Example duration_one_second :
  EvalForge.duration_ms_of (Sample.utc 0) (Sample.utc 1000000) = Ok 1000.
Proof. vm_compute. reflexivity. Qed.

Example duration_truncates :
  EvalForge.duration_ms_of (Sample.utc 0) (Sample.utc 500) = Ok 0.
Proof. vm_compute. reflexivity. Qed.

(** C6, as the code has it: for [start_time = 2024-01-01T00:00:00Z] and an
    [end_time] exactly 1001 ms later, [trace] records [duration_ms = 1000]:
    the quotient 1.001 is rounded to binary64, its product with 1000 falls
    just under 1001, and [int] truncates. *)
Theorem trace_duration_drops_a_millisecond :
  let t0 := Sample.utc 1704067200000000 in
  let t1 := Sample.utc 1704067201001000 in
  micros t1 - micros t0 = 1001 * 1000
  /\ EvalForge.duration_ms_of t0 t1 = Ok 1000
  /\ option_map (fun r => ev_duration_ms (snd r))
       (match EvalForge.build_event Sample.client
                (Sample.op "llm_call" (Some t0) (Some t1)) Sample.env with
        | Ok r => Some r
        | Raise _ => None
        end)
     = Some 1000.
Proof. vm_compute. repeat split. Qed.

(** ** [_send_batch] against an arbitrary transport *)

Section SendAnyTransport.

Variable self : EvalForge.
Variable events : list TraceEvent.
Variable transport : Z -> http_outcome.

Lemma range_succ :
  forall n, 0 <= n -> range (n + 1) = range n ++ [n].
Proof.
  intros n Hn. unfold range.
  replace (Z.to_nat (n + 1)) with (S (Z.to_nat n)) by lia.
  rewrite seq_S, map_app. cbn [map Nat.add]. rewrite Z2Nat.id by exact Hn.
  reflexivity.
Qed.

(** An attempt whose outcome is not retryable ends the call. *)
Lemma send_attempts_settles :
  forall attempt rest,
    retryable (transport attempt) = false ->
    EvalForge.send_attempts self events transport (attempt :: rest)
    = preamble self
      ++ the_post self events
      :: EvalForge.debug_print self (closing_message events (transport attempt)).
Proof.
  intros attempt rest Hfinal. rewrite send_attempts_cons.
  destruct (transport attempt) as [status_code text | err]; [| discriminate].
  cbn [retryable] in Hfinal. cbn [closing_message]. rewrite Hfinal.
  destruct (status_code =? 201); reflexivity.
Qed.

(** A run of retryable outcomes with attempts left after each of them. *)
Lemma send_attempts_retries :
  forall j s tail,
    Z.of_nat s + Z.of_nat j <= max_retries self ->
    (forall i, (s <= i < s + j)%nat -> retryable (transport (Z.of_nat i)) = true) ->
    exists pre,
      EvalForge.send_attempts self events transport
        (map Z.of_nat (seq s j) ++ tail)
      = pre ++ EvalForge.send_attempts self events transport tail
      /\ without_prints pre
         = flat_map (fun k => [the_post self events; Sleep (2 ^ k)])
             (map Z.of_nat (seq s j)).
Proof.
  induction j as [| j IH]; intros s tail Hleft Hretry.
  - exists []. split; reflexivity.
  - destruct (IH (S s) tail) as (pre & Hpre & Hshape); [lia | intros i Hi; apply Hretry; lia |].
    exists (preamble self ++ the_post self events :: Sleep (2 ^ Z.of_nat s) :: pre).
    split.
    + cbn [seq map app]. rewrite send_attempts_cons.
      assert (Hlt : (Z.of_nat s <? max_retries self) = true) by (apply Z.ltb_lt; lia).
      assert (Hr : retryable (transport (Z.of_nat s)) = true) by (apply Hretry; lia).
      rewrite Hlt.
      destruct (transport (Z.of_nat s)) as [status_code text | err].
      * cbn [retryable] in Hr. rewrite Hr.
        replace (status_code =? 201) with false
          by (apply Z.eqb_eq in Hr; subst; reflexivity).
        rewrite Hpre, <- app_assoc. reflexivity.
      * rewrite Hpre, <- app_assoc. reflexivity.
    + rewrite without_prints_app. unfold preamble.
      rewrite without_prints_debug_print.
      cbn [seq map flat_map app].
      cbn [without_prints filter is_print negb the_post app].
      fold (without_prints pre). rewrite Hshape. reflexivity.
Qed.

(** The same run with what it prints: every round is the two notices, the
    request and the wait. *)
Lemma send_attempts_retry_rounds :
  forall j s tail,
    Z.of_nat s + Z.of_nat j <= max_retries self ->
    (forall i, (s <= i < s + j)%nat -> retryable (transport (Z.of_nat i)) = true) ->
    EvalForge.send_attempts self events transport (map Z.of_nat (seq s j) ++ tail)
    = flat_map (fun k => preamble self ++ [the_post self events; Sleep (2 ^ k)])
        (map Z.of_nat (seq s j))
      ++ EvalForge.send_attempts self events transport tail.
Proof.
  induction j as [| j IH]; intros s tail Hleft Hretry; [reflexivity |].
  cbn [seq map app flat_map]. rewrite send_attempts_cons.
  assert (Hlt : (Z.of_nat s <? max_retries self) = true) by (apply Z.ltb_lt; lia).
  assert (Hr : retryable (transport (Z.of_nat s)) = true) by (apply Hretry; lia).
  rewrite Hlt, <- !app_assoc. f_equal. cbn [app]. f_equal.
  rewrite <- (IH (S s) tail) by (try lia; intros i Hi; apply Hretry; lia).
  destruct (transport (Z.of_nat s)) as [status_code text | err]; [| reflexivity].
  cbn [retryable] in Hr. rewrite Hr.
  replace (status_code =? 201) with false
    by (apply Z.eqb_eq in Hr; subst; reflexivity).
  reflexivity.
Qed.


End SendAnyTransport.







Lemma range_split :
  forall k n, 0 <= k <= n ->
    range (n + 1)
    = map Z.of_nat (seq 0 (Z.to_nat k))
      ++ k :: map Z.of_nat (seq (S (Z.to_nat k)) (Z.to_nat (n - k))).
Proof.
  intros k n Hk. unfold range.
  replace (Z.to_nat (n + 1)) with (Z.to_nat k + S (Z.to_nat (n - k)))%nat by lia.
  rewrite seq_app, map_app. cbn [seq map Nat.add].
  rewrite Z2Nat.id by lia. reflexivity.
Qed.

(** C5: a call of [_send_batch] on a non-empty batch that serialises, by any
    client a program can hold, whose attempts before the one numbered [k]
    were all retried.  If attempt [k] is answered 201 the call ends there as
    delivered: it prints the success and returns.  If it is answered 429 and
    retries are left, the call waits [2^k] seconds and makes the next
    request.  If it is answered with any other status outside 2xx the call
    ends there: it prints the status and the body and returns, whatever
    attempts were left.  In each case the trace given is all that the call
    does up to that point. *)
Theorem send_batch_response_handling :
  forall a started acts events transport k,
    let self := System.client (fst (System.run (System.start a started) acts)) in
    let request :=
      [Print (LogSending (EvalForge.batch_url self));
       Print (LogHeaders (EvalForge.batch_headers self));
       the_post self events] in
    let earlier := flat_map (fun j => request ++ [Sleep (2 ^ j)]) (range k) in
    events <> [] ->
    (forall ev, In ev events -> model_dump ev = Ok ev) ->
    0 <= k <= max_retries self ->
    (forall j, 0 <= j < k -> retryable (transport j) = true) ->
    (forall text,
        transport k = Response 201 text ->
        EvalForge._send_batch self events transport
        = Ok (earlier ++ request ++ [Print (LogSent (len events))]))
    /\ (forall text,
        transport k = Response 429 text ->
        k < max_retries self ->
        exists rest,
          EvalForge._send_batch self events transport
          = Ok (earlier ++ request ++ Sleep (2 ^ k) :: request ++ rest))
    /\ (forall status_code text,
        transport k = Response status_code text ->
        status_code < 200 \/ 300 <= status_code ->
        status_code <> 429 ->
        EvalForge._send_batch self events transport
        = Ok (earlier ++ request ++ [Print (LogApiError status_code text)])).
Proof.
  intros a started acts events transport k self request earlier Hne Hall Hk Hretry.
  destruct (reachable_client a started acts) as [Hdebug _]. fold self in Hdebug.
  assert (Hpre : preamble self ++ [the_post self events] = request).
  { unfold preamble, EvalForge.debug_print. rewrite Hdebug. reflexivity. }
  assert (Hrounds :
            flat_map (fun j => preamble self ++ [the_post self events; Sleep (2 ^ j)])
              (range k)
            = earlier).
  { subst earlier. apply flat_map_ext. intros j. rewrite <- Hpre, <- app_assoc.
    reflexivity. }
  assert (Hsplit : forall tail,
             EvalForge.send_attempts self events transport
               (map Z.of_nat (seq 0 (Z.to_nat k)) ++ tail)
             = earlier ++ EvalForge.send_attempts self events transport tail).
  { intros tail. rewrite <- Hrounds. unfold range.
    apply send_attempts_retry_rounds; [lia |].
    intros i Hi. apply Hretry. lia. }
  rewrite (send_batch_serialised self events transport Hne Hall).
  rewrite (range_split k) by exact Hk. rewrite Hsplit, send_attempts_cons.
  split; [| split].
  - intros text Hresp. rewrite Hresp.
    change (201 =? 201) with true. cbv iota.
    unfold EvalForge.debug_print. rewrite Hdebug, <- Hpre, <- !app_assoc.
    reflexivity.
  - intros text Hresp Hleft. rewrite Hresp.
    change (429 =? 201) with false. change (429 =? 429) with true. cbv iota.
    apply Z.ltb_lt in Hleft as Hlt. rewrite Hlt.
    replace (Z.to_nat (max_retries self - k))
      with (S (Z.to_nat (max_retries self - k - 1))) by lia.
    cbn [seq map]. rewrite send_attempts_cons.
    eexists. rewrite <- Hpre, <- !app_assoc. cbn [app]. reflexivity.
  - intros status_code text Hresp Hrange Hnot429. rewrite Hresp.
    replace (status_code =? 201) with false by (symmetry; apply Z.eqb_neq; lia).
    replace (status_code =? 429) with false by (symmetry; apply Z.eqb_neq; lia).
    unfold EvalForge.debug_print. rewrite Hdebug, <- Hpre, <- !app_assoc.
    reflexivity.
Qed.

Lemma send_batch_response_handling_witness :
  EvalForge._send_batch Sample.client [Sample.event] Sample.always_201
  = Ok [Print (LogSending "https://collector.test/sdk/v1/projects/7/events/batch");
        Print (LogHeaders [("X-API-Key", "key"); ("Content-Type", "application/json")]);
        the_post Sample.client [Sample.event];
        Print (LogSent 1)]
  /\ (exists rest,
        EvalForge._send_batch Sample.client [Sample.event] Sample.mixed
        = Ok ([Print (LogSending "https://collector.test/sdk/v1/projects/7/events/batch");
               Print (LogHeaders [("X-API-Key", "key");
                                  ("Content-Type", "application/json")]);
               the_post Sample.client [Sample.event];
               Sleep 1;
               Print (LogSending "https://collector.test/sdk/v1/projects/7/events/batch");
               Print (LogHeaders [("X-API-Key", "key");
                                  ("Content-Type", "application/json")]);
               the_post Sample.client [Sample.event]]
              ++ rest))
  /\ EvalForge._send_batch Sample.client [Sample.event] Sample.mixed
     = Ok [Print (LogSending "https://collector.test/sdk/v1/projects/7/events/batch");
           Print (LogHeaders [("X-API-Key", "key"); ("Content-Type", "application/json")]);
           the_post Sample.client [Sample.event];
           Sleep 1;
           Print (LogSending "https://collector.test/sdk/v1/projects/7/events/batch");
           Print (LogHeaders [("X-API-Key", "key"); ("Content-Type", "application/json")]);
           the_post Sample.client [Sample.event];
           Print (LogApiError 503 "unavailable")].
Proof.
  assert (Hne : [Sample.event] <> []) by discriminate.
  assert (Hall : forall ev, In ev [Sample.event] -> model_dump ev = Ok ev)
    by (intros ev [<- | []]; reflexivity).
  split; [| split].
  - refine (proj1 (send_batch_response_handling Sample.kw (Float.of_Z 0) []
                     [Sample.event] Sample.always_201 0 Hne Hall _ _) "created" _).
    + vm_compute. split; discriminate.
    + intros j Hj. lia.
    + reflexivity.
  - refine (proj1 (proj2 (send_batch_response_handling Sample.kw (Float.of_Z 0) []
                     [Sample.event] Sample.mixed 0 Hne Hall _ _)) "slow down" _ _).
    + vm_compute. split; discriminate.
    + intros j Hj. lia.
    + reflexivity.
    + vm_compute. reflexivity.
  - refine (proj2 (proj2 (send_batch_response_handling Sample.kw (Float.of_Z 0) []
                     [Sample.event] Sample.mixed 1 Hne Hall _ _))
              503 "unavailable" _ _ _).
    + vm_compute. split; discriminate.
    + intros j Hj. replace j with 0 by lia. reflexivity.
    + reflexivity.
    + right. lia.
    + lia.
Defined.

(** X3: The call on a batch that serialises settles at the first attempt
    whose outcome is neither 429 nor a network error: if that is attempt
    [k <= max_retries], the batch has been requested [k + 1] times with the
    waits 1, 2, ..., [2^(k-1)] in between, and the call ends by printing the
    success (201) or the error status and body (anything else); later
    attempts are never made. *)
Theorem send_batch_settles_at_first_answer :
  forall a started acts events transport k,
    let self := System.client (fst (System.run (System.start a started) acts)) in
    events <> [] ->
    (forall ev, In ev events -> model_dump ev = Ok ev) ->
    0 <= k <= max_retries self ->
    (forall attempt, 0 <= attempt < k -> retryable (transport attempt) = true) ->
    retryable (transport k) = false ->
    exists tr,
      EvalForge._send_batch self events transport = Ok tr
      /\ without_prints tr = backoff_schedule (the_post self events) k
      /\ len (posts tr) = k + 1
      /\ exists pre,
           tr = pre ++ the_post self events
                       :: map Print (closing_message events (transport k)).
Proof.
  intros a started acts events transport k self Hne Hall Hk Hretry Hfinal.
  destruct (reachable_client a started acts) as [Hdebug _]. fold self in Hdebug.
  destruct (send_attempts_retries self events transport (Z.to_nat k) 0
              (k :: map Z.of_nat (seq (S (Z.to_nat k))
                                    (Z.to_nat (max_retries self - k)))))
    as (pre & Hpre & Hshape).
  - lia.
  - intros i Hi. apply Hretry. lia.
  - exists (EvalForge.send_attempts self events transport
              (range (max_retries self + 1))).
    split; [apply send_batch_serialised; assumption |].
    set (tr := EvalForge.send_attempts self events transport
                 (range (max_retries self + 1))).
    assert (Htr : tr = (pre ++ preamble self)
                       ++ the_post self events
                          :: map Print (closing_message events (transport k))).
    { subst tr. rewrite (range_split k) by exact Hk.
      rewrite Hpre, send_attempts_settles by exact Hfinal.
      unfold EvalForge.debug_print. rewrite Hdebug, <- app_assoc. reflexivity. }
    assert (Hshape' : without_prints tr = backoff_schedule (the_post self events) k).
    { rewrite Htr, !without_prints_app, Hshape. unfold preamble.
      rewrite without_prints_debug_print, app_nil_r.
      cbn [without_prints filter is_print negb the_post].
      replace (filter (fun e => negb (is_print e))
                 (map Print (closing_message events (transport k))))
        with (@nil effect).
      + reflexivity.
      + destruct (transport k) as [status_code text | err]; [| reflexivity].
        cbn [closing_message]. destruct (status_code =? 201); reflexivity. }
    split; [exact Hshape' |].
    split; [| exists (pre ++ preamble self); exact Htr].
    rewrite <- posts_without_prints, Hshape'. unfold backoff_schedule, len.
    rewrite posts_rounds, repeat_length, length_range. lia.
Qed.

Lemma send_batch_settles_witness :
  exists tr,
    EvalForge._send_batch Sample.client [Sample.event] Sample.mixed = Ok tr
    /\ without_prints tr = backoff_schedule (the_post Sample.client [Sample.event]) 1
    /\ len (posts tr) = 2.
Proof.
  destruct (send_batch_settles_at_first_answer Sample.kw (Float.of_Z 0) []
              [Sample.event] Sample.mixed 1)
    as (tr & Heq & Hshape & Hposts & _).
  - discriminate.
  - intros ev [<- | []]. reflexivity.
  - vm_compute. split; discriminate.
  - intros attempt Hattempt. replace attempt with 0 by lia. reflexivity.
  - reflexivity.
  - exists tr. split; [exact Heq |]. split; [exact Hshape | exact Hposts].
Defined.

(** X4: When every attempt on a batch that serialises meets a 429 or a
    network error, the batch is requested [max_retries + 1] times on the
    doubling schedule and then given up: the call returns.  If the last
    attempt failed with a network error the failure is printed; if it was
    answered 429 the batch is dropped without a word. *)
Theorem send_batch_exhausted :
  forall a started acts events transport,
    let self := System.client (fst (System.run (System.start a started) acts)) in
    events <> [] ->
    (forall ev, In ev events -> model_dump ev = Ok ev) ->
    0 <= max_retries self ->
    (forall attempt, retryable (transport attempt) = true) ->
    exists tr,
      EvalForge._send_batch self events transport = Ok tr
      /\ without_prints tr
         = backoff_schedule (the_post self events) (max_retries self)
      /\ exists pre,
           tr = pre ++ the_post self events
                       :: map Print
                            (exhausted_message self (transport (max_retries self))).
Proof.
  intros a started acts events transport self Hne Hall Hretries Hretry.
  destruct (reachable_client a started acts) as [Hdebug _]. fold self in Hdebug.
  destruct (send_attempts_retries self events transport
              (Z.to_nat (max_retries self)) 0 [max_retries self])
    as (pre & Hpre & Hshape).
  - lia.
  - intros i _. apply Hretry.
  - exists (EvalForge.send_attempts self events transport
              (range (max_retries self + 1))).
    split; [apply send_batch_serialised; assumption |].
    set (tr := EvalForge.send_attempts self events transport
                 (range (max_retries self + 1))).
    assert (Htr : tr = (pre ++ preamble self)
                       ++ the_post self events
                          :: map Print
                               (exhausted_message self (transport (max_retries self)))).
    { subst tr. rewrite range_succ by exact Hretries. unfold range at 1.
      rewrite Hpre, send_attempts_cons.
      replace (max_retries self <? max_retries self) with false
        by (symmetry; apply Z.ltb_irrefl).
      specialize (Hretry (max_retries self)).
      destruct (transport (max_retries self)) as [status_code text | err].
      - cbn [retryable] in Hretry. rewrite Hretry.
        replace (status_code =? 201) with false
          by (apply Z.eqb_eq in Hretry; subst; reflexivity).
        cbn [EvalForge.send_attempts exhausted_message map].
        rewrite <- app_assoc. reflexivity.
      - cbn [EvalForge.send_attempts exhausted_message]. rewrite app_nil_r.
        unfold EvalForge.debug_print. rewrite Hdebug, <- app_assoc.
        reflexivity. }
    split; [| exists (pre ++ preamble self); exact Htr].
    rewrite Htr, !without_prints_app, Hshape. unfold preamble.
    rewrite without_prints_debug_print, app_nil_r.
    cbn [without_prints filter is_print negb the_post].
    replace (filter (fun e => negb (is_print e))
               (map Print (exhausted_message self (transport (max_retries self)))))
      with (@nil effect).
    + unfold backoff_schedule, range. reflexivity.
    + destruct (transport (max_retries self)); reflexivity.
Qed.

Lemma send_batch_exhausted_witness :
  exists tr,
    EvalForge._send_batch Sample.client [Sample.event] Fixture.always_down = Ok tr
    /\ without_prints tr = backoff_schedule (the_post Sample.client [Sample.event]) 2.
Proof.
  destruct (send_batch_exhausted Sample.kw (Float.of_Z 0) []
              [Sample.event] Fixture.always_down)
    as (tr & Heq & Hshape & _).
  - discriminate.
  - intros ev [<- | []]. reflexivity.
  - vm_compute. discriminate.
  - intros attempt. reflexivity.
  - exists tr. split; [exact Heq | exact Hshape].
Defined.

(** ** The worker and its callers: what happens to recorded events *)

Lemma sent_batches_app :
  forall out1 out2, sent_batches (out1 ++ out2) = sent_batches out1 ++ sent_batches out2.
Proof.
  induction out1 as [| e out1 IH]; intros out2; [reflexivity |].
  destruct e; cbn [app sent_batches]; rewrite IH; reflexivity.
Qed.

Lemma dequeues_app :
  forall out1 out2, dequeues (out1 ++ out2) = dequeues out1 ++ dequeues out2.
Proof.
  induction out1 as [| e out1 IH]; intros out2; [reflexivity |].
  destruct e; cbn [app dequeues]; rewrite IH; reflexivity.
Qed.








(** In the sample session the first event was sent and the second one is
    still queued when the worker ends. *)
Example session_ledger :
  let r := System.run (System.start Sample.kw (Float.of_Z 0)) Fixture.session in
  List.length (Ledger.recorded (System.start Sample.kw (Float.of_Z 0)) Fixture.session)
  = 2%nat
  /\ Ledger.delivered (snd r) = [Sample.event]
  /\ Ledger.held (System.worker (fst r)) = []
  /\ List.length (items (_event_queue (System.client (fst r)))) = 1%nat.
Proof. vm_compute. repeat split. Qed.



Lemma accumulated_cases :
  forall self w,
    Worker.accumulated self w = batch w
    \/ exists e, Worker.accumulated self w = batch w ++ [e].
Proof.
  intros self w. unfold Worker.accumulated, Worker.pull.
  destruct (Queue_.get (_event_queue self)) as [[e q] | e];
    [right; exists e | left]; reflexivity.
Qed.





(** ** An event that does not serialise *)

Lemma step_blocked :
  forall s w act,
    System.worker s = Worker.Running w ->
    (exists ev, In ev (batch w) /\ model_dump ev <> Ok ev) ->
    let r := System.step s act in
    (forall b io,
        In (SendBatch b io) (snd r) ->
        (exists more, b = batch w ++ more) /\ exists e, io = Raise e)
    /\ (System.worker (fst r) = Worker.Terminated
        \/ exists w',
             System.worker (fst r) = Worker.Running w'
             /\ (exists more, batch w' = batch w ++ more)
             /\ last_flush w' = last_flush w).
Proof.
  intros s w act Hw (ev & Hin & Hev) r. subst r.
  assert (Hsame : exists more : list TraceEvent, batch w = batch w ++ more)
    by (exists []; rewrite app_nil_r; reflexivity).
  assert (Hstay : exists w',
             Worker.Running w = Worker.Running w'
             /\ (exists more, batch w' = batch w ++ more)
             /\ last_flush w' = last_flush w)
    by (exists w; split; [reflexivity | split; [exact Hsame | reflexivity]]).
  destruct act as [a env | | | now transport]; unfold System.step.
  - destruct (EvalForge.trace (System.client s) a env) as [[res c] out].
    cbn [fst snd System.worker]. rewrite Hw.
    split; [intros b io [] | right; exact Hstay].
  - cbn [fst snd System.worker]. rewrite Hw.
    split; [intros b io [] | right; exact Hstay].
  - cbn [fst snd System.worker]. rewrite Hw.
    split; [intros b io [] | right; exact Hstay].
  - unfold Worker.turn. rewrite Hw.
    destruct (_stop_event (System.client s)).
    + cbn [fst snd System.worker]. split; [| left; reflexivity].
      unfold Worker.final_flush. destruct (truthy (batch w)); [| intros b io []].
      intros b io [Heq | []]. injection Heq as <- <-. split; [exact Hsame |].
      destruct (EvalForge._send_batch (System.client s) (batch w) transport)
        as [tr | e] eqn:Hsend; [exfalso | exists e; reflexivity].
      exact (Hev (send_batch_returns _ _ _ _ Hsend ev Hin)).
    + assert (Hacc : exists more,
                 Worker.accumulated (System.client s) w = batch w ++ more).
      { destruct (accumulated_cases (System.client s) w) as [-> | [e ->]];
          [exact Hsame | exists [e]; reflexivity]. }
      destruct (iteration_cases (System.client s) w now transport)
        as [[_ (tr & Hsend & _)] | [[_ (e & Hsend & Heq)] | [_ Heq]]].
      * exfalso. apply Hev. apply (send_batch_returns _ _ _ _ Hsend).
        destruct Hacc as [more ->]. apply in_or_app. left. exact Hin.
      * rewrite Heq. cbn [fst snd System.worker]. split.
        -- intros b io Hb. apply in_app_or in Hb.
           destruct Hb as [[Habs | [Hb | []]] | Hb]; [discriminate | |].
           ++ injection Hb as <- <-. split; [exact Hacc | exists e; reflexivity].
           ++ unfold Worker.worker_print in Hb.
              destruct (debug (System.client s)); [| destruct Hb].
              destruct Hb as [Habs | []]. discriminate.
        -- right. eexists. split; [reflexivity |].
           split; [exact Hacc | reflexivity].
      * rewrite Heq. cbn [fst snd System.worker]. split.
        -- intros b io [Habs | []]. discriminate.
        -- right. eexists. split; [reflexivity |].
           split; [exact Hacc | reflexivity].
Qed.

(** X22: One event that does not serialise stops delivery for good.  Once
    the worker holds such an event in its batch, whatever happens
    afterwards: every batch it hands to [_send_batch] is the batch it held
    with later events behind it, and every such call raises, so nothing is
    posted any more; while the worker runs its batch only grows and its
    last-flush time never moves. *)
Theorem unserialisable_event_blocks_the_worker :
  forall acts s w,
    System.worker s = Worker.Running w ->
    (exists ev, In ev (batch w) /\ model_dump ev <> Ok ev) ->
    let r := System.run s acts in
    (forall b io,
        In (SendBatch b io) (snd r) ->
        (exists more, b = batch w ++ more) /\ exists e, io = Raise e)
    /\ (forall w',
          System.worker (fst r) = Worker.Running w' ->
          (exists more, batch w' = batch w ++ more)
          /\ last_flush w' = last_flush w).
Proof.
  induction acts as [| act acts IH]; intros s w Hw Hbad r; subst r.
  - cbn [System.run fst snd]. split; [intros b io [] |].
    intros w' Hw'. rewrite Hw in Hw'. injection Hw' as <-.
    split; [exists []; rewrite app_nil_r |]; reflexivity.
  - cbn [System.run].
    pose proof (step_blocked s w act Hw Hbad) as Hstep.
    destruct (System.step s act) as [s1 out1]. cbn [fst snd] in Hstep.
    destruct Hstep as [Hout1 Hnext].
    destruct Hnext as [Hterm | (w1 & Hw1 & [more1 Hb1] & Ht1)].
    + destruct (run_terminated acts s1 Hterm) as [Hend Hnone].
      destruct (System.run s1 acts) as [s2 out2]. cbn [fst snd] in *.
      subst out2. rewrite app_nil_r. split; [exact Hout1 |].
      intros w' Hw'. rewrite Hend in Hw'. discriminate.
    + assert (Hbad1 : exists ev, In ev (batch w1) /\ model_dump ev <> Ok ev).
      { destruct Hbad as (ev & Hin & Hev). exists ev. split; [| exact Hev].
        rewrite Hb1. apply in_or_app. left. exact Hin. }
      specialize (IH s1 w1 Hw1 Hbad1).
      destruct (System.run s1 acts) as [s2 out2]. cbn [fst snd] in *.
      destruct IH as [Hout2 Hlast]. split.
      * intros b io Hin. apply in_app_or in Hin. destruct Hin as [Hin | Hin];
          [exact (Hout1 b io Hin) |].
        destruct (Hout2 b io Hin) as [[more Hb] Hio]. split; [| exact Hio].
        exists (more1 ++ more). rewrite Hb, Hb1, app_assoc. reflexivity.
      * intros w' Hw'. destruct (Hlast w' Hw') as [[more Hb] Ht].
        split; [| rewrite Ht; exact Ht1].
        exists (more1 ++ more). rewrite Hb, Hb1, app_assoc. reflexivity.
Qed.

Lemma unserialisable_event_blocks_witness :
  let r := System.run Fixture.blocked Fixture.blocked_turns in
  exists w',
    System.worker (fst r) = Worker.Running w'
    /\ (exists more, batch w' = [Fixture.connection_event] ++ more)
    /\ last_flush w' = Float.of_Z 0.
Proof.
  assert (Hbad : exists ev,
             In ev (batch Fixture.connection_pending) /\ model_dump ev <> Ok ev).
  { exists Fixture.connection_event.
    split; [left; reflexivity | vm_compute; discriminate]. }
  destruct (unserialisable_event_blocks_the_worker Fixture.blocked_turns
              Fixture.blocked Fixture.connection_pending eq_refl Hbad)
    as [_ Hlast].
  cbn zeta. eexists. split; [vm_compute; reflexivity |].
  apply Hlast. vm_compute. reflexivity.
Defined.

(** The whole session: both turns after the interval hand over the growing
    batch and raise, the final flush raises as well, and the two events are
    gone with the thread without a single request. *)
Example blocked_session_sends_nothing :
  let r := System.run Fixture.blocked Fixture.blocked_session in
  System.worker (fst r) = Worker.Terminated
  /\ map (fun b => map ev_operation_type b) (sent_batches (snd r))
     = [["llm_call"; "embedding"]; ["llm_call"; "embedding"];
        ["llm_call"; "embedding"]]
  /\ items (_event_queue (System.client (fst r))) = []
  /\ Forall (fun e => match e with
                      | SendBatch _ (Ok _) => False
                      | _ => True
                      end) (snd r).
Proof.
  vm_compute. split; [reflexivity |]. split; [reflexivity |]. split; [reflexivity |].
  repeat constructor.
Qed.

(** ** After the stop signal *)

Lemma trace_extends_queue :
  forall self a env,
    exists more,
      items (_event_queue (snd (fst (EvalForge.trace self a env))))
      = items (_event_queue self) ++ more.
Proof.
  intros self a env. unfold EvalForge.trace.
  destruct (EvalForge.build_event self a env) as [[tid ev] | e];
    [| exists []; cbn; rewrite app_nil_r; reflexivity].
  unfold Queue_.put_nowait.
  destruct ((0 <? maxsize (_event_queue self))
            && (maxsize (_event_queue self) <=? len (items (_event_queue self)))).
  - exists []. cbn. rewrite app_nil_r. reflexivity.
  - exists [ev]. reflexivity.
Qed.

Lemma step_after_stop :
  forall s act,
    _stop_event (System.client s) = true ->
    let r := System.step s act in
    _stop_event (System.client (fst r)) = true
    /\ dequeues (snd r) = []
    /\ (exists more,
          items (_event_queue (System.client (fst r)))
          = items (_event_queue (System.client s)) ++ more)
    /\ ((System.worker (fst r) = System.worker s /\ snd r = [])
        \/ (System.worker (fst r) = Worker.Terminated
            /\ (sent_batches (snd r) = []
                \/ (Ledger.held (System.worker s) <> []
                    /\ sent_batches (snd r) = [Ledger.held (System.worker s)])))).
Proof.
  intros s act Hstop r.
  assert (Hsame : exists more : list TraceEvent,
             items (_event_queue (System.client s))
             = items (_event_queue (System.client s)) ++ more)
    by (exists []; rewrite app_nil_r; reflexivity).
  subst r. destruct act as [a env | | | now transport]; unfold System.step.
  - destruct (trace_extends_queue (System.client s) a env) as [more Hq].
    destruct (trace_keeps_settings (System.client s) a env) as (_ & _ & Hs).
    destruct (EvalForge.trace (System.client s) a env) as [[res c] out].
    cbn [fst snd System.client System.worker] in *.
    split; [rewrite Hs; exact Hstop |]. split; [reflexivity |].
    split; [exists more; exact Hq | left; split; reflexivity].
  - cbn. split; [exact Hstop |]. split; [reflexivity |].
    split; [exact Hsame | left; split; reflexivity].
  - cbn. split; [reflexivity |]. split; [reflexivity |].
    split; [exact Hsame | left; split; reflexivity].
  - unfold Worker.turn. destruct (System.worker s) as [w |].
    + rewrite Hstop. cbn [fst snd System.client System.worker Ledger.held].
      unfold Worker.final_flush.
      split; [exact Hstop |].
      destruct (batch w) as [| e es]; cbn [truthy dequeues sent_batches].
      * split; [reflexivity |]. split; [exact Hsame |].
        right. split; [reflexivity | left; reflexivity].
      * split; [reflexivity |]. split; [exact Hsame |].
        right. split; [reflexivity | right; split; [discriminate | reflexivity]].
    + cbn. split; [exact Hstop |]. split; [reflexivity |].
      split; [exact Hsame | left; split; reflexivity].
Qed.

(** X7: Once the stop signal is set (a worker iteration under way at that
    moment counting as before it) the worker never takes another event from
    the queue: over anything that happens afterwards there is no dequeue, at
    most one send, which is the batch the worker already held, and the queue
    only grows.  Events still queued at that moment are never sent. *)
Theorem after_stop_queue_is_abandoned :
  forall s acts,
    _stop_event (System.client s) = true ->
    let r := System.run s acts in
    dequeues (snd r) = []
    /\ (sent_batches (snd r) = []
        \/ (Ledger.held (System.worker s) <> []
            /\ sent_batches (snd r) = [Ledger.held (System.worker s)]))
    /\ exists more,
         items (_event_queue (System.client (fst r)))
         = items (_event_queue (System.client s)) ++ more.
Proof.
  intros s acts. revert s.
  induction acts as [| act acts IH]; intros s Hstop r; subst r.
  - cbn. split; [reflexivity | split; [left; reflexivity |]].
    exists []. rewrite app_nil_r. reflexivity.
  - cbn [System.run].
    pose proof (step_after_stop s act Hstop) as Hstep.
    destruct (System.step s act) as [s1 out1]. cbn [fst snd] in Hstep.
    destruct Hstep as (Hstop1 & Hd1 & [more1 Hq1] & Hworker).
    pose proof (IH s1 Hstop1) as Hrest.
    pose proof (run_terminated acts s1) as Hdone.
    destruct (System.run s1 acts) as [s2 out2]. cbn [fst snd] in *.
    destruct Hrest as (Hd2 & Hsent2 & [more2 Hq2]).
    rewrite dequeues_app, sent_batches_app, Hd1, Hd2.
    split; [reflexivity |]. split.
    + destruct Hworker as [[Hw ->] | [Hterm Hsent1]].
      * rewrite Hw in Hsent2. exact Hsent2.
      * destruct (Hdone Hterm) as [_ ->]. rewrite app_nil_r. exact Hsent1.
    + exists (more1 ++ more2). rewrite Hq2, Hq1, app_assoc. reflexivity.
Qed.

Lemma after_stop_witness :
  dequeues (snd (System.run Sample.stopping
                   [System.CallTrace (Sample.op "embedding" None None) Sample.env;
                    System.WorkerTurn (Float.of_Z 2) Sample.always_201;
                    System.WorkerTurn (Float.of_Z 3) Sample.always_201]))
  = [].
Proof.
  refine (proj1 (after_stop_queue_is_abandoned Sample.stopping _ _)).
  reflexivity.
Defined.

(** ** When [trace] raises *)

Lemma digits2_pos_size : forall p, digits2_pos p = Pos.size p.
Proof. induction p; cbn; rewrite ?IHp; reflexivity. Qed.

Lemma Zdigits2_gt : forall m, 0 <= m -> m < 2 ^ Zdigits2 m.
Proof.
  intros [| p | p] Hm; [reflexivity | | lia].
  cbn [Zdigits2]. rewrite digits2_pos_size.
  pose proof (Pos.size_gt p) as H. apply Pos2Z.pos_lt_pos in H.
  rewrite Pos2Z.inj_pow in H. exact H.
Qed.

Lemma Zdigits2_le : forall m k, 0 <= k -> 0 <= m < 2 ^ k -> Zdigits2 m <= k.
Proof.
  intros [| p | p] k Hk Hm; [exact Hk | | lia].
  cbn [Zdigits2]. rewrite digits2_pos_size.
  pose proof (Pos.size_le p) as Hle. apply Pos2Z.pos_le_pos in Hle.
  rewrite Pos2Z.inj_pow in Hle.
  destruct (Z.le_gt_cases (Z.pos (Pos.size p)) k) as [H | H]; [exact H | exfalso].
  assert (Hpow : 2 ^ (k + 1) <= 2 ^ Z.pos (Pos.size p))
    by (apply Z.pow_le_mono_r; lia).
  rewrite Z.pow_add_r in Hpow by lia. change (2 ^ 1) with 2 in Hpow. lia.
Qed.

Lemma shr_1_halves :
  forall mrs, 0 <= shr_m mrs ->
    0 <= shr_m (shr_1 mrs) /\ 2 * shr_m (shr_1 mrs) <= shr_m mrs.
Proof.
  intros [m r s] Hm. cbn [shr_m] in Hm. unfold shr_1.
  destruct m as [| [p | p |] | p]; cbn [shr_m]; lia.
Qed.

Lemma pow2_xO : forall p, 2 ^ Z.pos p~0 = 2 ^ Z.pos p * 2 ^ Z.pos p.
Proof.
  intros p. rewrite <- Z.pow_add_r by lia. f_equal. lia.
Qed.

Lemma pow2_xI : forall p, 2 ^ Z.pos p~1 = 2 * (2 ^ Z.pos p * 2 ^ Z.pos p).
Proof.
  intros p. rewrite <- Z.pow_add_r, <- Z.pow_succ_r by lia. f_equal. lia.
Qed.

Lemma iter_shr_1 :
  forall p mrs, 0 <= shr_m mrs ->
    0 <= shr_m (iter_pos shr_1 p mrs)
    /\ 2 ^ Z.pos p * shr_m (iter_pos shr_1 p mrs) <= shr_m mrs.
Proof.
  induction p as [p IH | p IH |]; intros mrs Hm; cbn [iter_pos].
  - destruct (shr_1_halves mrs Hm) as [H0 H1].
    destruct (IH _ H0) as [H2 H3]. destruct (IH _ H2) as [H4 H5].
    split; [exact H4 |]. rewrite pow2_xI.
    pose proof (Z.pow_pos_nonneg 2 (Z.pos p)). nia.
  - destruct (IH _ Hm) as [H2 H3]. destruct (IH _ H2) as [H4 H5].
    split; [exact H4 |]. rewrite pow2_xO.
    pose proof (Z.pow_pos_nonneg 2 (Z.pos p)). nia.
  - destruct (shr_1_halves mrs Hm) as [H0 H1]. split; [exact H0 |].
    change (2 ^ 1) with 2. lia.
Qed.

Lemma fexp_le : forall x, x <= 1024 -> fexp Float.prec Float.emax x <= 971.
Proof. intros x Hx. unfold fexp, emin, Float.prec, Float.emax. lia. Qed.

(** [shr_fexp] keeps the value bound and leaves at most 53 digits. *)
Lemma shr_fexp_bounded :
  forall m e l B,
    0 <= m < 2 ^ (B - e) -> e <= 971 -> -1074 <= B <= 1024 ->
    let r := shr_fexp Float.prec Float.emax m e l in
    0 <= shr_m (fst r) < 2 ^ (B - snd r) /\ snd r <= 971 /\ e <= snd r.
Proof.
  intros m e l B Hm He HB r. subst r. unfold shr_fexp, shr.
  assert (HBe : 0 <= B - e).
  { destruct (Z.le_gt_cases 0 (B - e)) as [H | H]; [exact H |].
    rewrite Z.pow_neg_r in Hm by exact H. lia. }
  assert (Hd : Zdigits2 m <= B - e) by (apply Zdigits2_le; assumption).
  assert (Hf : fexp Float.prec Float.emax (Zdigits2 m + e) <= 971) by (apply fexp_le; lia).
  assert (HfB : fexp Float.prec Float.emax (Zdigits2 m + e) <= B)
    by (unfold fexp, emin, Float.prec, Float.emax; lia).
  assert (Hm0 : shr_m (shr_record_of_loc m l) = m)
    by (destruct l as [| []]; reflexivity).
  destruct (fexp Float.prec Float.emax (Zdigits2 m + e) - e) as [| n | n] eqn:Hn;
    cbn [fst snd]; rewrite ?Hm0.
  - repeat split; lia.
  - destruct (iter_shr_1 n (shr_record_of_loc m l)) as [H0 H1];
      [rewrite Hm0; lia |]. rewrite Hm0 in H1.
    split; [| lia]. split; [exact H0 |].
    assert (Hlt : 2 ^ Z.pos n * shr_m (iter_pos shr_1 n (shr_record_of_loc m l))
                  < 2 ^ Z.pos n * 2 ^ (B - (e + Z.pos n))).
    { rewrite <- Z.pow_add_r by lia.
      replace (Z.pos n + (B - (e + Z.pos n))) with (B - e) by lia. lia. }
    apply Z.mul_lt_mono_pos_l in Hlt; [exact Hlt | apply Z.pow_pos_nonneg; lia].
  - repeat split; lia.
Qed.

Lemma round_nearest_even_bounds :
  forall m l, m <= round_nearest_even m l <= m + 1.
Proof.
  intros m l. unfold round_nearest_even.
  destruct l as [| []]; try destruct (Z.even m); lia.
Qed.

(** Rounding a magnitude below [2^B], well inside the binary64 range, gives
    a zero or a finite number of the same sign, still below [2^(B+1)]. *)
Lemma binary_round_aux_bounded :
  forall sx mx ex lx B,
    0 <= mx < 2 ^ (B - ex) -> ex <= 971 -> -1074 <= B <= 1023 ->
    match binary_round_aux Float.prec Float.emax sx mx ex lx with
    | S754_zero s => s = sx
    | S754_finite s m e => s = sx /\ e <= 971 /\ Z.pos m < 2 ^ (B + 1 - e)
    | _ => False
    end.
Proof.
  intros sx mx ex lx B Hm He HB. unfold binary_round_aux.
  pose proof (shr_fexp_bounded mx ex lx B Hm He) as H1.
  destruct (shr_fexp Float.prec Float.emax mx ex lx) as [mrs' e']. cbn [fst snd] in H1.
  destruct H1 as (Hm1 & He1 & _); [lia |].
  pose proof (round_nearest_even_bounds (shr_m mrs') (loc_of_shr_record mrs')) as Hr.
  assert (HBe : 0 <= B - e').
  { destruct (Z.le_gt_cases 0 (B - e')) as [H | H]; [exact H |].
    rewrite Z.pow_neg_r in Hm1 by exact H. lia. }
  assert (Hpow : 2 ^ (B + 1 - e') = 2 * 2 ^ (B - e')).
  { replace (B + 1 - e') with (Z.succ (B - e')) by lia.
    apply Z.pow_succ_r. exact HBe. }
  pose proof (shr_fexp_bounded
                (round_nearest_even (shr_m mrs') (loc_of_shr_record mrs'))
                e' loc_Exact (B + 1)) as H2.
  destruct (shr_fexp Float.prec Float.emax
              (round_nearest_even (shr_m mrs') (loc_of_shr_record mrs'))
              e' loc_Exact) as [mrs'' e'']. cbn [fst snd] in H2.
  destruct H2 as (Hm2 & He2 & _); [lia | exact He1 | lia |].
  destruct (shr_m mrs'') as [| m | m]; [reflexivity | | lia].
  replace (e'' <=? Float.emax - Float.prec) with true
    by (symmetry; apply Z.leb_le; unfold Float.emax, Float.prec; lia).
  repeat split; [exact He2 | lia].
Qed.

Lemma div_by_million_bounded :
  forall p,
    Z.pos p < 2 ^ 63 ->
    let r := SFdiv_core_binary Float.prec Float.emax (Z.pos p) 0 1000000 0 in
    0 <= fst (fst r) < 2 ^ (63 - snd (fst r)) /\ snd (fst r) <= 0.
Proof.
  intros p Hp. unfold SFdiv_core_binary.
  remember (Z.min (fexp Float.prec Float.emax
                     (Zdigits2 (Z.pos p) + 0 - (Zdigits2 1000000 + 0))) (0 - 0))
    as e' eqn:He'.
  assert (Hneg : e' <= 0) by (subst e'; apply Z.le_min_r).
  clear He'.
  assert (Hm' : 0 <= match 0 - 0 - e' with
                     | 0 => Z.pos p
                     | Z.pos _ => Z.shiftl (Z.pos p) (0 - 0 - e')
                     | Z.neg _ => 0
                     end < 2 ^ (63 - e')).
  { destruct (0 - 0 - e') as [| n | n] eqn:Hs.
    - replace e' with 0 by lia. exact (conj (Pos2Z.is_nonneg p) Hp).
    - rewrite Z.shiftl_mul_pow2 by lia.
      replace (63 - e') with (63 + Z.pos n) by lia.
      rewrite Z.pow_add_r by lia.
      pose proof (Z.pow_pos_nonneg 2 (Z.pos n)). nia.
    - lia. }
  remember (match 0 - 0 - e' with
            | 0 => Z.pos p
            | Z.pos _ => Z.shiftl (Z.pos p) (0 - 0 - e')
            | Z.neg _ => 0
            end) as m' eqn:Hdef. clear Hdef.
  pose proof (Z_div_mod m' 1000000 eq_refl) as Hdiv.
  destruct (Z.div_eucl m' 1000000) as [q r]. cbn [fst snd].
  split; [lia | exact Hneg].
Qed.

Lemma to_int_finite :
  forall s m e,
    exists n, 0 <= n /\ Float.to_int (S754_finite s m e) = Ok (if s then - n else n).
Proof.
  intros s m e. unfold Float.to_int.
  exists (if 0 <=? e then Z.shiftl (Z.pos m) e else Z.shiftr (Z.pos m) (- e)).
  split; [| reflexivity].
  destruct (0 <=? e); [apply Z.shiftl_nonneg | apply Z.shiftr_nonneg]; lia.
Qed.

(** The quotient of fewer than [2^63] microseconds by a million, times
    1000, is a float that [int] accepts, and it has the sign of the
    dividend. *)
Lemma scaled_quotient_defined :
  forall s p,
    Z.pos p < 2 ^ 63 ->
    exists n,
      0 <= n
      /\ Float.to_int
           (Float.mul
              (SFdiv Float.prec Float.emax
                 (S754_finite s p 0) (S754_finite false 1000000 0))
              (Float.of_Z 1000))
         = Ok (if s then - n else n).
Proof.
  intros s p Hp. unfold SFdiv.
  pose proof (div_by_million_bounded p Hp) as Hq.
  destruct (SFdiv_core_binary Float.prec Float.emax (Z.pos p) 0 1000000 0)
    as [[mz ez] lz]. cbn [fst snd] in Hq. destruct Hq as [Hmz Hez].
  pose proof (binary_round_aux_bounded (xorb s false) mz ez lz 63 Hmz) as Hdiv.
  destruct (binary_round_aux Float.prec Float.emax (xorb s false) mz ez lz)
    as [s1 | s1 | | s1 m e].
  - exists 0. split; [lia |]. destruct s; reflexivity.
  - exfalso. apply Hdiv; lia.
  - exfalso. apply Hdiv; lia.
  - destruct Hdiv as (Hs1 & He & Hm); [lia | lia |].
    change (Float.of_Z 1000) with (S754_finite false 8796093022208000 (-43)).
    unfold Float.mul, SFmul.
    assert (Hexp : 0 <= 63 + 1 - e).
    { destruct (Z.le_gt_cases 0 (63 + 1 - e)) as [H | H]; [exact H |].
      rewrite Z.pow_neg_r in Hm by exact H. lia. }
    assert (Hprod : 0 <= Z.pos (m * 8796093022208000) < 2 ^ (74 - (e + -43))).
    { split; [lia |]. rewrite Pos2Z.inj_mul.
      replace (74 - (e + -43)) with ((63 + 1 - e) + 53) by lia.
      rewrite Z.pow_add_r by lia.
      assert (8796093022208000 < 2 ^ 53) by reflexivity.
      pose proof (Pos2Z.is_pos m). nia. }
    pose proof (binary_round_aux_bounded (xorb s1 false)
                  (Z.pos (m * 8796093022208000)) (e + -43) loc_Exact 74 Hprod)
      as Hmul.
    destruct (binary_round_aux Float.prec Float.emax (xorb s1 false)
                (Z.pos (m * 8796093022208000)) (e + -43) loc_Exact)
      as [s2 | s2 | | s2 m2 e2].
    + exists 0. split; [lia |]. destruct s; reflexivity.
    + exfalso. apply Hmul; lia.
    + exfalso. apply Hmul; lia.
    + destruct Hmul as (Hs2 & _ & _); [lia | lia |].
      assert (Hsign : s2 = s) by (subst s2 s1; destruct s; reflexivity).
      rewrite Hsign. apply to_int_finite.
Qed.

(** For two timestamps that are both naive or both aware and less than
    [2^63] microseconds apart (every pair of Python datetimes is), the
    duration is defined and has the sign of their difference. *)
Lemma duration_defined :
  forall t0 t1,
    aware t0 = aware t1 ->
    - 2 ^ 63 < micros t1 - micros t0 < 2 ^ 63 ->
    exists d,
      EvalForge.duration_ms_of t0 t1 = Ok d
      /\ (micros t0 <= micros t1 -> 0 <= d)
      /\ (micros t1 <= micros t0 -> d <= 0).
Proof.
  intros t0 t1 Haware Hrange. unfold EvalForge.duration_ms_of, Datetime.sub.
  rewrite Haware, Bool.eqb_reflx. cbn [bind].
  unfold Datetime.total_seconds, Float.true_divide.
  change (10 ^ 6 =? 0) with false. cbv iota. cbn [bind].
  change (Float.int_mantissa (10 ^ 6)) with (S754_finite false 1000000 0).
  destruct (micros t1 - micros t0) as [| p | p] eqn:Htd; cbn [Float.int_mantissa].
  - exists 0. split; [reflexivity | lia].
  - destruct (scaled_quotient_defined false p) as (n & Hn & ->); [lia |].
    exists n. split; [reflexivity | lia].
  - destruct (scaled_quotient_defined true p) as (n & Hn & ->); [lia |].
    exists (- n). split; [reflexivity | lia].
Qed.

(** X8: [trace] raises exactly in one situation.  With the start and end
    timestamps it ends up using (the caller's or the current time, which is
    timezone-aware): if one is naive and the other aware it raises
    [TypeError] and records nothing; otherwise, for timestamps less than
    [2^63] microseconds apart, it appends one event to the queue and returns
    the trace id, and the recorded duration has the sign of the difference. *)
Theorem trace_raises_only_on_mixed_awareness :
  forall a started acts ta env,
    let self := System.client (fst (System.run (System.start a started) acts)) in
    let now := {| micros := EvalForge.now_micros env; aware := true |} in
    let t0 := obj_or (EvalForge.start_time ta) now in
    let t1 := obj_or (EvalForge.end_time ta) now in
    (aware t0 <> aware t1 ->
     EvalForge.trace self ta env
     = (Raise (TypeError "can't subtract offset-naive and offset-aware datetimes"),
        self, []))
    /\ (aware t0 = aware t1 ->
        - 2 ^ 63 < micros t1 - micros t0 < 2 ^ 63 ->
        exists ev,
          EvalForge.trace self ta env
          = (Ok (str_or (EvalForge.trace_id ta) (EvalForge.fresh_trace_id env)),
             EvalForge.set_queue self
               {| maxsize := 0; items := items (_event_queue self) ++ [ev] |},
             [])
          /\ ev_start_time ev = t0 /\ ev_end_time ev = t1
          /\ (micros t0 <= micros t1 -> 0 <= ev_duration_ms ev)
          /\ (micros t1 <= micros t0 -> ev_duration_ms ev <= 0)
          /\ items (_event_queue (snd (fst (EvalForge.trace self ta env))))
             = items (_event_queue self) ++ [ev]).
Proof.
  intros a started acts ta env self now t0 t1. split.
  - intros Hmixed. unfold EvalForge.trace, EvalForge.build_event.
    fold now. fold t0. fold t1.
    unfold EvalForge.duration_ms_of, Datetime.sub.
    replace (Bool.eqb (aware t1) (aware t0)) with false; [reflexivity |].
    symmetry. apply Bool.eqb_false_iff. congruence.
  - intros Hsame Hrange.
    destruct (duration_defined t0 t1 Hsame Hrange) as (d & Hd & Hpos & Hneg).
    destruct (reachable_client a started acts) as [_ Hmax]. fold self in Hmax.
    eexists. split; [| split; [| split; [| split; [| split]]]].
    + unfold EvalForge.trace, EvalForge.build_event, Queue_.put_nowait.
      fold now. fold t0. fold t1. rewrite Hd, Hmax. cbn [bind]. reflexivity.
    + reflexivity.
    + reflexivity.
    + exact Hpos.
    + exact Hneg.
    + unfold EvalForge.trace, EvalForge.build_event, Queue_.put_nowait.
      fold now. fold t0. fold t1. rewrite Hd, Hmax. cbn [bind]. reflexivity.
Qed.

Lemma trace_raises_only_witness :
  EvalForge.trace Sample.client
    (Sample.op "llm_call" (Some {| micros := 5; aware := false |}) None) Sample.env
  = (Raise (TypeError "can't subtract offset-naive and offset-aware datetimes"),
     Sample.client, [])
  /\ fst (fst (EvalForge.trace Sample.client
                 (Sample.op "llm_call" (Some (Sample.utc 1704067200000000))
                    (Some (Sample.utc 1704067201001000)))
                 Sample.env))
     = Ok "trace-1"
  /\ List.length
       (items (_event_queue
                 (snd (fst (EvalForge.trace Sample.client
                              (Sample.op "llm_call" (Some (Sample.utc 1704067200000000))
                                 (Some (Sample.utc 1704067201001000)))
                              Sample.env)))))
     = 1%nat.
Proof.
  split.
  - refine (proj1 (trace_raises_only_on_mixed_awareness Sample.kw (Float.of_Z 0) []
                     (Sample.op "llm_call" (Some {| micros := 5; aware := false |}) None)
                     Sample.env) _).
    discriminate.
  - destruct (proj2 (trace_raises_only_on_mixed_awareness Sample.kw (Float.of_Z 0) []
                       (Sample.op "llm_call" (Some (Sample.utc 1704067200000000))
                          (Some (Sample.utc 1704067201001000)))
                       Sample.env))
      as (ev & Htrace & _ & _ & _ & _ & Hitems).
    + reflexivity.
    + vm_compute. split; reflexivity.
    + change Sample.client
        with (System.client (fst (System.run (System.start Sample.kw (Float.of_Z 0)) []))).
      split; [rewrite Htrace; reflexivity |].
      rewrite Hitems. reflexivity.
Defined.

(** ** config.py: loading and merging settings *)

Section FromEnvFacts.

Variable int_of_str : string -> option Z.
Variable float_of_str : string -> option Float.float.
Variable getenv : string -> option string.

Lemma read_cases :
  forall (A : Type) (parse : string -> option A) name,
    (exists v, Config.read getenv parse name = Ok v
               /\ ~ Config.unparsable getenv parse name)
    \/ (exists e, Config.read getenv parse name = Raise e
                  /\ Config.reports getenv parse name e).
Proof.
  intros A parse name. unfold Config.read, Config.unparsable, Config.reports.
  destruct (getenv name) as [value |].
  - destruct (String.eqb_spec value "") as [-> | Hne].
    + left. exists None. split; [reflexivity |].
      intros (v & Hv & Hne & _). injection Hv as <-. contradiction.
    + destruct (parse value) as [v |] eqn:Hparse.
      * left. exists (Some v). split; [reflexivity |].
        intros (v' & Hv & _ & Hnone). injection Hv as <-. congruence.
      * right. exists (Config.invalid name value). split; [reflexivity |].
        exists value. repeat split; assumption.
  - left. exists None. split; [reflexivity |].
    intros (v & Hv & _). discriminate.
Qed.

Lemma reports_unparsable :
  forall (A : Type) (parse : string -> option A) name e,
    Config.reports getenv parse name e -> Config.unparsable getenv parse name.
Proof.
  intros A parse name e (value & H1 & H2 & H3 & _). exists value. auto.
Qed.

(** X9: [Config.from_env] raises exactly when one of the five numeric variables
    is set to a non-empty value that does not parse, and the exception is
    the [ValueError] naming the first such variable, in the order project id,
    batch size, flush interval, retries, timeout, together with its value. *)
Theorem from_env_raises_first_invalid :
  forall e,
    Config.from_env int_of_str float_of_str getenv = Raise e
    <-> Config.reports getenv int_of_str "EVALFORGE_PROJECT_ID" e
        \/ (~ Config.unparsable getenv int_of_str "EVALFORGE_PROJECT_ID"
            /\ (Config.reports getenv int_of_str "EVALFORGE_BATCH_SIZE" e
                \/ (~ Config.unparsable getenv int_of_str "EVALFORGE_BATCH_SIZE"
                    /\ (Config.reports getenv float_of_str "EVALFORGE_FLUSH_INTERVAL" e
                        \/ (~ Config.unparsable getenv float_of_str
                               "EVALFORGE_FLUSH_INTERVAL"
                            /\ (Config.reports getenv int_of_str
                                   "EVALFORGE_MAX_RETRIES" e
                                \/ (~ Config.unparsable getenv int_of_str
                                       "EVALFORGE_MAX_RETRIES"
                                    /\ Config.reports getenv float_of_str
                                         "EVALFORGE_TIMEOUT" e))))))).
Proof.
  intros e. unfold Config.from_env.
  destruct (read_cases Z int_of_str "EVALFORGE_PROJECT_ID")
    as [(v1 & -> & N1) | (e1 & -> & R1)]; cbn [bind].
  2: { split.
       - intros H. injection H as <-. left. exact R1.
       - intros [R | [N _]].
         + destruct R as (value & Hv & _ & _ & ->).
           destruct R1 as (value1 & Hv1 & _ & _ & ->). congruence.
         + exfalso. apply N. exact (reports_unparsable _ _ _ _ R1). }
  destruct (read_cases Z int_of_str "EVALFORGE_BATCH_SIZE")
    as [(v2 & -> & N2) | (e2 & -> & R2)]; cbn [bind].
  2: { split.
       - intros H. injection H as <-. right. split; [exact N1 | left; exact R2].
       - intros [R | [_ [R | [N _]]]].
         + exfalso. apply N1. exact (reports_unparsable _ _ _ _ R).
         + destruct R as (value & Hv & _ & _ & ->).
           destruct R2 as (value2 & Hv2 & _ & _ & ->). congruence.
         + exfalso. apply N. exact (reports_unparsable _ _ _ _ R2). }
  destruct (read_cases Float.float float_of_str "EVALFORGE_FLUSH_INTERVAL")
    as [(v3 & -> & N3) | (e3 & -> & R3)]; cbn [bind].
  2: { split.
       - intros H. injection H as <-.
         right. split; [exact N1 |]. right. split; [exact N2 | left; exact R3].
       - intros [R | [_ [R | [_ [R | [N _]]]]]].
         + exfalso. apply N1. exact (reports_unparsable _ _ _ _ R).
         + exfalso. apply N2. exact (reports_unparsable _ _ _ _ R).
         + destruct R as (value & Hv & _ & _ & ->).
           destruct R3 as (value3 & Hv3 & _ & _ & ->). congruence.
         + exfalso. apply N. exact (reports_unparsable _ _ _ _ R3). }
  destruct (read_cases Z int_of_str "EVALFORGE_MAX_RETRIES")
    as [(v4 & -> & N4) | (e4 & -> & R4)]; cbn [bind].
  2: { split.
       - intros H. injection H as <-.
         right. split; [exact N1 |]. right. split; [exact N2 |].
         right. split; [exact N3 | left; exact R4].
       - intros [R | [_ [R | [_ [R | [_ [R | [N _]]]]]]]].
         + exfalso. apply N1. exact (reports_unparsable _ _ _ _ R).
         + exfalso. apply N2. exact (reports_unparsable _ _ _ _ R).
         + exfalso. apply N3. exact (reports_unparsable _ _ _ _ R).
         + destruct R as (value & Hv & _ & _ & ->).
           destruct R4 as (value4 & Hv4 & _ & _ & ->). congruence.
         + exfalso. apply N. exact (reports_unparsable _ _ _ _ R4). }
  destruct (read_cases Float.float float_of_str "EVALFORGE_TIMEOUT")
    as [(v5 & -> & N5) | (e5 & -> & R5)]; cbn [bind].
  - split; [discriminate |].
    intros [R | [_ [R | [_ [R | [_ [R | [_ R]]]]]]]]; exfalso;
      [apply N1 | apply N2 | apply N3 | apply N4 | apply N5];
      exact (reports_unparsable _ _ _ _ R).
  - split.
    + intros H. injection H as <-.
      right. split; [exact N1 |]. right. split; [exact N2 |].
      right. split; [exact N3 |]. right. split; [exact N4 | exact R5].
    + intros [R | [_ [R | [_ [R | [_ [R | [_ R]]]]]]]].
      * exfalso. apply N1. exact (reports_unparsable _ _ _ _ R).
      * exfalso. apply N2. exact (reports_unparsable _ _ _ _ R).
      * exfalso. apply N3. exact (reports_unparsable _ _ _ _ R).
      * exfalso. apply N4. exact (reports_unparsable _ _ _ _ R).
      * destruct R as (value & Hv & _ & _ & ->).
        destruct R5 as (value5 & Hv5 & _ & _ & ->). congruence.
Qed.

Lemma read_unset_or_empty :
  forall (A : Type) (parse : string -> option A) name,
    Config.unset_or_empty getenv name -> Config.read getenv parse name = Ok None.
Proof.
  intros A parse name [H | H]; unfold Config.read; rewrite H; reflexivity.
Qed.

(** X10: When each of the five numeric variables is unset or empty, [from_env]
    cannot fail, whatever the parsers accept: the numeric settings keep the
    defaults of [Config()], while the API key and the base URL are taken as
    they are, the base URL even when it is the empty string, and debug is on
    exactly for the four accepted words in any capitalisation. *)
Theorem from_env_defaults :
  Config.unset_or_empty getenv "EVALFORGE_PROJECT_ID" ->
  Config.unset_or_empty getenv "EVALFORGE_BATCH_SIZE" ->
  Config.unset_or_empty getenv "EVALFORGE_FLUSH_INTERVAL" ->
  Config.unset_or_empty getenv "EVALFORGE_MAX_RETRIES" ->
  Config.unset_or_empty getenv "EVALFORGE_TIMEOUT" ->
  Config.from_env int_of_str float_of_str getenv
  = Ok {| Config.api_key := getenv "EVALFORGE_API_KEY";
          Config.project_id := None;
          Config.base_url :=
            match getenv "EVALFORGE_BASE_URL" with
            | Some url => url
            | None => "https://api.evalforge.dev"
            end;
          Config.batch_size := 100;
          Config.flush_interval := Float.of_Z 5;
          Config.max_retries := 3;
          Config.timeout := Float.of_Z 30;
          Config.debug :=
            match getenv "EVALFORGE_DEBUG" with
            | Some v => Config.str_in (Config.lower v) ["true"; "1"; "yes"; "on"]
            | None => false
            end |}.
Proof.
  intros H1 H2 H3 H4 H5. unfold Config.from_env.
  rewrite !read_unset_or_empty by assumption. cbn [bind].
  destruct (getenv "EVALFORGE_BASE_URL"), (getenv "EVALFORGE_DEBUG"); reflexivity.
Qed.

End FromEnvFacts.

Lemma from_env_raises_witness :
  Config.from_env Fixture.int_of_str Fixture.float_of_str Fixture.environ
  = Raise (ValueError "Invalid EVALFORGE_FLUSH_INTERVAL: soon").
Proof.
  apply (proj2 (from_env_raises_first_invalid
                  Fixture.int_of_str Fixture.float_of_str Fixture.environ _)).
  right. split.
  - intros (value & Hv & _ & Hnone). vm_compute in Hv. injection Hv as <-.
    discriminate.
  - right. split.
    + intros (value & Hv & Hne & _). vm_compute in Hv. injection Hv as <-.
      contradiction.
    + left. exists "soon". repeat split. discriminate.
Defined.

Lemma from_env_defaults_witness :
  Config.from_env Fixture.int_of_str Fixture.float_of_str Fixture.environ_plain
  = Ok {| Config.api_key := None; Config.project_id := None;
          Config.base_url := ""; Config.batch_size := 100;
          Config.flush_interval := Float.of_Z 5; Config.max_retries := 3;
          Config.timeout := Float.of_Z 30; Config.debug := true |}.
Proof.
  apply (from_env_defaults Fixture.int_of_str Fixture.float_of_str
           Fixture.environ_plain).
  - left. reflexivity.
  - right. reflexivity.
  - left. reflexivity.
  - left. reflexivity.
  - left. reflexivity.
Defined.

(** With the flush interval taken out, the sample environment loads: the
    project id is parsed, the empty batch size is ignored. *)
Example from_env_sample :
  Config.from_env Fixture.int_of_str Fixture.float_of_str Fixture.environ_ok
  = Ok {| Config.api_key := None; Config.project_id := Some 42;
          Config.base_url := "https://api.evalforge.dev";
          Config.batch_size := 100;
          Config.flush_interval := Float.of_Z 5; Config.max_retries := 3;
          Config.timeout := Float.of_Z 30; Config.debug := true |}.
Proof. vm_compute. reflexivity. Qed.

Lemma first_some_assoc :
  forall (A : Type) (x y z : option A),
    Config.first_some x (Config.first_some y z)
    = Config.first_some (Config.first_some x y) z.
Proof. intros A [v |] y z; reflexivity. Qed.

Lemma obj_or_first_some :
  forall (A : Type) (x y : option A) (d : A),
    obj_or x (obj_or y d) = obj_or (Config.first_some x y) d.
Proof. intros A [v |] y d; reflexivity. Qed.

(** X11: Calls of the module-level [configure] accumulate: two calls in a row
    have the effect of one call with the arguments of the second where it
    gives any and those of the first elsewhere; a call without arguments
    changes nothing, and so does repeating a call. *)
Theorem configure_calls_merge :
  forall c a b,
    Config.configure (Config.configure c a) b
    = Config.configure c (Config.merge b a)
    /\ Config.configure c Config.nothing = c
    /\ Config.configure (Config.configure c a) a = Config.configure c a.
Proof.
  assert (Hmerge : forall c a b,
             Config.configure (Config.configure c a) b
             = Config.configure c (Config.merge b a)).
  { intros c a b. unfold Config.configure, Config.merge.
    cbn [Config.api_key Config.project_id Config.base_url Config.batch_size
         Config.flush_interval Config.max_retries Config.timeout Config.debug
         Config.s_api_key Config.s_project_id Config.s_base_url
         Config.s_batch_size Config.s_flush_interval Config.s_max_retries
         Config.s_timeout Config.s_debug].
    rewrite !first_some_assoc, !obj_or_first_some. reflexivity. }
  intros c a b. split; [apply Hmerge | split].
  - destruct c. reflexivity.
  - rewrite Hmerge. f_equal. unfold Config.merge.
    destruct a as [[?|] [?|] [?|] [?|] [?|] [?|] [?|] [?|]]; reflexivity.
Qed.

(** A later [load_from_env] does not merge: what [configure] had set is
    gone, here the API key. *)
Example load_from_env_discards :
  let configured :=
    Config.configure Config.__init__
      {| Config.s_api_key := Some "key"; Config.s_project_id := None;
         Config.s_base_url := None; Config.s_batch_size := Some 10;
         Config.s_flush_interval := None; Config.s_max_retries := None;
         Config.s_timeout := None; Config.s_debug := None |} in
  Config.api_key configured = Some "key"
  /\ Config.api_key
       (snd (Config.load_from_env Fixture.int_of_str Fixture.float_of_str
               Fixture.environ_ok configured))
     = None
  /\ snd (Config.load_from_env Fixture.int_of_str Fixture.float_of_str
            Fixture.environ configured)
     = configured.
Proof. vm_compute. repeat split. Qed.

(** ** decorators.py: what gets recorded *)

Lemma build_event_with :
  forall self a env,
    EvalForge.build_event self a env
    = (d <- EvalForge.duration_ms_of
              (obj_or (EvalForge.start_time a)
                 {| micros := EvalForge.now_micros env; aware := true |})
              (obj_or (EvalForge.end_time a)
                 {| micros := EvalForge.now_micros env; aware := true |}) ;;
       Ok (str_or (EvalForge.trace_id a) (EvalForge.fresh_trace_id env),
           event_with self a env d)).
Proof. reflexivity. Qed.

(** [trace] called with two aware timestamps on a client with an unbounded
    queue. *)
Lemma trace_appends :
  forall self a env t0 t1,
    maxsize (_event_queue self) = 0 ->
    EvalForge.start_time a = Some {| micros := t0; aware := true |} ->
    EvalForge.end_time a = Some {| micros := t1; aware := true |} ->
    - 2 ^ 63 < t1 - t0 < 2 ^ 63 ->
    exists d,
      (t0 <= t1 -> 0 <= d)
      /\ EvalForge.trace self a env
         = (Ok (str_or (EvalForge.trace_id a) (EvalForge.fresh_trace_id env)),
            enqueued self (event_with self a env d), []).
Proof.
  intros self a env t0 t1 Hmax H0 H1 Hrange.
  destruct (duration_defined {| micros := t0; aware := true |}
              {| micros := t1; aware := true |} eq_refl Hrange)
    as (d & Hd & Hpos & _).
  exists d. split; [exact Hpos |].
  unfold EvalForge.trace. rewrite build_event_with, H0, H1. cbn [obj_or].
  rewrite Hd. cbn [bind]. unfold Queue_.put_nowait. rewrite Hmax. reflexivity.
Qed.

Lemma str_or_some :
  forall s d, s <> "" -> str_or (Some s) d = s.
Proof. intros [| c s] d H; [contradiction | reflexivity]. Qed.

Lemma str_or_some_empty : forall s, str_or (Some s) "" = s.
Proof. intros [| c s]; reflexivity. Qed.

(** X12: Leaving a [with TraceContext(...)] block that was entered at [t0], at
    time [now], with a client configured: exactly one event is appended to
    the client's queue.  It is an error event carrying the exception's text
    and type name if an exception is leaving the block, else a success event
    with an empty output; it carries the context's input, metadata, parent
    span and ids and the two times.  What [set_output] stored is not part of
    it.  Without a client nothing happens at all. *)
Theorem context_exit_records_one_event :
  forall a started acts ctx exc t0 now env,
    let self := System.client (fst (System.run (System.start a started) acts)) in
    let entered := TraceContext.__enter__ ctx t0 in
    - 2 ^ 63 < now - t0 < 2 ^ 63 ->
    (exists ev,
        TraceContext.__exit__ entered exc (Some self) now env
        = (Ok tt,
           TraceContext.set_times ctx
             (Some {| micros := t0; aware := true |})
             (Some {| micros := now; aware := true |}),
           Some (enqueued self ev))
        /\ ev_status ev = match exc with Some _ => "error" | None => "success" end
        /\ ev_output ev = match exc with Some e => error_dict e | None => [] end
        /\ ev_input ev = tc_input_data ctx
        /\ ev_metadata ev = tc_metadata ctx
        /\ ev_parent_span_id ev = tc_parent_span_id ctx
        /\ (tc_trace_id ctx <> "" -> ev_trace_id ev = tc_trace_id ctx)
        /\ (tc_span_id ctx <> "" -> ev_span_id ev = tc_span_id ctx)
        /\ ev_start_time ev = {| micros := t0; aware := true |}
        /\ ev_end_time ev = {| micros := now; aware := true |}
        /\ (t0 <= now -> 0 <= ev_duration_ms ev))
    /\ (forall output g,
          snd (TraceContext.__exit__ (TraceContext.set_output entered output)
                 exc g now env)
          = snd (TraceContext.__exit__ entered exc g now env))
    /\ TraceContext.__exit__ entered exc None now env = (Ok tt, entered, None).
Proof.
  intros a started acts ctx exc t0 now env self entered Hrange.
  destruct (reachable_client a started acts) as [_ Hmax]. fold self in Hmax.
  split; [| split].
  - set (leaving := TraceContext.set_times entered (tc_start_time entered)
                      (Some {| micros := now; aware := true |})).
    destruct (trace_appends self (TraceContext.exit_call leaving exc) env t0 now
                Hmax eq_refl eq_refl Hrange) as (d & Hpos & Htrace).
    exists (event_with self (TraceContext.exit_call leaving exc) env d).
    split.
    + unfold TraceContext.__exit__. cbn [Global.get_client].
      fold leaving. rewrite Htrace. reflexivity.
    + cbn. repeat split; try (destruct exc; reflexivity); try exact Hpos.
      * apply str_or_some.
      * apply str_or_some.
  - intros output [client |]; [| reflexivity].
    unfold TraceContext.__exit__. cbn [Global.get_client].
    change (TraceContext.exit_call
              (TraceContext.set_times (TraceContext.set_output entered output)
                 (tc_start_time (TraceContext.set_output entered output))
                 (Some {| micros := now; aware := true |})) exc)
      with (TraceContext.exit_call
              (TraceContext.set_times entered (tc_start_time entered)
                 (Some {| micros := now; aware := true |})) exc).
    destruct (EvalForge.trace client _ env) as [[r c] out]. reflexivity.
  - reflexivity.
Qed.

Lemma context_exit_witness :
  exists ev,
    snd (TraceContext.__exit__
           (TraceContext.__enter__ Fixture.context 1700000000000000)
           (Some Fixture.key_error) (Some Sample.client)
           1700000000500000 Sample.env)
    = Some (enqueued Sample.client ev)
    /\ ev_status ev = "error"
    /\ ev_output ev = [("error", JStr "'x'"); ("error_type", JStr "KeyError")].
Proof.
  destruct (proj1 (context_exit_records_one_event Sample.kw (Float.of_Z 0) []
                     Fixture.context (Some Fixture.key_error)
                     1700000000000000 1700000000500000 Sample.env
                     ltac:(vm_compute; split; reflexivity)))
    as (ev & Hexit & Hstatus & Houtput & _).
  exists ev. split; [| split; [exact Hstatus | exact Houtput]].
  change Sample.client
    with (System.client (fst (System.run (System.start Sample.kw (Float.of_Z 0)) []))).
  rewrite Hexit. reflexivity.
Defined.

(** The sample context left after half a second: the duration is 500 ms. *)
Example context_exit_sample :
  option_map (fun c => map ev_duration_ms (items (_event_queue c)))
    (snd (TraceContext.__exit__
            (TraceContext.__enter__ Fixture.context 1700000000000000)
            None (Some Sample.client) 1700000000500000 Sample.env))
  = Some [500].
Proof. vm_compute. reflexivity. Qed.

(** X13: The event recorded for a child context points at its parent through
    [parent_span_id] and takes over the parent's provider and model where the
    child names none (or an empty one), but its trace id is the child's own
    [uuid4] draw: parent and child are not recorded under one trace id. *)
Theorem child_event_links_to_parent :
  forall a started acts parent ka uuid_trace uuid_span exc t0 now env,
    let self := System.client (fst (System.run (System.start a started) acts)) in
    let c := TraceContext.child parent ka uuid_trace uuid_span in
    uuid_trace <> "" ->
    - 2 ^ 63 < now - t0 < 2 ^ 63 ->
    exists ev,
      snd (TraceContext.__exit__ (TraceContext.__enter__ c t0) exc (Some self) now env)
      = Some (enqueued self ev)
      /\ ev_parent_span_id ev = Some (tc_span_id parent)
      /\ ev_trace_id ev = uuid_trace
      /\ ev_provider ev = str_or (TraceContext.kw_provider ka) (tc_provider parent)
      /\ ev_model ev = str_or (TraceContext.kw_model ka) (tc_model parent)
      /\ ev_operation_type ev = TraceContext.kw_operation_type ka.
Proof.
  intros a started acts parent ka uuid_trace uuid_span exc t0 now env self c
    Huuid Hrange.
  destruct (reachable_client a started acts) as [_ Hmax]. fold self in Hmax.
  set (leaving := TraceContext.set_times (TraceContext.__enter__ c t0)
                    (tc_start_time (TraceContext.__enter__ c t0))
                    (Some {| micros := now; aware := true |})).
  destruct (trace_appends self (TraceContext.exit_call leaving exc) env t0 now
              Hmax eq_refl eq_refl Hrange) as (d & _ & Htrace).
  exists (event_with self (TraceContext.exit_call leaving exc) env d).
  split.
  - unfold TraceContext.__exit__. cbn [Global.get_client].
    fold leaving. rewrite Htrace. reflexivity.
  - cbn -[str_or]. repeat split.
    + apply str_or_some. exact Huuid.
    + rewrite !str_or_some_empty. reflexivity.
    + rewrite !str_or_some_empty. reflexivity.
Qed.

Lemma child_event_witness :
  exists ev,
    snd (TraceContext.__exit__
           (TraceContext.__enter__
              (TraceContext.child Fixture.context Fixture.step_1 "uuid-u" "uuid-v")
              1700000000000000)
           None (Some Sample.client) 1700000000500000 Sample.env)
    = Some (enqueued Sample.client ev)
    /\ ev_parent_span_id ev = Some "uuid-s"
    /\ ev_trace_id ev = "uuid-u"
    /\ ev_provider ev = "openai".
Proof.
  destruct (child_event_links_to_parent Sample.kw (Float.of_Z 0) []
              Fixture.context Fixture.step_1 "uuid-u" "uuid-v" None
              1700000000000000 1700000000500000 Sample.env
              ltac:(discriminate) ltac:(vm_compute; split; reflexivity))
    as (ev & Hexit & Hparent & Htrace & Hprovider & _).
  exists ev. split; [exact Hexit |]. split; [exact Hparent |].
  split; [exact Htrace | exact Hprovider].
Defined.

(** X14: A function decorated with [@trace(...)], called with a client
    configured and arguments that bind: the caller gets exactly what the
    function gives, its return value or its exception.  A return is recorded
    as one success event (with the result as output under
    [capture_result]), an exception that is an [Exception] as one error
    event (with its text and type name under [capture_exceptions]); an
    exception outside [Exception], such as [KeyboardInterrupt], passes
    through and leaves no event. *)
Theorem wrapper_is_transparent :
  forall a started acts o c e input_data,
    let self := System.client (fst (System.run (System.start a started) acts)) in
    Decorator.gather o c = Ok input_data ->
    - 2 ^ 63 < Decorator.end_micros e - Decorator.start_micros e < 2 ^ 63 ->
    fst (Decorator.wrapper o c (Some self) e) = Decorator.func_outcome c
    /\ (forall v,
         Decorator.func_outcome c = Decorator.Returns v ->
         exists ev,
           snd (Decorator.wrapper o c (Some self) e) = Some (enqueued self ev)
           /\ ev_status ev = "success"
           /\ ev_output ev
              = (if Decorator.capture_result o
                 then [("result", Decorator.captured v)] else [])
           /\ ev_input ev = input_data
           /\ ev_operation_type ev
              = str_or (Decorator.operation_type o) (Decorator.func_name c))
    /\ (forall exc,
         Decorator.func_outcome c = Decorator.Raises exc ->
         is_Exception exc = true ->
         exists ev,
           snd (Decorator.wrapper o c (Some self) e) = Some (enqueued self ev)
           /\ ev_status ev = "error"
           /\ ev_output ev
              = (if Decorator.capture_exceptions o then error_dict exc else [])
           /\ ev_input ev = input_data)
    /\ (forall exc,
         Decorator.func_outcome c = Decorator.Raises exc ->
         is_Exception exc = false ->
         snd (Decorator.wrapper o c (Some self) e) = Some self).
Proof.
  intros a started acts o c e input_data self Hgather Hrange.
  destruct (reachable_client a started acts) as [_ Hmax]. fold self in Hmax.
  unfold Decorator.wrapper. cbn [Global.get_client]. rewrite Hgather.
  destruct (Decorator.func_outcome c) as [v | exc].
  - set (output := if Decorator.capture_result o
                   then [("result", Decorator.captured v)] else []).
    destruct (trace_appends self
                (Decorator.trace_call o c e input_data output
                   (Decorator.end_micros e) "success")
                (Decorator.trace_env e)
                (Decorator.start_micros e) (Decorator.end_micros e)
                Hmax eq_refl eq_refl Hrange) as (d & _ & Htrace).
    rewrite Htrace. cbn [fst snd].
    split; [reflexivity |]. split; [| split; intros exc H; discriminate].
    intros v' Hv. injection Hv as <-. eexists. split; [reflexivity |].
    repeat split.
  - destruct (is_Exception exc) eqn:Hexc.
    + unfold Decorator.handler.
      set (output := if Decorator.capture_exceptions o then error_dict exc else []).
      destruct (trace_appends self
                  (Decorator.trace_call o c e input_data output
                     (Decorator.end_micros e) "error")
                  (Decorator.trace_env e)
                  (Decorator.start_micros e) (Decorator.end_micros e)
                  Hmax eq_refl eq_refl Hrange) as (d & _ & Htrace).
      rewrite Htrace. cbn [fst snd].
      split; [reflexivity |]. split; [intros v H; discriminate |].
      split; [| intros exc' H Hno; injection H as <-; congruence].
      intros exc' H _. injection H as <-. eexists. split; [reflexivity |].
      repeat split.
    + cbn [fst snd]. split; [reflexivity |]. split; [intros v H; discriminate |].
      split; [intros exc' H Hyes; injection H as <-; congruence |].
      intros exc' _ _. reflexivity.
Qed.

Lemma wrapper_is_transparent_witness :
  fst (Decorator.wrapper Fixture.plain_trace
         (Fixture.process_call (Decorator.Raises Fixture.key_error))
         (Some Sample.client) Fixture.wrapper_env)
  = Decorator.Raises Fixture.key_error
  /\ snd (Decorator.wrapper Fixture.plain_trace
            (Fixture.process_call (Decorator.Raises Fixture.interrupt))
            (Some Sample.client) Fixture.wrapper_env)
     = Some Sample.client.
Proof.
  split.
  - refine (proj1 (wrapper_is_transparent Sample.kw (Float.of_Z 0) []
                     Fixture.plain_trace
                     (Fixture.process_call (Decorator.Raises Fixture.key_error))
                     Fixture.wrapper_env _ _ _)).
    + reflexivity.
    + vm_compute. split; reflexivity.
  - refine (proj2 (proj2 (proj2
              (wrapper_is_transparent Sample.kw (Float.of_Z 0) []
                 Fixture.plain_trace
                 (Fixture.process_call (Decorator.Raises Fixture.interrupt))
                 Fixture.wrapper_env _ _ _))) Fixture.interrupt _ _).
    + reflexivity.
    + vm_compute. split; reflexivity.
    + reflexivity.
    + reflexivity.
Defined.

(** The sample call that returns 2: its event has the public argument, the
    unprintable one under its type name, and the result; the private
    argument is left out. *)
Example wrapper_sample_event :
  option_map
    (fun client => map (fun ev => (ev_operation_type ev, ev_input ev, ev_output ev))
                     (items (_event_queue client)))
    (snd (Decorator.wrapper Fixture.plain_trace
            (Fixture.process_call (Decorator.Returns (Decorator.Plain (JInt 2))))
            (Some Sample.client) Fixture.wrapper_env))
  = Some [("process",
           [("data", JInt 1); ("conn", JStr "<Connection>")],
           [("result", JInt 2)])].
Proof. vm_compute. reflexivity. Qed.

(** X15: The wrapper steps aside in two cases.  Without a configured client it
    is the function itself: same outcome, nothing else touched.  With one,
    if the arguments do not bind to the signature while [capture_args] is on,
    the binding error is raised instead of calling the function, and nothing
    is recorded. *)
Theorem wrapper_steps_aside :
  forall o c e,
    Decorator.wrapper o c None e = (Decorator.func_outcome c, None)
    /\ forall client err,
         Decorator.capture_args o = true ->
         Decorator.bound_arguments c = Raise err ->
         Decorator.wrapper o c (Some client) e
         = (Decorator.Raises (raised_of err), Some client).
Proof.
  intros o c e. split; [reflexivity |].
  intros client err Hcapture Hbind.
  unfold Decorator.wrapper, Decorator.gather. cbn [Global.get_client].
  rewrite Hcapture, Hbind. reflexivity.
Qed.

Lemma wrapper_steps_aside_witness :
  Decorator.wrapper Fixture.plain_trace
    {| Decorator.func_name := "process"; Decorator.func_module := "app";
       Decorator.func_qualname := "process";
       Decorator.bound_arguments := Raise (TypeError "missing a required argument: 'data'");
       Decorator.func_outcome := Decorator.Returns (Decorator.Plain JNull) |}
    (Some Sample.client) Fixture.wrapper_env
  = (Decorator.Raises
       {| exc_type := "TypeError"; exc_str := "missing a required argument: 'data'";
          is_Exception := true |},
     Some Sample.client).
Proof.
  refine (proj2 (wrapper_steps_aside Fixture.plain_trace _ Fixture.wrapper_env)
            Sample.client (TypeError "missing a required argument: 'data'") _ _);
    reflexivity.
Defined.

Lemma map_fst_capture :
  forall (keep : string * Decorator.value -> bool) args,
    map fst (map (fun kv => (fst kv, Decorator.captured (snd kv))) (filter keep args))
    = map fst (filter keep args).
Proof.
  intros keep args. rewrite map_map. reflexivity.
Qed.

Lemma filter_map_fst :
  forall (A B : Type) (f : A -> bool) (l : list (A * B)),
    map fst (filter (fun kv => f (fst kv)) l) = filter f (map fst l).
Proof.
  intros A B f l. induction l as [| kv l IH]; [reflexivity |].
  cbn [filter map]. destruct (f (fst kv)); cbn [map]; rewrite IH; reflexivity.
Qed.

(** X16: Captured arguments: unless [include_private_args] is set, no argument
    whose name starts with an underscore is recorded; the names recorded are
    the other names, in signature order, and with [include_private_args]
    all names.  An argument of a basic type is recorded as itself, any other
    object as its [str], and as its type name in angle brackets when its
    [str] raises; nothing else is recorded. *)
Theorem captured_arguments_skip_private :
  forall o args,
    (Decorator.include_private_args o = false ->
     Forall (fun kv => Decorator.is_private (fst kv) = false)
       (Decorator.capture_arguments o args)
     /\ map fst (Decorator.capture_arguments o args)
        = filter (fun name => negb (Decorator.is_private name)) (map fst args))
    /\ (Decorator.include_private_args o = true ->
        map fst (Decorator.capture_arguments o args) = map fst args)
    /\ (forall name j,
         In (name, Decorator.Plain j) args ->
         Decorator.is_private name = false ->
         In (name, j) (Decorator.capture_arguments o args))
    /\ (forall name type_name text,
         In (name, Decorator.Object type_name (Ok text)) args ->
         Decorator.is_private name = false ->
         In (name, JStr text) (Decorator.capture_arguments o args))
    /\ (forall name type_name e,
         In (name, Decorator.Object type_name (Raise e)) args ->
         Decorator.is_private name = false ->
         In (name, JStr ("<" ++ type_name ++ ">")) (Decorator.capture_arguments o args))
    /\ (forall name stored,
         In (name, stored) (Decorator.capture_arguments o args) ->
         exists v,
           In (name, v) args
           /\ stored = match v with
                       | Decorator.Plain j => j
                       | Decorator.Object _ (Ok text) => JStr text
                       | Decorator.Object type_name (Raise _) =>
                           JStr ("<" ++ type_name ++ ">")
                       end).
Proof.
  intros o args.
  assert (Hpublic : forall name v,
             In (name, v) args ->
             Decorator.is_private name = false ->
             In (name, Decorator.captured v) (Decorator.capture_arguments o args)).
  { intros name v Hin Hpub. unfold Decorator.capture_arguments.
    apply in_map_iff. exists (name, v). split; [reflexivity |].
    apply filter_In. split; [exact Hin |]. cbn [fst]. rewrite Hpub.
    apply orb_true_r. }
  split; [| split; [| split; [| split; [| split]]]].
  - intros Hopt. unfold Decorator.capture_arguments. rewrite Hopt. cbn [orb]. split.
    + apply Forall_forall. intros kv Hin. apply in_map_iff in Hin.
      destruct Hin as (kv' & <- & Hin). apply filter_In in Hin.
      destruct Hin as [_ Hpub]. cbn [fst]. apply negb_true_iff. exact Hpub.
    + rewrite map_fst_capture.
      apply (filter_map_fst _ _ (fun name => negb (Decorator.is_private name))).
  - intros Hopt. unfold Decorator.capture_arguments. rewrite Hopt. cbn [orb].
    rewrite map_fst_capture. f_equal. clear Hpublic.
    induction args as [| kv args IH]; [reflexivity |].
    cbn [filter]. rewrite IH. reflexivity.
  - intros name j Hin Hpub. exact (Hpublic name _ Hin Hpub).
  - intros name type_name text Hin Hpub. exact (Hpublic name _ Hin Hpub).
  - intros name type_name e Hin Hpub. exact (Hpublic name _ Hin Hpub).
  - intros name stored Hin. unfold Decorator.capture_arguments in Hin.
    apply in_map_iff in Hin. destruct Hin as ([name' v] & Heq & Hin).
    cbn [fst snd] in Heq. injection Heq as -> <-.
    apply filter_In in Hin. destruct Hin as [Hin _].
    exists v. split; [exact Hin |].
    destruct v as [j | type_name [text | e]]; reflexivity.
Qed.

Lemma captured_arguments_witness :
  map fst (Decorator.capture_arguments Fixture.plain_trace
             Fixture.arguments_of_each_kind)
  = ["data"; "path"; "conn"]
  /\ In ("data", JInt 1)
       (Decorator.capture_arguments Fixture.plain_trace Fixture.arguments_of_each_kind)
  /\ In ("path", JStr "/tmp/x")
       (Decorator.capture_arguments Fixture.plain_trace Fixture.arguments_of_each_kind)
  /\ In ("conn", JStr "<Connection>")
       (Decorator.capture_arguments Fixture.plain_trace Fixture.arguments_of_each_kind).
Proof.
  destruct (captured_arguments_skip_private Fixture.plain_trace
              Fixture.arguments_of_each_kind)
    as (Hnames & _ & Hplain & Hstr & Hname & _).
  split; [rewrite (proj2 (Hnames eq_refl)); reflexivity |].
  split; [apply Hplain; [left; reflexivity | reflexivity] |].
  split.
  - apply (Hstr "path" "PosixPath" "/tmp/x"); [| reflexivity].
    right; right; left. reflexivity.
  - apply (Hname "conn" "Connection" (ValueError "closed")); [| reflexivity].
    right; right; right; left. reflexivity.
Defined.

(** The recorded mapping for that call, whole. *)
Example captured_arguments_sample :
  Decorator.capture_arguments Fixture.plain_trace Fixture.arguments_of_each_kind
  = [("data", JInt 1); ("path", JStr "/tmp/x"); ("conn", JStr "<Connection>")].
Proof. reflexivity. Qed.

(** ** wrappers.py: token counts and cost *)

(** X17: Token counts taken from a provider response.  From an OpenAI response
    the reported total is kept unless it is 0, in which case it becomes
    prompt + completion; from an Anthropic response the total is always
    input + output; without usage data all three counts are 0. *)
Theorem extracted_tokens_total :
  (forall u,
      let t := Wrappers._extract_openai_tokens (Some u) in
      prompt t = Wrappers.prompt_tokens u
      /\ completion t = Wrappers.completion_tokens u
      /\ (Wrappers.total_tokens u <> 0 -> total t = Wrappers.total_tokens u)
      /\ (Wrappers.total_tokens u = 0
          -> total t = Wrappers.prompt_tokens u + Wrappers.completion_tokens u))
  /\ (forall u,
         let t := Wrappers._extract_anthropic_tokens (Some u) in
         prompt t = Wrappers.input_tokens u
         /\ completion t = Wrappers.output_tokens u
         /\ total t = Wrappers.input_tokens u + Wrappers.output_tokens u)
  /\ Wrappers._extract_openai_tokens None
     = {| prompt := 0; completion := 0; total := 0 |}
  /\ Wrappers._extract_anthropic_tokens None
     = {| prompt := 0; completion := 0; total := 0 |}.
Proof.
  split; [| split; [| split; reflexivity]].
  - intros [p c t].
    unfold Wrappers._extract_openai_tokens, TokenUsage.__init__, TokenUsage.base_init.
    cbn [TokenUsage.kw_prompt TokenUsage.kw_completion TokenUsage.kw_total obj_or
         prompt completion total Wrappers.prompt_tokens Wrappers.completion_tokens
         Wrappers.total_tokens].
    destruct (Z.eqb_spec t 0) as [Ht | Ht]; cbn [prompt completion total].
    + split; [reflexivity | split; [reflexivity | split]].
      * intros Hne. contradiction.
      * intros _. reflexivity.
    + split; [reflexivity | split; [reflexivity | split]].
      * intros _. reflexivity.
      * intros Hz. contradiction.
  - intros [i o].
    unfold Wrappers._extract_anthropic_tokens, TokenUsage.__init__,
      TokenUsage.base_init.
    cbn [TokenUsage.kw_prompt TokenUsage.kw_completion TokenUsage.kw_total obj_or
         prompt completion total Wrappers.input_tokens Wrappers.output_tokens].
    destruct (Z.eqb_spec (i + o) 0) as [Hs | Hs]; cbn [prompt completion total];
      (split; [reflexivity | split; reflexivity]).
Qed.

Lemma extracted_tokens_witness :
  total (Wrappers._extract_openai_tokens
           (Some {| Wrappers.prompt_tokens := 10; Wrappers.completion_tokens := 5;
                    Wrappers.total_tokens := 0 |})) = 15
  /\ total (Wrappers._extract_openai_tokens
              (Some {| Wrappers.prompt_tokens := 10; Wrappers.completion_tokens := 5;
                       Wrappers.total_tokens := 17 |})) = 17.
Proof.
  split.
  - apply (proj1 extracted_tokens_total
             {| Wrappers.prompt_tokens := 10; Wrappers.completion_tokens := 5;
                Wrappers.total_tokens := 0 |}).
    reflexivity.
  - apply (proj1 extracted_tokens_total
             {| Wrappers.prompt_tokens := 10; Wrappers.completion_tokens := 5;
                Wrappers.total_tokens := 17 |}).
    discriminate.
Defined.

Lemma iter_xO_value :
  forall d m, Z.pos (Pos.iter xO m d) = Z.pos m * 2 ^ Z.pos d.
Proof.
  induction d as [| d IH] using Pos.peano_ind; intros m.
  - cbn [Pos.iter]. change (2 ^ 1) with 2. lia.
  - rewrite Pos.iter_succ, Pos2Z.inj_xO, IH, Pos2Z.inj_succ, Z.pow_succ_r by lia.
    ring.
Qed.

(** Aligning a mantissa to another exponent keeps the magnitude bound. *)
Lemma shl_align_bound :
  forall m e e' B,
    Z.pos m < 2 ^ (B - e) ->
    Z.pos (fst (shl_align m e e')) < 2 ^ (B - snd (shl_align m e e'))
    /\ snd (shl_align m e e') <= e
    /\ (e' <= e -> snd (shl_align m e e') = e').
Proof.
  intros m e e' B Hm. unfold shl_align.
  assert (HBe : 0 <= B - e).
  { destruct (Z.le_gt_cases 0 (B - e)) as [H | H]; [exact H |].
    rewrite Z.pow_neg_r in Hm by exact H. lia. }
  destruct (e' - e) as [| d | d] eqn:Hd; cbn [fst snd].
  - split; [exact Hm | split; [lia | intros; lia]].
  - split; [exact Hm | split; [lia | intros; lia]].
  - rewrite iter_xO_value.
    replace (B - e') with ((B - e) + Z.pos d) by lia.
    rewrite Z.pow_add_r by lia.
    pose proof (Z.pow_pos_nonneg 2 (Z.pos d)).
    split; [nia | split; [lia | intros; lia]].
Qed.

Lemma binary_round_bounded :
  forall sx m e B,
    Z.pos m < 2 ^ (B - e) -> e <= 971 -> -1074 <= B <= 1023 ->
    match binary_round Float.prec Float.emax sx m e with
    | S754_zero s => s = sx
    | S754_finite s m' e' => s = sx /\ e' <= 971 /\ Z.pos m' < 2 ^ (B + 1 - e')
    | _ => False
    end.
Proof.
  intros sx m e B Hm He HB. unfold binary_round.
  pose proof (shl_align_bound m e
                (fexp Float.prec Float.emax (Z.pos (digits2_pos m) + e)) B Hm)
    as (Hv & Hle & _).
  destruct (shl_align m e (fexp Float.prec Float.emax (Z.pos (digits2_pos m) + e)))
    as [mz ez]. cbn [fst snd] in *.
  apply binary_round_aux_bounded; [split; [lia | exact Hv] | lia | exact HB].
Qed.

(** The quotient of a count below [2^63] by a positive divisor. *)
Lemma div_core_bounded :
  forall p q,
    Z.pos p < 2 ^ 63 ->
    let r := SFdiv_core_binary Float.prec Float.emax (Z.pos p) 0 (Z.pos q) 0 in
    0 <= fst (fst r) < 2 ^ (63 - snd (fst r)) /\ snd (fst r) <= 0.
Proof.
  intros p q Hp. unfold SFdiv_core_binary.
  remember (Z.min (fexp Float.prec Float.emax
                     (Zdigits2 (Z.pos p) + 0 - (Zdigits2 (Z.pos q) + 0))) (0 - 0))
    as e' eqn:He'.
  assert (Hneg : e' <= 0) by (subst e'; apply Z.le_min_r).
  clear He'.
  assert (Hm' : 0 <= match 0 - 0 - e' with
                     | 0 => Z.pos p
                     | Z.pos _ => Z.shiftl (Z.pos p) (0 - 0 - e')
                     | Z.neg _ => 0
                     end < 2 ^ (63 - e')).
  { destruct (0 - 0 - e') as [| n | n] eqn:Hs.
    - replace e' with 0 by lia. exact (conj (Pos2Z.is_nonneg p) Hp).
    - rewrite Z.shiftl_mul_pow2 by lia.
      replace (63 - e') with (63 + Z.pos n) by lia.
      rewrite Z.pow_add_r by lia.
      pose proof (Z.pow_pos_nonneg 2 (Z.pos n)). nia.
    - lia. }
  remember (match 0 - 0 - e' with
            | 0 => Z.pos p
            | Z.pos _ => Z.shiftl (Z.pos p) (0 - 0 - e')
            | Z.neg _ => 0
            end) as m' eqn:Hdef. clear Hdef.
  pose proof (Z_div_mod m' (Z.pos q) eq_refl) as Hdiv.
  destruct (Z.div_eucl m' (Z.pos q)) as [quo r]. cbn [fst snd].
  pose proof (Pos2Z.is_pos q). split; [nia | exact Hneg].
Qed.

Lemma int_truediv_below :
  forall n,
    0 <= n < 2 ^ 63 ->
    exists x, Wrappers.int_truediv n 1000 = Ok x /\ Wrappers.below 64 x.
Proof.
  intros n Hn. unfold Wrappers.int_truediv.
  change (1000 =? 0) with false. cbv iota.
  change (Float.int_mantissa 1000) with (S754_finite false 1000 0).
  destruct n as [| p | p]; [| | lia].
  - exists (S754_zero false). split; [reflexivity | exact I].
  - cbn [Float.int_mantissa]. unfold SFdiv.
    pose proof (div_core_bounded p 1000 (proj2 Hn)) as Hq.
    destruct (SFdiv_core_binary Float.prec Float.emax (Z.pos p) 0 1000 0)
      as [[mz ez] lz]. cbn [fst snd] in Hq. destruct Hq as [Hmz Hez].
    pose proof (binary_round_aux_bounded (xorb false false) mz ez lz 63 Hmz) as Hr.
    destruct (binary_round_aux Float.prec Float.emax (xorb false false) mz ez lz)
      as [s | s | | s m e].
    + exists (S754_zero s). split; [reflexivity |].
      rewrite Hr by lia. exact I.
    + exfalso. apply Hr; lia.
    + exfalso. apply Hr; lia.
    + destruct Hr as (-> & He & Hm); [lia | lia |].
      exists (S754_finite (xorb false false) m e). split; [reflexivity |].
      cbn. split; [exact He | exact Hm].
Qed.

Lemma mul_price_below :
  forall x p,
    Wrappers.below 64 x -> Wrappers.price_ok p = true ->
    Wrappers.below 118 (Float.mul x p).
Proof.
  intros x p Hx Hp. unfold Float.mul.
  destruct x as [[] | | | [] m e]; try contradiction;
    destruct p as [[] | | | [] mp ep]; try discriminate; try exact I.
  cbn [Wrappers.below] in Hx. destruct Hx as [He Hm].
  cbn [Wrappers.price_ok] in Hp.
  apply andb_true_iff in Hp. destruct Hp as [Hp Hlow].
  apply andb_true_iff in Hp. destruct Hp as [Hmp Hep].
  apply Z.ltb_lt in Hmp. apply Z.leb_le in Hep. apply Z.leb_le in Hlow.
  assert (Hexp : 0 <= 64 - e).
  { destruct (Z.le_gt_cases 0 (64 - e)) as [H | H]; [exact H |].
    rewrite Z.pow_neg_r in Hm by exact H. lia. }
  assert (Hprod : 0 <= Z.pos (m * mp) < 2 ^ (117 - (e + ep))).
  { split; [lia |]. rewrite Pos2Z.inj_mul.
    replace (117 - (e + ep)) with ((64 - e) + 53 + (- ep)) by lia.
    rewrite !Z.pow_add_r by lia.
    pose proof (Z.pow_pos_nonneg 2 (- ep)).
    pose proof (Pos2Z.is_pos m). pose proof (Pos2Z.is_pos mp).
    assert (Z.pos m * Z.pos mp < 2 ^ (64 - e) * 2 ^ 53) by nia.
    assert (1 <= 2 ^ (- ep)) by lia.
    pose proof (Z.pow_pos_nonneg 2 (64 - e)). nia. }
  unfold SFmul.
  pose proof (binary_round_aux_bounded (xorb false false) (Z.pos (m * mp))
                (e + ep) loc_Exact 117 Hprod) as Hr.
  destruct (binary_round_aux Float.prec Float.emax (xorb false false)
              (Z.pos (m * mp)) (e + ep) loc_Exact) as [s | s | | s m' e'].
  - rewrite Hr by lia. exact I.
  - apply Hr; lia.
  - apply Hr; lia.
  - destruct Hr as (-> & He' & Hm'); [lia | lia |]. cbn. split; assumption.
Qed.

Lemma add_below :
  forall x y,
    Wrappers.below 118 x -> Wrappers.below 118 y ->
    Wrappers.is_amount (Wrappers.add x y).
Proof.
  intros x y Hx Hy. unfold Wrappers.add.
  destruct x as [[] | | | [] m1 e1]; try contradiction;
    destruct y as [[] | | | [] m2 e2]; try contradiction; try exact I.
  cbn [Wrappers.below] in Hx, Hy. destruct Hx as [He1 Hm1]. destruct Hy as [He2 Hm2].
  unfold SFadd, cond_Zopp.
  pose proof (shl_align_bound m1 e1 (Z.min e1 e2) 118 Hm1) as (Ha & _ & Hsa).
  pose proof (shl_align_bound m2 e2 (Z.min e1 e2) 118 Hm2) as (Hb & _ & Hsb).
  rewrite Hsa in Ha by lia. rewrite Hsb in Hb by lia.
  destruct (shl_align m1 e1 (Z.min e1 e2)) as [a ea].
  destruct (shl_align m2 e2 (Z.min e1 e2)) as [b eb]. cbn [fst snd] in *.
  change (Z.pos a + Z.pos b) with (Z.pos (a + b)). cbn [binary_normalize].
  assert (Hsum : Z.pos (a + b) < 2 ^ (119 - Z.min e1 e2)).
  { rewrite Pos2Z.inj_add.
    replace (119 - Z.min e1 e2) with (Z.succ (118 - Z.min e1 e2)) by lia.
    rewrite Z.pow_succ_r; [lia |].
    destruct (Z.le_gt_cases 0 (118 - Z.min e1 e2)) as [H | H]; [exact H |].
    rewrite Z.pow_neg_r in Ha by exact H. lia. }
  pose proof (binary_round_bounded false (a + b) (Z.min e1 e2) 119 Hsum) as Hr.
  destruct (binary_round Float.prec Float.emax false (a + b) (Z.min e1 e2))
    as [s | s | | s m e].
  - rewrite Hr by lia. exact I.
  - apply Hr; lia.
  - apply Hr; lia.
  - destruct Hr as (-> & _); [lia | lia |]. exact I.
Qed.

Lemma cost_at_amount :
  forall p tokens,
    Wrappers.price_ok (Wrappers.price_prompt p) = true ->
    Wrappers.price_ok (Wrappers.price_completion p) = true ->
    0 <= prompt tokens < 2 ^ 63 ->
    0 <= completion tokens < 2 ^ 63 ->
    exists x, Wrappers.cost_at p tokens = Ok x /\ Wrappers.is_amount x.
Proof.
  intros p tokens Hpp Hpc Hprompt Hcompletion. unfold Wrappers.cost_at.
  destruct (int_truediv_below (prompt tokens) Hprompt) as (x & -> & Hx).
  destruct (int_truediv_below (completion tokens) Hcompletion) as (y & -> & Hy).
  cbn [bind]. eexists. split; [reflexivity |].
  apply add_below; apply mul_price_below; assumption.
Qed.

Lemma lookup_in :
  forall table model p,
    Wrappers.lookup table model = Some p -> exists name, In (name, p) table.
Proof.
  induction table as [| [name q] table IH]; intros model p H; [discriminate |].
  cbn [Wrappers.lookup] in H. destruct (name =? model)%string.
  - injection H as ->. exists name. left. reflexivity.
  - destruct (IH model p H) as [n Hn]. exists n. right. exact Hn.
Qed.

Lemma table_prices_ok :
  forall table,
    forallb (fun entry => Wrappers.price_ok (Wrappers.price_prompt (snd entry))
                          && Wrappers.price_ok (Wrappers.price_completion (snd entry)))
      table = true ->
    forall model p,
      Wrappers.lookup table model = Some p ->
      Wrappers.price_ok (Wrappers.price_prompt p) = true
      /\ Wrappers.price_ok (Wrappers.price_completion p) = true.
Proof.
  intros table Hall model p Hp.
  destruct (lookup_in table model p Hp) as [name Hin].
  rewrite forallb_forall in Hall. specialize (Hall (name, p) Hin).
  apply andb_true_iff in Hall. exact Hall.
Qed.

(** X18: For every model name and for prompt and completion counts from 0 up to
    [2^63], both cost functions return a float, and it is neither negative
    nor infinite nor NaN.  A model that is not in the table is priced as
    gpt-3.5-turbo, respectively claude-3-sonnet-20240229. *)
Theorem cost_is_an_amount :
  forall model tokens,
    0 <= prompt tokens < 2 ^ 63 ->
    0 <= completion tokens < 2 ^ 63 ->
    (exists x, Wrappers._calculate_openai_cost model tokens = Ok x
               /\ Wrappers.is_amount x)
    /\ (exists y, Wrappers._calculate_anthropic_cost model tokens = Ok y
                  /\ Wrappers.is_amount y)
    /\ (Wrappers.lookup Wrappers.openai_pricing model = None ->
        Wrappers._calculate_openai_cost model tokens
        = Wrappers._calculate_openai_cost "gpt-3.5-turbo" tokens)
    /\ (Wrappers.lookup Wrappers.anthropic_pricing model = None ->
        Wrappers._calculate_anthropic_cost model tokens
        = Wrappers._calculate_anthropic_cost "claude-3-sonnet-20240229" tokens).
Proof.
  intros model tokens Hprompt Hcompletion.
  split; [| split; [| split]].
  - unfold Wrappers._calculate_openai_cost.
    destruct (Wrappers.lookup Wrappers.openai_pricing model) as [p |] eqn:Hp.
    + destruct (table_prices_ok Wrappers.openai_pricing eq_refl model p Hp).
      apply cost_at_amount; assumption.
    + apply cost_at_amount; [reflexivity | reflexivity | assumption | assumption].
  - unfold Wrappers._calculate_anthropic_cost.
    destruct (Wrappers.lookup Wrappers.anthropic_pricing model) as [p |] eqn:Hp.
    + destruct (table_prices_ok Wrappers.anthropic_pricing eq_refl model p Hp).
      apply cost_at_amount; assumption.
    + apply cost_at_amount; [reflexivity | reflexivity | assumption | assumption].
  - intros Hmiss. unfold Wrappers._calculate_openai_cost. rewrite Hmiss. reflexivity.
  - intros Hmiss. unfold Wrappers._calculate_anthropic_cost. rewrite Hmiss.
    reflexivity.
Qed.

Lemma cost_is_an_amount_witness :
  exists x,
    Wrappers._calculate_openai_cost "gpt-5-preview"
      {| prompt := 1000; completion := 500; total := 1500 |} = Ok x
    /\ Wrappers.is_amount x.
Proof.
  refine (proj1 (cost_is_an_amount "gpt-5-preview"
                   {| prompt := 1000; completion := 500; total := 1500 |} _ _));
    vm_compute; split; congruence.
Defined.

(** 1000 prompt and 500 completion tokens on gpt-4 cost 0.03 + 0.03, which
    is the float 0.06; on an unknown model they cost 0.001 + 0.001. *)
Example cost_samples :
  Wrappers._calculate_openai_cost "gpt-4"
    {| prompt := 1000; completion := 500; total := 1500 |}
  = Ok (Wrappers.decimal 6 100)
  /\ Wrappers._calculate_openai_cost "gpt-5-preview"
       {| prompt := 1000; completion := 500; total := 1500 |}
     = Ok (Wrappers.decimal 2 1000).
Proof. vm_compute. split; reflexivity. Qed.

(** ** The package-level names *)

(** X19: The package exports [configure] from config.py, not from client.py.
    So however often [evalforge.configure(...)] is called after import, no
    client exists: a function decorated with [evalforge.trace] runs
    untraced and every recording through the module-level [trace] of
    client.py raises "not configured". *)
Theorem package_configure_creates_no_client :
  forall calls,
    let st := fold_left Package.configure calls Package.initial in
    Package.client st = None
    /\ Package.config st = fold_left Config.configure calls Config.__init__
    /\ (forall o c e,
          Package.traced_call st o c e = (Decorator.func_outcome c, st))
    /\ (forall a env,
          Global.trace (Package.client st) a env
          = (Raise (ValueError Global.not_configured), None, [])).
Proof.
  intros calls.
  assert (Hgen : forall calls st,
             Package.client (fold_left Package.configure calls st)
             = Package.client st
             /\ Package.config (fold_left Package.configure calls st)
                = fold_left Config.configure calls (Package.config st)).
  { clear. induction calls as [| a calls IH]; intros st; [split; reflexivity |].
    cbn [fold_left]. destruct (IH (Package.configure st a)) as [Hc Hf].
    split; [rewrite Hc | rewrite Hf]; reflexivity. }
  destruct (Hgen calls Package.initial) as [Hclient Hconfig].
  cbn zeta. split; [exact Hclient | split; [exact Hconfig | split]].
  - intros o c e. unfold Package.traced_call.
    destruct (fold_left Package.configure calls Package.initial) as [cfg g].
    cbn [Package.client Package.config] in *. subst g. reflexivity.
  - intros a env. rewrite Hclient. reflexivity.
Qed.

(** [client.configure] is what creates the client. *)
Example client_configure_creates_client :
  Global.get_client (snd (Global.configure Sample.kw)) = Some Sample.client.
Proof. reflexivity. Qed.

(** ** The base URL *)

Lemma rstrip_slash_splits :
  forall s, exists k, s = (rstrip_slash s ++ slashes k)%string.
Proof.
  induction s as [| c s IH]; [exists 0%nat; reflexivity |].
  destruct IH as [k Hk]. cbn [rstrip_slash].
  destruct (rstrip_slash s) as [| c' r] eqn:Hr.
  - destruct (Ascii.eqb_spec c "/"%char) as [-> | Hc].
    + exists (S k). cbn. f_equal. exact Hk.
    + exists k. cbn. f_equal. exact Hk.
  - exists k. cbn. f_equal. exact Hk.
Qed.

Lemma rstrip_slash_clean :
  forall s, ends_with_slash (rstrip_slash s) = false.
Proof.
  induction s as [| c s IH]; [reflexivity |].
  cbn [rstrip_slash]. destruct (rstrip_slash s) as [| c' r] eqn:Hr.
  - destruct (Ascii.eqb_spec c "/"%char) as [-> | Hc]; [reflexivity |].
    cbn. apply Ascii.eqb_neq. exact Hc.
  - exact IH.
Qed.

(** X20: The [base_url] of a client is the given URL (or the default) with all
    trailing slashes removed and nothing else changed; the batch URL is that
    followed by the fixed path with the project id in decimal, so it has no
    doubled slash at the join. *)
Theorem base_url_is_stripped :
  forall a,
    let given := obj_or (EvalForge.kw_base_url a) "https://api.evalforge.dev" in
    let self := EvalForge.__init__ a in
    (exists k, given = (base_url self ++ slashes k)%string)
    /\ ends_with_slash (base_url self) = false
    /\ EvalForge.batch_url self
       = (base_url self ++ "/sdk/v1/projects/"
          ++ str_of_int (EvalForge.kw_project_id a) ++ "/events/batch")%string.
Proof.
  intros a given self. split; [| split].
  - apply rstrip_slash_splits.
  - apply rstrip_slash_clean.
  - reflexivity.
Qed.

Example base_url_samples :
  base_url Sample.client = "https://collector.test"
  /\ rstrip_slash "http://localhost:8080///" = "http://localhost:8080"
  /\ rstrip_slash "//" = "".
Proof. repeat split. Qed.

(** ** wrappers.py: the wrapped chat completion *)

Lemma openai_cost_amount :
  forall model tokens,
    0 <= prompt tokens < 2 ^ 63 ->
    0 <= completion tokens < 2 ^ 63 ->
    exists x, Wrappers._calculate_openai_cost model tokens = Ok x
              /\ Wrappers.is_amount x.
Proof.
  intros model tokens Hprompt Hcompletion. unfold Wrappers._calculate_openai_cost.
  destruct (Wrappers.lookup Wrappers.openai_pricing model) as [p |] eqn:Hp.
  - destruct (table_prices_ok Wrappers.openai_pricing eq_refl model p Hp).
    apply cost_at_amount; assumption.
  - apply cost_at_amount; [reflexivity | reflexivity | assumption | assumption].
Qed.

Lemma cost_or_zero_amount :
  forall x, Wrappers.is_amount x -> EvalForge.cost_or_zero (Some x) = x.
Proof.
  intros [[] | | | [] m e] H; try contradiction; reflexivity.
Qed.

Lemma extracted_counts :
  forall u,
    prompt (Wrappers._extract_openai_tokens u)
    = match u with Some v => Wrappers.prompt_tokens v | None => 0 end
    /\ completion (Wrappers._extract_openai_tokens u)
       = match u with Some v => Wrappers.completion_tokens v | None => 0 end.
Proof.
  intros [[p c t] |]; [| split; reflexivity].
  unfold Wrappers._extract_openai_tokens, TokenUsage.__init__, TokenUsage.base_init.
  cbn [TokenUsage.kw_prompt TokenUsage.kw_completion TokenUsage.kw_total obj_or
       prompt completion total Wrappers.prompt_tokens Wrappers.completion_tokens
       Wrappers.total_tokens].
  destruct (t =? 0); split; reflexivity.
Qed.

(** X21: A chat completion call through [wrap_openai], with a client
    configured.  If the returned object has a [choices] attribute, the
    caller gets it back and one success event is recorded, carrying the
    extracted token counts, their cost and the model.  If it has none, the
    wrapper reads [response.choices] all the same (the first read is
    guarded by [hasattr], the second is not): the caller gets an
    [AttributeError] instead of the response, and an error event with zero
    tokens is recorded, although the provider call succeeded.  An [Exception] from the provider is passed on after an error
    event. *)
Theorem chat_wrapper_requires_choices :
  forall a started acts k r e,
    let self := System.client (fst (System.run (System.start a started) acts)) in
    - 2 ^ 63 < OpenAIChat.end_micros e - OpenAIChat.start_micros e < 2 ^ 63 ->
    - 2 ^ 63 < OpenAIChat.handler_micros e - OpenAIChat.start_micros e < 2 ^ 63 ->
    (forall u, OpenAIChat.usage r = Some u ->
               0 <= Wrappers.prompt_tokens u < 2 ^ 63
               /\ 0 <= Wrappers.completion_tokens u < 2 ^ 63) ->
    (forall cs,
        OpenAIChat.choices r = Some cs ->
        exists ev,
          OpenAIChat.wrapper k (OpenAIChat.Returns r) (Some self) e
          = (OpenAIChat.Returns r, Some (enqueued self ev))
          /\ ev_status ev = "success"
          /\ ev_tokens ev = Wrappers._extract_openai_tokens (OpenAIChat.usage r)
          /\ Wrappers._calculate_openai_cost (OpenAIChat.model_of k) (ev_tokens ev)
             = Ok (ev_cost ev)
          /\ ev_model ev = OpenAIChat.model_of k)
    /\ (OpenAIChat.choices r = None ->
        exists ev,
          OpenAIChat.wrapper k (OpenAIChat.Returns r) (Some self) e
          = (OpenAIChat.Raises (OpenAIChat.attribute_error r "choices"),
             Some (enqueued self ev))
          /\ ev_status ev = "error"
          /\ ev_output ev = []
          /\ ev_tokens ev = {| prompt := 0; completion := 0; total := 0 |})
    /\ (forall exc,
          is_Exception exc = true ->
          exists ev,
            OpenAIChat.wrapper k (OpenAIChat.Raises exc) (Some self) e
            = (OpenAIChat.Raises exc, Some (enqueued self ev))
            /\ ev_status ev = "error").
Proof.
  intros a started acts k r e self Hend Hhandler Hcounts.
  destruct (reachable_client a started acts) as [_ Hmax]. fold self in Hmax.
  assert (Hcost : exists x,
             Wrappers._calculate_openai_cost (OpenAIChat.model_of k)
               (Wrappers._extract_openai_tokens (OpenAIChat.usage r)) = Ok x
             /\ Wrappers.is_amount x).
  { destruct (extracted_counts (OpenAIChat.usage r)) as [Hp Hc].
    apply openai_cost_amount; [rewrite Hp | rewrite Hc];
      destruct (OpenAIChat.usage r) as [u |];
      try (destruct (Hcounts u eq_refl); assumption); split; lia. }
  destruct Hcost as (cost & Hcost & Hamount).
  split; [| split].
  - intros cs Hcs. unfold OpenAIChat.wrapper. cbn [Global.get_client].
    rewrite Hcost. unfold OpenAIChat.output_of. rewrite Hcs.
    match goal with
    | |- context [EvalForge.trace self ?call ?tenv] =>
        destruct (trace_appends self call tenv
                    (OpenAIChat.start_micros e) (OpenAIChat.end_micros e)
                    Hmax eq_refl eq_refl Hend) as (d & _ & Htrace)
    end.
    rewrite Htrace. eexists. split; [reflexivity |].
    cbn -[str_or Wrappers._calculate_openai_cost Wrappers._extract_openai_tokens
          EvalForge.cost_or_zero].
    rewrite str_or_some_empty, (cost_or_zero_amount cost Hamount).
    split; [reflexivity | split; [reflexivity | split; [exact Hcost | reflexivity]]].
  - intros Hnone. unfold OpenAIChat.wrapper. cbn [Global.get_client].
    rewrite Hcost. unfold OpenAIChat.output_of. rewrite Hnone.
    unfold OpenAIChat.handler.
    match goal with
    | |- context [EvalForge.trace self ?call ?tenv] =>
        destruct (trace_appends self call tenv
                    (OpenAIChat.start_micros e) (OpenAIChat.handler_micros e)
                    Hmax eq_refl eq_refl Hhandler) as (d & _ & Htrace)
    end.
    rewrite Htrace. eexists. split; [reflexivity |].
    split; [reflexivity | split; reflexivity].
  - intros exc Hexc. unfold OpenAIChat.wrapper. cbn [Global.get_client].
    rewrite Hexc. unfold OpenAIChat.handler.
    match goal with
    | |- context [EvalForge.trace self ?call ?tenv] =>
        destruct (trace_appends self call tenv
                    (OpenAIChat.start_micros e) (OpenAIChat.end_micros e)
                    Hmax eq_refl eq_refl Hend) as (d & _ & Htrace)
    end.
    rewrite Htrace. eexists. split; reflexivity.
Qed.

Lemma chat_wrapper_witness :
  fst (OpenAIChat.wrapper Fixture.chat_kwargs (OpenAIChat.Returns Fixture.stream)
         (Some Sample.client) Fixture.chat_env)
  = OpenAIChat.Raises
      {| exc_type := "AttributeError";
         exc_str := "'Stream' object has no attribute 'choices'";
         is_Exception := true |}
  /\ fst (OpenAIChat.wrapper Fixture.chat_kwargs
            (OpenAIChat.Returns Fixture.completion)
            (Some Sample.client) Fixture.chat_env)
     = OpenAIChat.Returns Fixture.completion.
Proof.
  assert (Hend : - 2 ^ 63 < OpenAIChat.end_micros Fixture.chat_env
                            - OpenAIChat.start_micros Fixture.chat_env < 2 ^ 63)
    by (vm_compute; split; reflexivity).
  assert (Hhandler : - 2 ^ 63 < OpenAIChat.handler_micros Fixture.chat_env
                                - OpenAIChat.start_micros Fixture.chat_env < 2 ^ 63)
    by (vm_compute; split; reflexivity).
  split.
  - destruct (proj1 (proj2 (chat_wrapper_requires_choices Sample.kw (Float.of_Z 0) []
                              Fixture.chat_kwargs Fixture.stream Fixture.chat_env
                              Hend Hhandler
                              ltac:(intros u H; discriminate)))
                eq_refl) as (ev & Hwrap & _).
    change Sample.client
      with (System.client (fst (System.run (System.start Sample.kw (Float.of_Z 0)) []))).
    rewrite Hwrap. reflexivity.
  - destruct (proj1 (chat_wrapper_requires_choices Sample.kw (Float.of_Z 0) []
                       Fixture.chat_kwargs Fixture.completion Fixture.chat_env
                       Hend Hhandler
                       ltac:(intros u H; injection H as <-; vm_compute;
                             repeat split; congruence))
                _ eq_refl) as (ev & Hwrap & _).
    change Sample.client
      with (System.client (fst (System.run (System.start Sample.kw (Float.of_Z 0)) []))).
    rewrite Hwrap. reflexivity.
Defined.

(** The sample completion recorded: 1500 tokens on gpt-4 for 0.06. *)
Example chat_wrapper_sample :
  option_map
    (fun client => map (fun ev => (ev_status ev, total (ev_tokens ev), ev_cost ev))
                     (items (_event_queue client)))
    (snd (OpenAIChat.wrapper Fixture.chat_kwargs
            (OpenAIChat.Returns Fixture.completion)
            (Some Sample.client) Fixture.chat_env))
  = Some [("success", 1500, Wrappers.decimal 6 100)].
Proof. vm_compute. reflexivity. Qed.
